(** * ScreenRecorder: the OBS companion input tracker (obs_tracker_V2.1.py)

    A shallow embedding of [OBSCompanionTracker] and [WorkingGamepadTracker]:
    the session controller that opens a per-session JSONL log, fans mouse,
    keyboard and gamepad events into it, and is driven by the OBS monitor loop.

    Conventions of the embedding.
    - [self] is the record [Tracker]; every method is a function in the monad
      [Py], which threads [self], may raise a Python exception, and collects
      the effects on the outside world (file operations, listener threads,
      prints, sleeps) in the order they happen.
    - Everything the outside world decides (clock readings, whether a file
      operation or a thread start raises, what OBS answers) is an explicit
      environment argument of the call that asks for it.
    - Python ints are [Z].  A Python float is the rational it denotes, and
      every float operation the tracker performs (a subtraction of clock
      readings, the products of an axis value, [round(x, 6)]) is the exact
      operation followed by [round64], the rounding to the nearest IEEE 754
      double, ties to even.  Clock readings and axis values are finite
      doubles; the one place where a result beyond the largest double changes
      what the code does, [int()] of an axis product, is modelled. *)

From Stdlib Require Import ZArith QArith Qabs Qround Qpower List String Ascii Bool Lia Lqa.
From Stdlib Require Import DecimalString DecimalZ DecimalPos.
Import ListNotations.
Local Open Scope string_scope.
Local Open Scope list_scope.
Local Open Scope Z_scope.

Infix "+++" := String.append (at level 60, right associativity).

(** ** Python values used by the tracker *)

(** Exceptions: the class decides which [except] clause catches it. *)
Inductive ExnClass :=
  OSError | ValueError | AttributeError | TypeError | RuntimeError | OtherException.

Record Exn := { exn_class : ExnClass; exn_msg : string }.

Definition is_AttributeError (e : Exn) : bool :=
  match exn_class e with AttributeError => true | _ => false end.

(** JSON-serialisable payload values and dicts (insertion ordered). *)
Inductive JVal := JInt (z : Z) | JFloat (q : Q) | JStr (s : string) | JBool (b : bool).

Definition Dict := list (string * JVal).

(** [str(n)] for a Python int. *)
Definition str_of_int (z : Z) : string := NilZero.string_of_int (Z.to_int z).

(** [s.replace(pat, '')] for a non-empty [pat]: every non-overlapping
    occurrence, scanning left to right, is dropped. *)
Fixpoint remove_all_aux (pat : string) (skip : nat) (s : string) : string :=
  match s with
  | EmptyString => EmptyString
  | String c s' =>
      match skip with
      | S k => remove_all_aux pat k s'
      | O => if prefix pat s
             then remove_all_aux pat (String.length pat - 1) s'
             else String c (remove_all_aux pat 0 s')
      end
  end.

Definition str_remove (pat s : string) : string := remove_all_aux pat 0 s.

(** Truth value of a float: [0.0] is falsy. *)
Definition float_truthy (t : Q) : bool := negb (Qnum t =? 0).

(** [round(q, 6)]: nearest multiple of 10^-6, ties to even. *)
Definition py_round6 (q : Q) : Q :=
  let n := Qnum q * 1000000 in
  let d := Zpos (Qden q) in
  let fl := n / d in
  let r := n mod d in
  let up := match 2 * r ?= d with
            | Lt => false
            | Gt => true
            | Eq => Z.odd fl
            end in
  Qmake (if up then fl + 1 else fl) 1000000.

(** [int(q)]: truncation toward zero. *)
Definition py_int (q : Q) : Z := Z.quot (Qnum q) (Zpos (Qden q)).

(** ** Float arithmetic: IEEE 754 binary64 on rationals *)

(** [y] rounded to the nearest integer, ties to the even one. *)
Definition rne (y : Q) : Z :=
  let n := Qnum y in
  let d := Zpos (Qden y) in
  let fl := n / d in
  let r := n mod d in
  match 2 * r ?= d with
  | Lt => fl
  | Gt => fl + 1
  | Eq => if Z.odd fl then fl + 1 else fl
  end.

(** floor(log2 x), for [x > 0]. *)
Definition ilog2 (x : Q) : Z :=
  let e0 := Z.log2 (Qnum x) - Z.log2 (Zpos (Qden x)) in
  if Qle_bool (2 ^ e0)%Q x then e0 else e0 - 1.

(** The double nearest to [x > 0]: a 53-bit mantissa at the exponent of [x],
    and not below the exponent -1074 of the subnormal doubles. *)
Definition round64_pos (x : Q) : Q :=
  let e := Z.max (ilog2 x - 52) (-1074) in
  (inject_Z (rne (x / 2 ^ e)) * 2 ^ e)%Q.

(** The double nearest to [x], ties to even. *)
Definition round64 (x : Q) : Q :=
  match Qnum x with
  | 0 => 0%Q
  | Zpos _ => round64_pos x
  | Zneg _ => (- round64_pos (- x))%Q
  end.

(** The float operations [x - y], [x + y], [x * y] and [x / y]. *)
Definition fsub (x y : Q) : Q := round64 (x - y).
Definition fadd (x y : Q) : Q := round64 (x + y).
Definition fmul (x y : Q) : Q := round64 (x * y).
Definition fdiv (x y : Q) : Q := round64 (x / y).

(** [round(x, 6)] of a float: the decimal rounding of the exact value of
    [x], as a double again. *)
Definition round6 (x : Q) : Q := round64 (py_round6 x).

(** The float literal [0.1]. *)
Definition float_0_1 : Q := round64 (1 # 10).

(** A product beyond the largest double is an infinity: from
    2^1024 - 2^970 on, the rounding goes to 2^1024. *)
Definition overflows (exact : Q) : bool :=
  Qle_bool (2 ^ 1024 - 2 ^ 970)%Q (Qabs exact).

(** ** The log and the outside world *)

(** One line of the JSONL log, before [json.dumps]. *)
Record LogEntry := {
  timestamp : Q;
  absolute_time : Q;
  event_type : string;
  details : Dict
}.

Inductive Source := MouseSource | KeyboardSource | GamepadSource.

(** What a call does to the outside world.  A file object is named by the
    path it was opened on. *)
Inductive Effect :=
| FileOpen (path : string)                    (* open(path, "w") *)
| FileWrite (path : string) (line : LogEntry) (* f.write(json.dumps(e) + "\n") *)
| FileFlush (path : string)
| FileClose (path : string)
| SourceStart (s : Source)                    (* listener / thread .start() *)
| SourceStop (s : Source)                     (* listener .stop(), thread join *)
| Print (msg : string)
| Sleep (seconds : Q)
| CallStart (result : bool)                   (* the monitor called start_recording_sync *)
| CallStop.                                   (* the monitor called stop_recording *)

(** ** Object state *)

(** A pynput listener object. *)
Record Listener := { running : bool }.

(** [WorkingGamepadTracker]. *)
Record GamepadTracker := {
  tracking : bool;
  gamepad_thread : bool;          (* a thread object has been created *)
  joystick : option string;       (* the connected joystick, by name *)
  pygame_ready : bool
}.

(** [OBSCompanionTracker]. *)
Record Tracker := {
  recording : bool;
  start_time : option Q;
  log_file : option string;
  mouse_listener : option Listener;
  keyboard_listener : option Listener;
  last_mouse_pos : option (Z * Z);
  current_log_path : option string;
  obs_client : bool;              (* truth value of self.obs_client *)
  obs_connected : bool;
  should_monitor : bool;
  gamepad_tracker : GamepadTracker;
  gamepad_enabled : bool;
  include_mouse_position : option bool;  (* config['Recording'], None when absent *)
  save_dir : string;
  event_count : Z;
  mouse_count : Z;
  keyboard_count : Z;
  gamepad_count : Z
}.

(** The object built by [__init__]. *)
Definition init (ready : bool) (enabled : bool) (cfg : option bool) (dir : string) : Tracker :=
  {| recording := false; start_time := None; log_file := None;
     mouse_listener := None; keyboard_listener := None;
     last_mouse_pos := None; current_log_path := None;
     obs_client := false; obs_connected := false; should_monitor := true;
     gamepad_tracker := {| tracking := false; gamepad_thread := false;
                           joystick := None; pygame_ready := ready |};
     gamepad_enabled := enabled; include_mouse_position := cfg; save_dir := dir;
     event_count := 0; mouse_count := 0; keyboard_count := 0; gamepad_count := 0 |}.

(** Attribute assignment. *)
Definition set_recording (v : bool) (s : Tracker) : Tracker :=
  {| recording := v; start_time := start_time s; log_file := log_file s;
     mouse_listener := mouse_listener s; keyboard_listener := keyboard_listener s;
     last_mouse_pos := last_mouse_pos s; current_log_path := current_log_path s;
     obs_client := obs_client s; obs_connected := obs_connected s;
     should_monitor := should_monitor s; gamepad_tracker := gamepad_tracker s;
     gamepad_enabled := gamepad_enabled s;
     include_mouse_position := include_mouse_position s; save_dir := save_dir s;
     event_count := event_count s; mouse_count := mouse_count s;
     keyboard_count := keyboard_count s; gamepad_count := gamepad_count s |}.

Definition set_start_time (v : option Q) (s : Tracker) : Tracker :=
  {| recording := recording s; start_time := v; log_file := log_file s;
     mouse_listener := mouse_listener s; keyboard_listener := keyboard_listener s;
     last_mouse_pos := last_mouse_pos s; current_log_path := current_log_path s;
     obs_client := obs_client s; obs_connected := obs_connected s;
     should_monitor := should_monitor s; gamepad_tracker := gamepad_tracker s;
     gamepad_enabled := gamepad_enabled s;
     include_mouse_position := include_mouse_position s; save_dir := save_dir s;
     event_count := event_count s; mouse_count := mouse_count s;
     keyboard_count := keyboard_count s; gamepad_count := gamepad_count s |}.

Definition set_log_file (v : option string) (s : Tracker) : Tracker :=
  {| recording := recording s; start_time := start_time s; log_file := v;
     mouse_listener := mouse_listener s; keyboard_listener := keyboard_listener s;
     last_mouse_pos := last_mouse_pos s; current_log_path := current_log_path s;
     obs_client := obs_client s; obs_connected := obs_connected s;
     should_monitor := should_monitor s; gamepad_tracker := gamepad_tracker s;
     gamepad_enabled := gamepad_enabled s;
     include_mouse_position := include_mouse_position s; save_dir := save_dir s;
     event_count := event_count s; mouse_count := mouse_count s;
     keyboard_count := keyboard_count s; gamepad_count := gamepad_count s |}.

Definition set_mouse_listener (v : option Listener) (s : Tracker) : Tracker :=
  {| recording := recording s; start_time := start_time s; log_file := log_file s;
     mouse_listener := v; keyboard_listener := keyboard_listener s;
     last_mouse_pos := last_mouse_pos s; current_log_path := current_log_path s;
     obs_client := obs_client s; obs_connected := obs_connected s;
     should_monitor := should_monitor s; gamepad_tracker := gamepad_tracker s;
     gamepad_enabled := gamepad_enabled s;
     include_mouse_position := include_mouse_position s; save_dir := save_dir s;
     event_count := event_count s; mouse_count := mouse_count s;
     keyboard_count := keyboard_count s; gamepad_count := gamepad_count s |}.

Definition set_keyboard_listener (v : option Listener) (s : Tracker) : Tracker :=
  {| recording := recording s; start_time := start_time s; log_file := log_file s;
     mouse_listener := mouse_listener s; keyboard_listener := v;
     last_mouse_pos := last_mouse_pos s; current_log_path := current_log_path s;
     obs_client := obs_client s; obs_connected := obs_connected s;
     should_monitor := should_monitor s; gamepad_tracker := gamepad_tracker s;
     gamepad_enabled := gamepad_enabled s;
     include_mouse_position := include_mouse_position s; save_dir := save_dir s;
     event_count := event_count s; mouse_count := mouse_count s;
     keyboard_count := keyboard_count s; gamepad_count := gamepad_count s |}.

Definition set_last_mouse_pos (v : option (Z * Z)) (s : Tracker) : Tracker :=
  {| recording := recording s; start_time := start_time s; log_file := log_file s;
     mouse_listener := mouse_listener s; keyboard_listener := keyboard_listener s;
     last_mouse_pos := v; current_log_path := current_log_path s;
     obs_client := obs_client s; obs_connected := obs_connected s;
     should_monitor := should_monitor s; gamepad_tracker := gamepad_tracker s;
     gamepad_enabled := gamepad_enabled s;
     include_mouse_position := include_mouse_position s; save_dir := save_dir s;
     event_count := event_count s; mouse_count := mouse_count s;
     keyboard_count := keyboard_count s; gamepad_count := gamepad_count s |}.

Definition set_current_log_path (v : option string) (s : Tracker) : Tracker :=
  {| recording := recording s; start_time := start_time s; log_file := log_file s;
     mouse_listener := mouse_listener s; keyboard_listener := keyboard_listener s;
     last_mouse_pos := last_mouse_pos s; current_log_path := v;
     obs_client := obs_client s; obs_connected := obs_connected s;
     should_monitor := should_monitor s; gamepad_tracker := gamepad_tracker s;
     gamepad_enabled := gamepad_enabled s;
     include_mouse_position := include_mouse_position s; save_dir := save_dir s;
     event_count := event_count s; mouse_count := mouse_count s;
     keyboard_count := keyboard_count s; gamepad_count := gamepad_count s |}.

Definition set_gamepad_tracker (v : GamepadTracker) (s : Tracker) : Tracker :=
  {| recording := recording s; start_time := start_time s; log_file := log_file s;
     mouse_listener := mouse_listener s; keyboard_listener := keyboard_listener s;
     last_mouse_pos := last_mouse_pos s; current_log_path := current_log_path s;
     obs_client := obs_client s; obs_connected := obs_connected s;
     should_monitor := should_monitor s; gamepad_tracker := v;
     gamepad_enabled := gamepad_enabled s;
     include_mouse_position := include_mouse_position s; save_dir := save_dir s;
     event_count := event_count s; mouse_count := mouse_count s;
     keyboard_count := keyboard_count s; gamepad_count := gamepad_count s |}.

Definition set_event_count (v : Z) (s : Tracker) : Tracker :=
  {| recording := recording s; start_time := start_time s; log_file := log_file s;
     mouse_listener := mouse_listener s; keyboard_listener := keyboard_listener s;
     last_mouse_pos := last_mouse_pos s; current_log_path := current_log_path s;
     obs_client := obs_client s; obs_connected := obs_connected s;
     should_monitor := should_monitor s; gamepad_tracker := gamepad_tracker s;
     gamepad_enabled := gamepad_enabled s;
     include_mouse_position := include_mouse_position s; save_dir := save_dir s;
     event_count := v; mouse_count := mouse_count s;
     keyboard_count := keyboard_count s; gamepad_count := gamepad_count s |}.

Definition set_mouse_count (v : Z) (s : Tracker) : Tracker :=
  {| recording := recording s; start_time := start_time s; log_file := log_file s;
     mouse_listener := mouse_listener s; keyboard_listener := keyboard_listener s;
     last_mouse_pos := last_mouse_pos s; current_log_path := current_log_path s;
     obs_client := obs_client s; obs_connected := obs_connected s;
     should_monitor := should_monitor s; gamepad_tracker := gamepad_tracker s;
     gamepad_enabled := gamepad_enabled s;
     include_mouse_position := include_mouse_position s; save_dir := save_dir s;
     event_count := event_count s; mouse_count := v;
     keyboard_count := keyboard_count s; gamepad_count := gamepad_count s |}.

Definition set_keyboard_count (v : Z) (s : Tracker) : Tracker :=
  {| recording := recording s; start_time := start_time s; log_file := log_file s;
     mouse_listener := mouse_listener s; keyboard_listener := keyboard_listener s;
     last_mouse_pos := last_mouse_pos s; current_log_path := current_log_path s;
     obs_client := obs_client s; obs_connected := obs_connected s;
     should_monitor := should_monitor s; gamepad_tracker := gamepad_tracker s;
     gamepad_enabled := gamepad_enabled s;
     include_mouse_position := include_mouse_position s; save_dir := save_dir s;
     event_count := event_count s; mouse_count := mouse_count s;
     keyboard_count := v; gamepad_count := gamepad_count s |}.

Definition set_gamepad_count (v : Z) (s : Tracker) : Tracker :=
  {| recording := recording s; start_time := start_time s; log_file := log_file s;
     mouse_listener := mouse_listener s; keyboard_listener := keyboard_listener s;
     last_mouse_pos := last_mouse_pos s; current_log_path := current_log_path s;
     obs_client := obs_client s; obs_connected := obs_connected s;
     should_monitor := should_monitor s; gamepad_tracker := gamepad_tracker s;
     gamepad_enabled := gamepad_enabled s;
     include_mouse_position := include_mouse_position s; save_dir := save_dir s;
     event_count := event_count s; mouse_count := mouse_count s;
     keyboard_count := keyboard_count s; gamepad_count := v |}.

(** ** The monad of method bodies *)

Inductive Outcome (A : Type) :=
| Return (a : A)
| Raise (e : Exn).
Arguments Return {A} a.
Arguments Raise {A} e.

(** A method body: from [self] to its outcome, the new [self] (assignments made
    before a raise are kept) and the effects performed. *)
Definition Py (A : Type) : Type := Tracker -> Outcome A * Tracker * list Effect.

Definition ret {A} (a : A) : Py A := fun st => (Return a, st, []).

Definition raise {A} (e : Exn) : Py A := fun st => (Raise e, st, []).

Definition bind {A B} (m : Py A) (k : A -> Py B) : Py B :=
  fun st =>
    match m st with
    | (Return a, st1, out1) =>
        match k a st1 with
        | (r, st2, out2) => (r, st2, out1 ++ out2)
        end
    | (Raise e, st1, out1) => (Raise e, st1, out1)
    end.

Notation "x <- m ;; k" := (bind m (fun x => k))
  (at level 61, m at next level, right associativity).
Notation "m ;; k" := (bind m (fun _ => k))
  (at level 61, right associativity).

(** [try: body  except Exception as e: handler e]. *)
Definition try_except {A} (body : Py A) (handler : Exn -> Py A) : Py A :=
  fun st =>
    match body st with
    | (Return a, st1, out1) => (Return a, st1, out1)
    | (Raise e, st1, out1) =>
        match handler e st1 with
        | (r, st2, out2) => (r, st2, out1 ++ out2)
        end
    end.

(** [try: body  except AttributeError: handler]. *)
Definition try_except_AttributeError {A} (body : Py A) (handler : Py A) : Py A :=
  try_except body (fun e => if is_AttributeError e then handler else raise e).

Definition get {A} (f : Tracker -> A) : Py A := fun st => (Return (f st), st, []).

Definition assign (f : Tracker -> Tracker) : Py unit := fun st => (Return tt, f st, []).

Definition emit (ef : Effect) : Py unit := fun st => (Return tt, st, [ef]).

(** A call into the outside world: it raises, or it takes effect. *)
Definition external (failure : option Exn) (ef : Effect) : Py unit :=
  match failure with
  | Some e => raise e
  | None => emit ef
  end.

(** ** log_event *)

(** What the outside world does during one [log_event]. *)
Record LogEnv := {
  perf_counter : Q;            (* time.perf_counter() *)
  time_time : Q;               (* time.time() *)
  write_exn : option Exn;      (* log_file.write raises *)
  flush_exn : option Exn       (* log_file.flush raises *)
}.

Definition log_event (env : LogEnv) (ev_type : string) (dets : Dict) : Py unit :=
  f <- get log_file ;;
  t0 <- get start_time ;;
  match f, t0 with
  | Some path, Some t =>
      if float_truthy t then
        let elapsed := fsub (perf_counter env) t in
        let log_entry := {| timestamp := round6 elapsed;
                            absolute_time := time_time env;
                            event_type := ev_type;
                            details := dets |} in
        external (write_exn env) (FileWrite path log_entry) ;;
        external (flush_exn env) (FileFlush path) ;;
        assign (fun s => set_event_count (event_count s + 1) s) ;;
        if prefix "Mouse" ev_type then
          assign (fun s => set_mouse_count (mouse_count s + 1) s)
        else if prefix "Key" ev_type then
          assign (fun s => set_keyboard_count (keyboard_count s + 1) s)
        else if prefix "gamepad" ev_type then
          assign (fun s => set_gamepad_count (gamepad_count s + 1) s)
        else ret tt
      else ret tt
  | _, _ => ret tt
  end.

(** ** Mouse and keyboard callbacks *)

(** [config.getboolean('Recording', 'include_mouse_position', fallback=True)]. *)
Definition getboolean_include_mouse_position (s : Tracker) : bool :=
  match include_mouse_position s with
  | Some b => b
  | None => true
  end.

Definition on_mouse_move (env : LogEnv) (x y : Z) : Py unit :=
  rec <- get recording ;;
  if negb rec then ret tt else
  last <- get last_mouse_pos ;;
  match last with
  | Some (last_x, last_y) =>
      let delta_x := x - last_x in
      let delta_y := y - last_y in
      if (Z.abs delta_x >? 0) || (Z.abs delta_y >? 0) then
        inc <- get getboolean_include_mouse_position ;;
        let dets := [("dx", JInt delta_x); ("dy", JInt delta_y)] in
        let dets := if inc then dets ++ [("x", JInt x); ("y", JInt y)] else dets in
        log_event env "MouseDelta" dets
      else ret tt
  | None => ret tt
  end ;;
  assign (set_last_mouse_pos (Some (x, y))).

(** [button] is [str(button)], e.g. "Button.left". *)
Definition on_mouse_click (env : LogEnv) (x y : Z) (button : string) (pressed : bool)
  : Py unit :=
  rec <- get recording ;;
  if negb rec then ret tt else
  log_event env "MouseClick"
    [("button", JStr (str_remove "Button." button));
     ("action", JStr (if pressed then "pressed" else "released"));
     ("x", JInt x); ("y", JInt y)].

(** A pynput key: a [KeyCode] has a [char] attribute (possibly None), a
    special [Key] has none; [repr] is [str(key)]. *)
Inductive Key :=
| KeyCode (char : option string) (repr : string)
| SpecialKey (repr : string).

Definition key_repr (k : Key) : string :=
  match k with KeyCode _ r => r | SpecialKey r => r end.

Definition key_str (k : Key) : string :=
  match k with
  | KeyCode (Some c) r =>
      if (String.length c =? 0)%nat then str_remove "Key." r else c
  | KeyCode None r => str_remove "Key." r
  | SpecialKey r => str_remove "Key." r
  end.

(** [env] serves the logging inside [try], [env'] the one in the handler. *)
Definition on_key (ev_type : string) (env env' : LogEnv) (k : Key) : Py unit :=
  rec <- get recording ;;
  if negb rec then ret tt else
  try_except_AttributeError
    (log_event env ev_type [("key", JStr (key_str k))])
    (log_event env' ev_type [("key", JStr (key_repr k))]).

Definition on_key_press : LogEnv -> LogEnv -> Key -> Py unit := on_key "KeyDown".

Definition on_key_release : LogEnv -> LogEnv -> Key -> Py unit := on_key "KeyUp".

(** ** WorkingGamepadTracker *)

Definition set_tracking (v : bool) (g : GamepadTracker) : GamepadTracker :=
  {| tracking := v; gamepad_thread := gamepad_thread g;
     joystick := joystick g; pygame_ready := pygame_ready g |}.

Definition set_gamepad_thread (v : bool) (g : GamepadTracker) : GamepadTracker :=
  {| tracking := tracking g; gamepad_thread := v;
     joystick := joystick g; pygame_ready := pygame_ready g |}.

Definition set_joystick (v : option string) (g : GamepadTracker) : GamepadTracker :=
  {| tracking := tracking g; gamepad_thread := gamepad_thread g;
     joystick := v; pygame_ready := pygame_ready g |}.

Definition get_gt {A} (f : GamepadTracker -> A) : Py A :=
  get (fun s => f (gamepad_tracker s)).

Definition assign_gt (f : GamepadTracker -> GamepadTracker) : Py unit :=
  assign (fun s => set_gamepad_tracker (f (gamepad_tracker s)) s).

(** The answer of an outside call that returns a value. *)
Inductive Answer (A : Type) :=
| Ok (a : A)
| Fails (e : Exn).
Arguments Ok {A} a.
Arguments Fails {A} e.

Definition ask {A} (r : Answer A) : Py A :=
  match r with
  | Ok a => ret a
  | Fails e => raise e
  end.

Definition button_names (b : Z) : option string :=
  match b with
  | 0 => Some "a_button" | 1 => Some "b_button"
  | 2 => Some "x_button" | 3 => Some "y_button"
  | 4 => Some "lb_shoulder" | 5 => Some "rb_shoulder"
  | 6 => Some "back_button" | 7 => Some "start_button"
  | 8 => Some "left_stick_press" | 9 => Some "right_stick_press"
  | _ => None
  end.

(** [button_names.get(b, f"button_{b}")]. *)
Definition button_name (b : Z) : string :=
  match button_names b with
  | Some n => n
  | None => "button_" +++ str_of_int b
  end.

(** [get_gamepad_count]: [count] is what pygame.joystick.get_count() does. *)
Definition get_gamepad_count (count : Answer Z) : Py Z :=
  ready <- get_gt pygame_ready ;;
  if negb ready then ret 0 else
  try_except (ask count) (fun _ => ret 0).

Record GamepadEnv := {
  joystick_count : Answer Z;        (* pygame.joystick.get_count() *)
  joystick_open : Answer string;    (* pygame.joystick.Joystick(0), by name *)
  joystick_init_exn : option Exn;   (* joystick.init() raises *)
  thread_start_exn : option Exn     (* gamepad_thread.start() raises *)
}.

Definition connect_gamepad (env : GamepadEnv) : Py bool :=
  ready <- get_gt pygame_ready ;;
  if negb ready then ret false else
  try_except
    (count <- ask (joystick_count env) ;;
     if count =? 0 then
       emit (Print "No gamepads detected") ;; ret false
     else
       name <- ask (joystick_open env) ;;
       assign_gt (set_joystick (Some name)) ;;
       match joystick_init_exn env with
       | Some e => raise e
       | None =>
           emit (Print ("Connected gamepad: " +++ name)) ;; ret true
       end)
    (fun e => emit (Print ("Failed to connect gamepad: " +++ exn_msg e)) ;; ret false).

Definition start_tracking (env : GamepadEnv) : Py bool :=
  ready <- get_gt pygame_ready ;;
  if negb ready then ret false else
  connected <- connect_gamepad env ;;
  if negb connected then ret false else
  assign_gt (set_tracking true) ;;
  assign_gt (set_gamepad_thread true) ;;
  external (thread_start_exn env) (SourceStart GamepadSource) ;;
  emit (Print "Gamepad tracking started successfully") ;;
  ret true.

Definition stop_tracking : Py unit :=
  tr <- get_gt tracking ;;
  if negb tr then ret tt else
  assign_gt (set_tracking false) ;;
  th <- get_gt gamepad_thread ;;
  (if th then emit (SourceStop GamepadSource) else ret tt) ;;
  j <- get_gt joystick ;;
  match j with
  | Some _ => assign_gt (set_joystick None)
  | None => ret tt
  end.

Definition log_gamepad_event (env : LogEnv) (ev_type : string) (data : Dict) : Py unit :=
  rec <- get recording ;;
  if rec then log_event env ("gamepad_" +++ ev_type) data else ret tt.

Inductive PygameEvent :=
| QUIT
| JOYBUTTONDOWN (button : Z)
| JOYBUTTONUP (button : Z)
| JOYAXISMOTION (axis : Z) (value : Q)
| JOYHATMOTION (hat : Z) (x y : Z)
| OTHEREVENT.

(** [int(x * y)] of two floats.  A product beyond the largest double is an
    infinity, which [int] refuses with an OverflowError. *)
Definition overflow_error : Exn :=
  {| exn_class := OtherException;
     exn_msg := "cannot convert float infinity to integer" |}.

Definition int_of_product (x y : Q) : Py Z :=
  if overflows (x * y) then raise overflow_error else ret (py_int (fmul x y)).

Definition hat_direction (x y : Z) : string :=
  let vertical := if y =? 1 then ["up"] else if y =? -1 then ["down"] else [] in
  let horizontal := if x =? 1 then ["right"] else if x =? -1 then ["left"] else [] in
  match (vertical ++ horizontal)%list with
  | [] => "neutral"
  | directions => String.concat "_" directions
  end.

(** The body of the [for event in pygame.event.get()] loop for one event
    other than QUIT. *)
Definition gamepad_event (env : LogEnv) (ev : PygameEvent) : Py unit :=
  match ev with
  | JOYBUTTONDOWN b =>
      log_gamepad_event env "button"
        [("button", JStr (button_name b)); ("raw_code", JInt b); ("state", JStr "press")] ;;
      emit (Print ("Button press: " +++ button_name b +++ " (" +++ str_of_int b +++ ")"))
  | JOYBUTTONUP b =>
      log_gamepad_event env "button"
        [("button", JStr (button_name b)); ("raw_code", JInt b); ("state", JStr "release")]
  | JOYAXISMOTION axis v =>
      if negb (Qle_bool (Qabs v) float_0_1) then
        if axis <? 4 then
          raw_value <- int_of_product v 32767 ;;
          log_gamepad_event env "stick"
            [("stick", JStr (if axis <? 2 then "left_stick" else "right_stick"));
             ("axis", JStr (if axis mod 2 =? 0 then "x" else "y"));
             ("value", JInt raw_value);
             ("normalized", JFloat v)]
        else
          scaled <- int_of_product (fdiv (fadd v 1) 2) 1023 ;;
          let trigger_value := Z.max 0 scaled in
          log_gamepad_event env "trigger"
            [("trigger", JStr (if axis =? 4 then "left_trigger" else "right_trigger"));
             ("value", JInt trigger_value)]
      else ret tt
  | JOYHATMOTION hat x y =>
      log_gamepad_event env "dpad"
        [("dpad", JStr ("dpad_" +++ str_of_int hat));
         ("direction", JStr (hat_direction x y));
         ("raw_x", JInt x); ("raw_y", JInt y)]
  | QUIT | OTHEREVENT => ret tt
  end.

(** [for event in pygame.event.get(): ...], leaving at QUIT. *)
Fixpoint gamepad_events (evs : list (PygameEvent * LogEnv)) : Py unit :=
  match evs with
  | [] => ret tt
  | (QUIT, _) :: _ => ret tt
  | (ev, env) :: rest => gamepad_event env ev ;; gamepad_events rest
  end.

(** One turn of the [while] of [gamepad_loop]: the events of one
    [pygame.event.get()] are handled; an exception is printed and the loop
    goes on. *)
Definition gamepad_loop_turn (evs : list (PygameEvent * LogEnv)) : Py unit :=
  try_except
    (gamepad_events evs ;; emit (Sleep (1 # 100)))
    (fun e => emit (Print ("Gamepad loop error: " +++ exn_msg e)) ;; emit (Sleep (1 # 10))).

Fixpoint gamepad_loop_turns (batches : list (list (PygameEvent * LogEnv))) : Py unit :=
  match batches with
  | [] => ret tt
  | evs :: rest =>
      tr <- get_gt tracking ;;
      j <- get_gt joystick ;;
      match tr, j with
      | true, Some _ => gamepad_loop_turn evs ;; gamepad_loop_turns rest
      | _, _ => ret tt
      end
  end.

Definition gamepad_loop (batches : list (list (PygameEvent * LogEnv))) : Py unit :=
  emit (Print "Starting gamepad monitoring loop (using working test method)") ;;
  gamepad_loop_turns batches ;;
  emit (Print "Gamepad monitoring loop ended").

(** ** Session start and stop *)

Definition str_of_path (p : option string) : string :=
  match p with
  | Some s => s
  | None => "None"
  end.

(** What the outside world does during one [start_recording_sync]. *)
Record StartEnv := {
  strftime_now : string;              (* datetime.now().strftime("%Y%m%d_%H%M%S") *)
  open_exn : option Exn;              (* open(path, "w") raises *)
  start_perf_counter : Q;             (* time.perf_counter() *)
  start_time_unix : Q;                (* time.time() *)
  start_time_readable : string;       (* datetime.fromtimestamp(..).isoformat() *)
  probe_count : Answer Z;             (* joystick count asked for the metadata *)
  metadata_env : LogEnv;              (* the log_event of SessionStart *)
  mouse_ctor_exn : option Exn;        (* mouse.Listener(...) raises *)
  keyboard_ctor_exn : option Exn;     (* keyboard.Listener(...) raises *)
  mouse_start_exn : option Exn;       (* mouse_listener.start() raises *)
  keyboard_start_exn : option Exn;    (* keyboard_listener.start() raises *)
  gamepad_env : GamepadEnv            (* gamepad_tracker.start_tracking() *)
}.

(** What the outside world does during one [stop_recording]. *)
Record StopEnv := {
  stop_perf_counter : Q;              (* time.perf_counter() for the duration *)
  end_env : LogEnv                    (* the log_event of SessionEnd *)
}.

Section Platform.

(** The module-level flags set by the guarded imports. *)
Variables PYNPUT_AVAILABLE PYGAME_AVAILABLE : bool.

Definition start_recording_sync (env : StartEnv) : Py bool :=
  rec <- get recording ;;
  if rec then ret false else
  try_except
    (dir <- get save_dir ;;
     let log_filename := "input_log_" +++ strftime_now env +++ ".jsonl" in
     let path := dir +++ "/" +++ log_filename in
     assign (set_current_log_path (Some path)) ;;
     external (open_exn env) (FileOpen path) ;;
     assign (set_log_file (Some path)) ;;
     assign (set_start_time (Some (start_perf_counter env))) ;;
     let start_absolute_time := start_time_unix env in
     connected <- get obs_connected ;;
     enabled <- get gamepad_enabled ;;
     let session_info :=
       [("obs_sync", JBool true);
        ("start_time_unix", JFloat start_absolute_time);
        ("start_time_readable", JStr (start_time_readable env));
        ("obs_connected", JBool connected);
        ("pynput_available", JBool PYNPUT_AVAILABLE);
        ("gamepad_enabled", JBool enabled);
        ("pygame_available", JBool PYGAME_AVAILABLE)] in
     session_info <-
       (if enabled && PYGAME_AVAILABLE then
          n <- get_gamepad_count (probe_count env) ;;
          ret (session_info ++ [("gamepad_count", JInt n)])
        else ret session_info) ;;
     log_event (metadata_env env) "SessionStart" session_info ;;
     assign (set_last_mouse_pos None) ;;
     assign (set_event_count 0) ;;
     assign (set_mouse_count 0) ;;
     assign (set_keyboard_count 0) ;;
     assign (set_gamepad_count 0) ;;
     (if PYNPUT_AVAILABLE then
        match mouse_ctor_exn env with
        | Some e => raise e
        | None => assign (set_mouse_listener (Some {| running := false |}))
        end ;;
        match keyboard_ctor_exn env with
        | Some e => raise e
        | None => assign (set_keyboard_listener (Some {| running := false |}))
        end ;;
        external (mouse_start_exn env) (SourceStart MouseSource) ;;
        assign (set_mouse_listener (Some {| running := true |})) ;;
        external (keyboard_start_exn env) (SourceStart KeyboardSource) ;;
        assign (set_keyboard_listener (Some {| running := true |}))
      else ret tt) ;;
     enabled' <- get gamepad_enabled ;;
     (if enabled' then _ <- start_tracking (gamepad_env env) ;; ret tt else ret tt) ;;
     assign (set_recording true) ;;
     path' <- get current_log_path ;;
     emit (Print ("Input tracking started: " +++ str_of_path path')) ;;
     ret true)
    (fun e =>
       emit (Print ("Failed to start recording: " +++ exn_msg e)) ;;
       ret false).

Definition stop_recording (env : StopEnv) : Py unit :=
  rec <- get recording ;;
  if negb rec then ret tt else
  assign (set_recording false) ;;
  try_except
    (f <- get log_file ;;
     match f with
     | Some _ =>
         total <- get event_count ;;
         mouse <- get mouse_count ;;
         keyboard <- get keyboard_count ;;
         gamepad <- get gamepad_count ;;
         t0 <- get start_time ;;
         let duration :=
           match t0 with
           | Some t => if float_truthy t
                       then JFloat (fsub (stop_perf_counter env) t)
                       else JInt 0
           | None => JInt 0
           end in
         log_event (end_env env) "SessionEnd"
           [("total_events", JInt total);
            ("mouse_events", JInt mouse);
            ("keyboard_events", JInt keyboard);
            ("gamepad_events", JInt gamepad);
            ("duration_seconds", duration)]
     | None => ret tt
     end ;;
     ml <- get mouse_listener ;;
     match ml with
     | Some _ => emit (SourceStop MouseSource) ;; assign (set_mouse_listener None)
     | None => ret tt
     end ;;
     kl <- get keyboard_listener ;;
     match kl with
     | Some _ => emit (SourceStop KeyboardSource) ;; assign (set_keyboard_listener None)
     | None => ret tt
     end ;;
     stop_tracking ;;
     f' <- get log_file ;;
     match f' with
     | Some path => emit (FileClose path) ;; assign (set_log_file None)
     | None => ret tt
     end ;;
     path' <- get current_log_path ;;
     emit (Print ("Input tracking stopped. Log saved: " +++ str_of_path path')))
    (fun e => emit (Print ("Error stopping recording: " +++ exn_msg e))).

(** ** The OBS monitor loop *)

(** What [obs_client.get_record_status().output_active] does. *)
Definition Poll := Answer bool.

(** What the outside world does during one turn of the loop. *)
Record TurnEnv := {
  poll : Poll;
  start_env : StartEnv;
  stop_env : StopEnv
}.

(** One turn of the [while] of [_obs_monitor_loop]; the local
    [last_recording_state] goes in and comes out. *)
Definition monitor_turn (env : TurnEnv) (last_recording_state : bool) : Py bool :=
  try_except
    (client <- get obs_client ;;
     last' <-
       (if client then
          is_recording <- ask (poll env) ;;
          if negb (Bool.eqb is_recording last_recording_state) then
            (if is_recording then
               emit (Print "OBS recording started - Starting input tracking") ;;
               r <- start_recording_sync (start_env env) ;;
               emit (CallStart r)
             else
               emit (Print "OBS recording stopped - Stopping input tracking") ;;
               stop_recording (stop_env env) ;;
               emit CallStop) ;;
            ret is_recording
          else ret last_recording_state
        else ret last_recording_state) ;;
     emit (Sleep (1 # 2)) ;;
     ret last')
    (fun e =>
       emit (Print ("Error monitoring OBS: " +++ exn_msg e)) ;;
       emit (Sleep 2) ;;
       ret last_recording_state).

(** The loop over the turns the outside world allows for. *)
Fixpoint monitor_turns (envs : list TurnEnv) (last_recording_state : bool) : Py bool :=
  match envs with
  | [] => ret last_recording_state
  | env :: rest =>
      sm <- get should_monitor ;;
      oc <- get obs_connected ;;
      if sm && oc then
        last' <- monitor_turn env last_recording_state ;;
        monitor_turns rest last'
      else ret last_recording_state
  end.


End Platform.

(** ** Sessions as sequences of calls *)

(** The calls that reach the tracker: Start and Stop (from the monitor loop or
    the manual buttons) and the callbacks of the armed sources. *)
Inductive Call :=
| Start (env : StartEnv)
| Stop (env : StopEnv)
| MouseMove (env : LogEnv) (x y : Z)
| MouseClick (env : LogEnv) (x y : Z) (button : string) (pressed : bool)
| KeyPress (env env' : LogEnv) (k : Key)
| KeyRelease (env env' : LogEnv) (k : Key)
| GamepadTurn (evs : list (PygameEvent * LogEnv)).

Section Run.

Variables PYNPUT_AVAILABLE PYGAME_AVAILABLE : bool.

Definition call (c : Call) : Py unit :=
  match c with
  | Start env => _ <- start_recording_sync PYNPUT_AVAILABLE PYGAME_AVAILABLE env ;; ret tt
  | Stop env => stop_recording env
  | MouseMove env x y => on_mouse_move env x y
  | MouseClick env x y button pressed => on_mouse_click env x y button pressed
  | KeyPress env env' k => on_key_press env env' k
  | KeyRelease env env' k => on_key_release env env' k
  | GamepadTurn evs => gamepad_loop_turns [evs]
  end.

(** The calls are made one after another, each running to its end before the
    next begins; an exception that leaves a callback ends in the thread that
    made the call, and the tracker lives on.  Calls that overlap in time are
    not runs of this function: they are schedules of [interleave] below. *)
Fixpoint run (cs : list Call) (st : Tracker) : Tracker * list Effect :=
  match cs with
  | [] => (st, [])
  | c :: rest =>
      match call c st with
      | (_, st1, out1) =>
          match run rest st1 with
          | (st2, out2) => (st2, out1 ++ out2)
          end
      end
  end.

End Run.

Definition is_Stop (c : Call) : bool :=
  match c with Stop _ => true | _ => false end.

Definition is_MouseMove (c : Call) : bool :=
  match c with MouseMove _ _ _ => true | _ => false end.

(** ** Observations on the effects *)

(** The lines of the file at [path] after the effects [out], when it held
    [acc] before: opening with "w" empties it, a write appends. *)
Fixpoint lines_from (path : string) (acc : list LogEntry) (out : list Effect)
  : list LogEntry :=
  match out with
  | [] => acc
  | FileOpen p :: rest =>
      lines_from path (if String.eqb p path then [] else acc) rest
  | FileWrite p l :: rest =>
      lines_from path (if String.eqb p path then acc ++ [l] else acc) rest
  | _ :: rest => lines_from path acc rest
  end.

Definition file_content (path : string) (out : list Effect) : list LogEntry :=
  lines_from path [] out.

(** All records written, whatever the file. *)
Fixpoint records (out : list Effect) : list LogEntry :=
  match out with
  | [] => []
  | FileWrite _ l :: rest => l :: records rest
  | _ :: rest => records rest
  end.

Fixpoint closes (out : list Effect) : nat :=
  match out with
  | [] => 0%nat
  | FileClose _ :: rest => S (closes rest)
  | _ :: rest => closes rest
  end.

Fixpoint sleeps (out : list Effect) : list Q :=
  match out with
  | [] => []
  | Sleep q :: rest => q :: sleeps rest
  | _ :: rest => sleeps rest
  end.

Fixpoint stopped_sources (out : list Effect) : list Source :=
  match out with
  | [] => []
  | SourceStop s :: rest => s :: stopped_sources rest
  | _ :: rest => stopped_sources rest
  end.

Fixpoint started_sources (out : list Effect) : list Source :=
  match out with
  | [] => []
  | SourceStart s :: rest => s :: started_sources rest
  | _ :: rest => started_sources rest
  end.

(** The edges the monitor acted upon. *)
Inductive Edge := Rising | Falling.

Fixpoint calls_fired (out : list Effect) : list Edge :=
  match out with
  | [] => []
  | CallStart _ :: rest => Rising :: calls_fired rest
  | CallStop :: rest => Falling :: calls_fired rest
  | _ :: rest => calls_fired rest
  end.

Definition is_type (ty : string) (e : LogEntry) : bool := String.eqb (event_type e) ty.

Definition count_type (ty : string) (l : list LogEntry) : nat :=
  List.length (filter (is_type ty) l).

(** The records of each input source, by the event types its callbacks use. *)
Definition mouse_record (e : LogEntry) : bool :=
  is_type "MouseDelta" e || is_type "MouseClick" e.

Definition keyboard_record (e : LogEntry) : bool :=
  is_type "KeyDown" e || is_type "KeyUp" e.

Definition gamepad_record (e : LogEntry) : bool :=
  is_type "gamepad_button" e || is_type "gamepad_stick" e
  || is_type "gamepad_trigger" e || is_type "gamepad_dpad" e.

Definition input_record (e : LogEntry) : bool :=
  mouse_record e || keyboard_record e || gamepad_record e.

Definition count_of (f : LogEntry -> bool) (l : list LogEntry) : Z :=
  Z.of_nat (List.length (filter f l)).

(** Lookup in a payload dict. *)
Fixpoint dict_get (k : string) (d : Dict) : option JVal :=
  match d with
  | [] => None
  | (k', v) :: rest => if String.eqb k' k then Some v else dict_get k rest
  end.

Definition field (k : string) (e : LogEntry) : option JVal := dict_get k (details e).

(** The (dx, dy) carried by a record. *)
Definition delta_of (e : LogEntry) : option (Z * Z) :=
  match field "dx" e, field "dy" e with
  | Some (JInt dx), Some (JInt dy) => Some (dx, dy)
  | _, _ => None
  end.

(** ** The environment of an undisturbed call *)

Definition io_ok (env : LogEnv) : bool :=
  match write_exn env, flush_exn env with
  | None, None => true
  | _, _ => false
  end.

Definition flush_ok (env : LogEnv) : bool :=
  match flush_exn env with
  | None => true
  | Some _ => false
  end.

Definition call_flush_ok (c : Call) : bool :=
  match c with
  | Start _ | Stop _ => true
  | MouseMove env _ _ => flush_ok env
  | MouseClick env _ _ _ _ => flush_ok env
  | KeyPress env env' _ | KeyRelease env env' _ => flush_ok env && flush_ok env'
  | GamepadTurn evs => forallb (fun p => flush_ok (snd p)) evs
  end.

(** The tracker is recording into the open file [path].  [log_event] tests
    the truth value of [start_time], so a perf-counter reading of exactly
    0.0 at the start would make it skip every record; what is proved about
    written records is proved for a reading that is not zero. *)
Definition Recording (path : string) (st : Tracker) : Prop :=
  recording st = true /\
  log_file st = Some path /\
  exists t, start_time st = Some t /\ float_truthy t = true.

(** Raw mouse positions delivered to the mouse callback, each with the
    environment of its call. *)
Definition mouse_moves (moves : list (LogEnv * (Z * Z))) : list Call :=
  map (fun m => MouseMove (fst m) (fst (snd m)) (snd (snd m))) moves.

(** The payload of a MouseDelta record. *)
Definition delta_details (include_position : bool) (x y dx dy : Z) : Dict :=
  let dets := [("dx", JInt dx); ("dy", JInt dy)] in
  if include_position then dets ++ [("x", JInt x); ("y", JInt y)] else dets.

(** ** What the specification says, in its own words *)

(** Mouse source: "on each raw move, compute delta from the previously
    observed absolute position; emit MouseMove only when the delta is
    non-zero in either axis". *)
Fixpoint spec_mouse_deltas (previous : option (Z * Z)) (positions : list (Z * Z))
  : list (Z * Z) :=
  match positions with
  | [] => []
  | (x, y) :: rest =>
      match previous with
      | None => spec_mouse_deltas (Some (x, y)) rest
      | Some (px, py) =>
          if (x - px =? 0) && (y - py =? 0)
          then spec_mouse_deltas (Some (x, y)) rest
          else (x - px, y - py) :: spec_mouse_deltas (Some (x, y)) rest
      end
  end.

(** Monitor: "fire OnRisingEdge (state false->true) or OnFallingEdge
    (true->false) exactly once per transition": the transitions of a sequence
    of states are its adjacent unequal pairs. *)
Definition transition (p : bool * bool) : list Edge :=
  match p with
  | (false, true) => [Rising]
  | (true, false) => [Falling]
  | _ => []
  end.



(** ** Concurrent callers of log_event

    The callbacks run on the threads of their sources (mouse listener,
    keyboard listener, gamepad loop), and [log_event] takes no lock: between
    two of its accesses to [self] or to the file another caller may run.  A
    caller is at one of the following points of the body. *)
Inductive Pc :=
| AtGuard                       (* if self.log_file and self.start_time: *)
| AtElapsed                     (* elapsed = time.perf_counter() - self.start_time *)
| AtWrite (entry : LogEntry)    (* self.log_file.write(json.dumps(log_entry) + "\n") *)
| AtFlush                       (* self.log_file.flush() *)
| AtLoadTotal                   (* self.event_count += 1, the read *)
| AtStoreTotal (v : Z)          (* self.event_count += 1, the write *)
| AtLoadCategory                (* the startswith tests and the read *)
| AtStoreCategory (v : Z)       (* the write of the category counter *)
| Finished
| Raised (e : Exn).

Record Caller := {
  c_type : string;
  c_details : Dict;
  c_env : LogEnv;
  c_pc : Pc
}.

Definition at_pc (pc : Pc) (c : Caller) : Caller :=
  {| c_type := c_type c; c_details := c_details c; c_env := c_env c; c_pc := pc |}.

Definition caller (env : LogEnv) (ev_type : string) (dets : Dict) : Caller :=
  {| c_type := ev_type; c_details := dets; c_env := env; c_pc := AtGuard |}.

Definition no_attribute : Exn :=
  {| exn_class := AttributeError; exn_msg := "'NoneType' object has no attribute" |}.

Definition bad_operand : Exn :=
  {| exn_class := TypeError; exn_msg := "unsupported operand type(s) for -" |}.

(** One access of one caller. *)
Definition caller_step (c : Caller) (st : Tracker) : Caller * Tracker * list Effect :=
  match c_pc c with
  | AtGuard =>
      match log_file st, start_time st with
      | Some _, Some t =>
          if float_truthy t then (at_pc AtElapsed c, st, []) else (at_pc Finished c, st, [])
      | _, _ => (at_pc Finished c, st, [])
      end
  | AtElapsed =>
      match start_time st with
      | Some t =>
          let elapsed := fsub (perf_counter (c_env c)) t in
          let log_entry := {| timestamp := round6 elapsed;
                              absolute_time := time_time (c_env c);
                              event_type := c_type c;
                              details := c_details c |} in
          (at_pc (AtWrite log_entry) c, st, [])
      | None => (at_pc (Raised bad_operand) c, st, [])
      end
  | AtWrite entry =>
      match log_file st with
      | Some path =>
          match write_exn (c_env c) with
          | Some e => (at_pc (Raised e) c, st, [])
          | None => (at_pc AtFlush c, st, [FileWrite path entry])
          end
      | None => (at_pc (Raised no_attribute) c, st, [])
      end
  | AtFlush =>
      match log_file st with
      | Some path =>
          match flush_exn (c_env c) with
          | Some e => (at_pc (Raised e) c, st, [])
          | None => (at_pc AtLoadTotal c, st, [FileFlush path])
          end
      | None => (at_pc (Raised no_attribute) c, st, [])
      end
  | AtLoadTotal => (at_pc (AtStoreTotal (event_count st)) c, st, [])
  | AtStoreTotal v => (at_pc AtLoadCategory c, set_event_count (v + 1) st, [])
  | AtLoadCategory =>
      if prefix "Mouse" (c_type c) then (at_pc (AtStoreCategory (mouse_count st)) c, st, [])
      else if prefix "Key" (c_type c) then (at_pc (AtStoreCategory (keyboard_count st)) c, st, [])
      else if prefix "gamepad" (c_type c) then (at_pc (AtStoreCategory (gamepad_count st)) c, st, [])
      else (at_pc Finished c, st, [])
  | AtStoreCategory v =>
      if prefix "Mouse" (c_type c) then (at_pc Finished c, set_mouse_count (v + 1) st, [])
      else if prefix "Key" (c_type c) then (at_pc Finished c, set_keyboard_count (v + 1) st, [])
      else if prefix "gamepad" (c_type c) then (at_pc Finished c, set_gamepad_count (v + 1) st, [])
      else (at_pc Finished c, st, [])
  | Finished => (c, st, [])
  | Raised _ => (c, st, [])
  end.


(** The caller at index [i] makes its next access. *)
Fixpoint step_at (i : nat) (cs : list Caller) (st : Tracker)
  : list Caller * Tracker * list Effect :=
  match cs, i with
  | [], _ => ([], st, [])
  | c :: rest, O =>
      match caller_step c st with
      | (c', st', out) => (c' :: rest, st', out)
      end
  | c :: rest, S j =>
      match step_at j rest st with
      | (rest', st', out) => (c :: rest', st', out)
      end
  end.

(** A schedule names, access by access, the caller that runs. *)
Fixpoint interleave (schedule : list nat) (cs : list Caller) (st : Tracker)
  : list Caller * Tracker * list Effect :=
  match schedule with
  | [] => (cs, st, [])
  | i :: rest =>
      match step_at i cs st with
      | (cs1, st1, out1) =>
          match interleave rest cs1 st1 with
          | (cs2, st2, out2) => (cs2, st2, out1 ++ out2)
          end
      end
  end.


Definition finished (c : Caller) : bool :=
  match c_pc c with
  | Finished => true
  | _ => false
  end.



(** The record [log_event] builds when the session started at [t]. *)
Definition make_entry (env : LogEnv) (t : Q) (ev_type : string) (dets : Dict) : LogEntry :=
  {| timestamp := round6 (fsub (perf_counter env) t);
     absolute_time := time_time env;
     event_type := ev_type;
     details := dets |}.

(** The counters after one more event of type [ev_type]. *)
Definition counted (ev_type : string) (st : Tracker) : Tracker :=
  let s := set_event_count (event_count st + 1) st in
  if prefix "Mouse" ev_type then set_mouse_count (mouse_count s + 1) s
  else if prefix "Key" ev_type then set_keyboard_count (keyboard_count s + 1) s
  else if prefix "gamepad" ev_type then set_gamepad_count (gamepad_count s + 1) s
  else s.


(** ** Invariants through method bodies

    [pres I upd m]: whenever [I g st] holds of a ghost value [g] and the
    tracker before [m], it holds after [m] of the new tracker and of the
    ghost value advanced over the effects of [m].  The ghost value stands
    for what is observed of the outside world, e.g. the content of the log
    file. *)

Class Lawful {G : Type} (upd : G -> list Effect -> G) : Prop := {
  upd_nil : forall g, upd g [] = g;
  upd_app : forall g o1 o2, upd g (o1 ++ o2) = upd (upd g o1) o2
}.

Definition pres {G A : Type} (I : G -> Tracker -> Prop) (upd : G -> list Effect -> G)
  (m : Py A) : Prop :=
  forall g st, I g st ->
    match m st with
    | (_, st', out) => I (upd g out) st'
    end.

(** Ghost values that do not look at the effects. *)
Definition keep {G : Type} (g : G) (_ : list Effect) : G := g.

(** *** Frames *)

(** The callbacks leave the session fields alone. *)
Definition same_session (g st : Tracker) : Prop :=
  recording st = recording g /\ log_file st = log_file g /\ start_time st = start_time g.

(** Start and Stop leave the fields of the OBS link alone. *)
Definition same_link (g st : Tracker) : Prop :=
  obs_client st = obs_client g /\ obs_connected st = obs_connected g /\
  should_monitor st = should_monitor g.

(** The arming of the sources touches only the listeners and the gamepad
    tracker. *)
Definition same_but_sources (g st : Tracker) : Prop :=
  recording st = recording g /\ start_time st = start_time g /\
  log_file st = log_file g /\ last_mouse_pos st = last_mouse_pos g /\
  current_log_path st = current_log_path g /\
  obs_client st = obs_client g /\ obs_connected st = obs_connected g /\
  should_monitor st = should_monitor g /\ gamepad_enabled st = gamepad_enabled g /\
  include_mouse_position st = include_mouse_position g /\ save_dir st = save_dir g /\
  event_count st = event_count g /\ mouse_count st = mouse_count g /\
  keyboard_count st = keyboard_count g /\ gamepad_count st = gamepad_count g.

(** Nothing is assigned. *)
Definition unchanged (g st : Tracker) : Prop := st = g.

(** No mouse position has been observed. *)
Definition unseeded (_ : unit) (st : Tracker) : Prop := last_mouse_pos st = None.

(** Every effect so far passes the test [ok]. *)
Definition only (ok : Effect -> bool) (g : list Effect) (_ : Tracker) : Prop :=
  forallb ok g = true.


(** The event types the callbacks of the sources log. *)
Definition input_type (ty : string) : bool :=
  existsb (String.eqb ty)
    ["MouseDelta"; "MouseClick"; "KeyDown"; "KeyUp";
     "gamepad_button"; "gamepad_stick"; "gamepad_trigger"; "gamepad_dpad"].

(** The counters agree with the input records written since the header. *)
Definition counters_match (events : list LogEntry) (st : Tracker) : Prop :=
  forallb input_record events = true /\
  event_count st = Z.of_nat (List.length events) /\
  mouse_count st = count_of mouse_record events /\
  keyboard_count st = count_of keyboard_record events /\
  gamepad_count st = count_of gamepad_record events.

(** The session invariant: the tracker records into [path], whose content is
    the header followed by the input records the counters have counted. *)
Definition in_session (path : string) (content : list LogEntry) (st : Tracker) : Prop :=
  Recording path st /\
  exists hdr events,
    content = hdr :: events /\ event_type hdr = "SessionStart" /\
    counters_match events st.

(** The payload of the SessionEnd record written from [st]. *)
Definition end_details (env : StopEnv) (t : Q) (st : Tracker) : Dict :=
  [("total_events", JInt (event_count st));
   ("mouse_events", JInt (mouse_count st));
   ("keyboard_events", JInt (keyboard_count st));
   ("gamepad_events", JInt (gamepad_count st));
   ("duration_seconds", JFloat (fsub (stop_perf_counter env) t))].

(** The tracker is not recording. *)
Definition idle (_ : unit) (st : Tracker) : Prop := recording st = false.

(** The poll of a turn succeeded. *)
Definition poll_ok (env : TurnEnv) : bool :=
  match poll env with
  | Ok _ => true
  | Fails _ => false
  end.

(** The interval slept after a turn: half a second, two after a failure. *)
Definition interval_after (env : TurnEnv) : Q :=
  if poll_ok env then 1 # 2 else 2.

(** The OBS link is up: the loop runs and polls. *)
Definition link_up (st : Tracker) : Prop :=
  obs_client st = true /\ should_monitor st = true /\ obs_connected st = true.

(** Wherever [m] raises from an idle tracker, the tracker is still idle. *)
Definition raises_idle {A : Type} (m : Py A) : Prop :=
  forall st, recording st = false ->
    match m st with
    | (Raise _, st', _) => recording st' = false
    | (Return _, _, _) => True
    end.

(** ** Bounds on what a method body does

    [bounded f n m]: whatever the tracker, the effects of [m] measure at
    most [n] under [f], e.g. at most one file is closed. *)

Class Additive (f : list Effect -> nat) : Prop := {
  add_nil : f [] = 0%nat;
  add_app : forall o1 o2, f (o1 ++ o2) = (f o1 + f o2)%nat
}.

Definition bounded {A : Type} (f : list Effect -> nat) (n : nat) (m : Py A) : Prop :=
  forall st, (f (snd (m st)) <= n)%nat.

(** The number of SessionEnd records written. *)
Definition session_ends (out : list Effect) : nat :=
  count_type "SessionEnd" (records out).

(** Tests on effects. *)
Definition no_file_effect (e : Effect) : bool :=
  match e with
  | FileOpen _ | FileWrite _ _ | FileClose _ => false
  | _ => true
  end.

Definition no_monitor_effect (e : Effect) : bool :=
  match e with
  | Sleep _ | CallStart _ | CallStop => false
  | _ => true
  end.

Definition no_disarm (e : Effect) : bool :=
  match e with
  | SourceStop _ => false
  | _ => true
  end.

(** The path of the log of a session started from [st] under [env]. *)
Definition log_path (env : StartEnv) (st : Tracker) : string :=
  save_dir st +++ "/" +++ "input_log_" +++ strftime_now env +++ ".jsonl".

(** ** Sample environments and trackers *)

Definition quiet_log (t : Q) : LogEnv :=
  {| perf_counter := t; time_time := 1700000000 + t;
     write_exn := None; flush_exn := None |}.

Definition disk_full : Exn := {| exn_class := OSError; exn_msg := "No space left on device" |}.

Definition failing_log (t : Q) : LogEnv :=
  {| perf_counter := t; time_time := 1700000000 + t;
     write_exn := Some disk_full; flush_exn := None |}.

Definition one_gamepad : GamepadEnv :=
  {| joystick_count := Ok 1; joystick_open := Ok "Xbox Controller";
     joystick_init_exn := None; thread_start_exn := None |}.

Definition quiet_start : StartEnv :=
  {| strftime_now := "20240101_120000"; open_exn := None;
     start_perf_counter := 10; start_time_unix := 1700000010;
     start_time_readable := "2024-01-01T12:00:10";
     probe_count := Ok 1; metadata_env := quiet_log 10;
     mouse_ctor_exn := None; keyboard_ctor_exn := None;
     mouse_start_exn := None; keyboard_start_exn := None;
     gamepad_env := one_gamepad |}.

Definition quiet_stop : StopEnv :=
  {| stop_perf_counter := 20; end_env := quiet_log 20 |}.

(** The tracker as [__init__] leaves it, with pygame ready, the gamepad
    enabled and no include_mouse_position entry in the configuration. *)
Definition idle_tracker : Tracker := init true true None "logs".

(** The same tracker with the OBS link up, as [connect_obs] leaves it. *)
Definition linked_tracker : Tracker :=
  {| recording := false; start_time := None; log_file := None;
     mouse_listener := None; keyboard_listener := None;
     last_mouse_pos := None; current_log_path := None;
     obs_client := true; obs_connected := true; should_monitor := true;
     gamepad_tracker := gamepad_tracker idle_tracker;
     gamepad_enabled := true; include_mouse_position := None; save_dir := "logs";
     event_count := 0; mouse_count := 0; keyboard_count := 0; gamepad_count := 0 |}.

(** The tracker in the middle of the sample session, and what its start did. *)
Definition recording_tracker : Tracker :=
  snd (fst (start_recording_sync true true quiet_start idle_tracker)).

Definition sample_start_effects : list Effect :=
  snd (start_recording_sync true true quiet_start idle_tracker).

Definition sample_path : string := log_path quiet_start idle_tracker.

(** A turn of the monitor loop with the given poll. *)
Definition sample_turn (p : Poll) : TurnEnv :=
  {| poll := p; start_env := quiet_start; stop_env := quiet_stop |}.

Definition timed_out : Exn := {| exn_class := OSError; exn_msg := "timed out" |}.

Definition hook_refused : Exn :=
  {| exn_class := OSError; exn_msg := "cannot install keyboard hook" |}.

Definition access_denied : Exn :=
  {| exn_class := OSError; exn_msg := "Permission denied" |}.

(** A start in which the mouse listener starts and the keyboard listener
    then fails to. *)
Definition keyboard_start_fails : StartEnv :=
  {| strftime_now := "20240101_120000"; open_exn := None;
     start_perf_counter := 10; start_time_unix := 1700000010;
     start_time_readable := "2024-01-01T12:00:10";
     probe_count := Ok 1; metadata_env := quiet_log 10;
     mouse_ctor_exn := None; keyboard_ctor_exn := None;
     mouse_start_exn := None; keyboard_start_exn := Some hook_refused;
     gamepad_env := one_gamepad |}.

(** A start in which the log file cannot be created. *)
Definition open_fails : StartEnv :=
  {| strftime_now := "20240101_120000"; open_exn := Some access_denied;
     start_perf_counter := 10; start_time_unix := 1700000010;
     start_time_readable := "2024-01-01T12:00:10";
     probe_count := Ok 1; metadata_env := quiet_log 10;
     mouse_ctor_exn := None; keyboard_ctor_exn := None;
     mouse_start_exn := None; keyboard_start_exn := None;
     gamepad_env := one_gamepad |}.

(** The tracker in the middle of the sample session, after a first mouse
    position (0,0) has been observed. *)
Definition seeded_tracker : Tracker := set_last_mouse_pos (Some (0, 0)) recording_tracker.

(** Two callers of [log_event] on different threads. *)
Definition mouse_caller : Caller :=
  caller (quiet_log 11) "MouseDelta" [("dx", JInt 1); ("dy", JInt 0)].

Definition key_caller : Caller :=
  caller (quiet_log 12) "KeyDown" [("key", JStr "a")].

(** The [log_event] call of a stop made in the middle of the sample session:
    the counters are read into the payload before the call. *)
Definition end_caller : Caller :=
  caller (end_env quiet_stop) "SessionEnd" (end_details quiet_stop 10 seeded_tracker).

(** A record whose write succeeds and whose flush then fails. *)
Definition unflushed_log (t : Q) : LogEnv :=
  {| perf_counter := t; time_time := 1700000000 + t;
     write_exn := None; flush_exn := Some disk_full |}.


(** ** Further observations *)

Definition is_Start (c : Call) : bool :=
  match c with Start _ => true | _ => false end.

Definition is_GamepadTurn (c : Call) : bool :=
  match c with GamepadTurn _ => true | _ => false end.

Definition print_or_sleep (e : Effect) : bool :=
  match e with
  | Print _ | Sleep _ => true
  | _ => false
  end.

(** The tracker after a start in which the keyboard listener failed to
    start: not recording, with the log file still open. *)
Definition half_started_tracker : Tracker :=
  snd (fst (start_recording_sync true true keyboard_start_fails idle_tracker)).

(** A stop whose SessionEnd record cannot be written. *)
Definition failing_stop : StopEnv :=
  {| stop_perf_counter := 20; end_env := failing_log 20 |}.

(** The tracker records with a start reading of zero: [log_event] sees a
    falsy [start_time].  Nothing has been counted, and no effect so far
    touched a file. *)
Definition muted (path : string) (g : list Effect) (st : Tracker) : Prop :=
  recording st = true /\ log_file st = Some path /\
  (exists t, start_time st = Some t /\ float_truthy t = false) /\
  event_count st = 0 /\
  forallb no_file_effect g = true.

(** A start at which the perf counter reads exactly zero. *)
Definition zero_clock_start : StartEnv :=
  {| strftime_now := "20240101_120000"; open_exn := None;
     start_perf_counter := 0; start_time_unix := 1700000010;
     start_time_readable := "2024-01-01T12:00:10";
     probe_count := Ok 1; metadata_env := quiet_log 0;
     mouse_ctor_exn := None; keyboard_ctor_exn := None;
     mouse_start_exn := None; keyboard_start_exn := None;
     gamepad_env := one_gamepad |}.

(** The sum of the (dx, dy) carried by a list of records. *)
Definition add_delta (d : option (Z * Z)) (acc : Z * Z) : Z * Z :=
  match d with
  | Some (dx, dy) => (dx + fst acc, dy + snd acc)
  | None => acc
  end.

Definition total_delta (l : list LogEntry) : Z * Z :=
  fold_right add_delta (0, 0) (map delta_of l).

(** The position a mouse-move callback leaves behind: the last one
    delivered, or the one remembered before. *)
Definition final_position (previous : option (Z * Z)) (positions : list (Z * Z))
  : option (Z * Z) :=
  match positions with
  | [] => previous
  | p :: rest => Some (List.last rest p)
  end.

(** The position the deltas are taken from: the one remembered before, or the
    first one delivered. *)
Definition origin (previous : option (Z * Z)) (positions : list (Z * Z))
  : option (Z * Z) :=
  match previous with
  | Some p => Some p
  | None => List.hd_error positions
  end.

(** ** The OBS link and the window

    [connect_obs], [disconnect_obs] and [start_obs_monitoring] use one more
    attribute of the tracker object, the monitor thread, which the session
    methods never touch; the window's [on_closing] calls into both. *)

Definition set_obs_client (v : bool) (s : Tracker) : Tracker :=
  {| recording := recording s; start_time := start_time s; log_file := log_file s;
     mouse_listener := mouse_listener s; keyboard_listener := keyboard_listener s;
     last_mouse_pos := last_mouse_pos s; current_log_path := current_log_path s;
     obs_client := v; obs_connected := obs_connected s;
     should_monitor := should_monitor s; gamepad_tracker := gamepad_tracker s;
     gamepad_enabled := gamepad_enabled s;
     include_mouse_position := include_mouse_position s; save_dir := save_dir s;
     event_count := event_count s; mouse_count := mouse_count s;
     keyboard_count := keyboard_count s; gamepad_count := gamepad_count s |}.

Definition set_obs_connected (v : bool) (s : Tracker) : Tracker :=
  {| recording := recording s; start_time := start_time s; log_file := log_file s;
     mouse_listener := mouse_listener s; keyboard_listener := keyboard_listener s;
     last_mouse_pos := last_mouse_pos s; current_log_path := current_log_path s;
     obs_client := obs_client s; obs_connected := v;
     should_monitor := should_monitor s; gamepad_tracker := gamepad_tracker s;
     gamepad_enabled := gamepad_enabled s;
     include_mouse_position := include_mouse_position s; save_dir := save_dir s;
     event_count := event_count s; mouse_count := mouse_count s;
     keyboard_count := keyboard_count s; gamepad_count := gamepad_count s |}.

Definition set_should_monitor (v : bool) (s : Tracker) : Tracker :=
  {| recording := recording s; start_time := start_time s; log_file := log_file s;
     mouse_listener := mouse_listener s; keyboard_listener := keyboard_listener s;
     last_mouse_pos := last_mouse_pos s; current_log_path := current_log_path s;
     obs_client := obs_client s; obs_connected := obs_connected s; should_monitor := v;
     gamepad_tracker := gamepad_tracker s; gamepad_enabled := gamepad_enabled s;
     include_mouse_position := include_mouse_position s; save_dir := save_dir s;
     event_count := event_count s; mouse_count := mouse_count s;
     keyboard_count := keyboard_count s; gamepad_count := gamepad_count s |}.

(** The tracker object together with its monitor thread. *)
Record Companion := {
  tracker : Tracker;
  obs_monitor_thread : bool       (* a monitor thread object has been created *)
}.

Definition set_tracker (v : Tracker) (c : Companion) : Companion :=
  {| tracker := v; obs_monitor_thread := obs_monitor_thread c |}.

Definition set_obs_monitor_thread (v : bool) (c : Companion) : Companion :=
  {| tracker := tracker c; obs_monitor_thread := v |}.

(** What these methods do to the outside world. *)
Inductive LinkEffect :=
| OfTracker (e : Effect)          (* an effect of the session layer, prints included *)
| ClientOpen (host : string) (port : Z) (password : option string)
                                  (* obs.ReqClient(host=, port=, password=) *)
| ClientClose                     (* obs_client.disconnect() *)
| MonitorStart                    (* obs_monitor_thread.start() *)
| MonitorJoin                     (* obs_monitor_thread.join(timeout=2) *)
| AskQuit                         (* messagebox.askokcancel("Quit", ...) *)
| Destroy.                        (* root.destroy() *)

(** Method bodies over the whole object. *)
Definition Co (A : Type) : Type := Companion -> Outcome A * Companion * list LinkEffect.

Definition co_ret {A} (a : A) : Co A := fun c => (Return a, c, []).

Definition co_raise {A} (e : Exn) : Co A := fun c => (Raise e, c, []).

Definition co_bind {A B} (m : Co A) (k : A -> Co B) : Co B :=
  fun c =>
    match m c with
    | (Return a, c1, out1) =>
        match k a c1 with
        | (r, c2, out2) => (r, c2, out1 ++ out2)
        end
    | (Raise e, c1, out1) => (Raise e, c1, out1)
    end.

Notation "x <~ m ;; k" := (co_bind m (fun x => k))
  (at level 61, m at next level, right associativity).
Notation "m ;;; k" := (co_bind m (fun _ => k))
  (at level 61, right associativity).

Definition co_try {A} (body : Co A) (handler : Exn -> Co A) : Co A :=
  fun c =>
    match body c with
    | (Return a, c1, out1) => (Return a, c1, out1)
    | (Raise e, c1, out1) =>
        match handler e c1 with
        | (r, c2, out2) => (r, c2, out1 ++ out2)
        end
    end.

Definition co_get {A} (f : Companion -> A) : Co A := fun c => (Return (f c), c, []).

Definition co_assign (f : Companion -> Companion) : Co unit := fun c => (Return tt, f c, []).

Definition co_emit (ef : LinkEffect) : Co unit := fun c => (Return tt, c, [ef]).

Definition co_external (failure : option Exn) (ef : LinkEffect) : Co unit :=
  match failure with
  | Some e => co_raise e
  | None => co_emit ef
  end.

Definition co_ask {A} (r : Answer A) : Co A :=
  match r with
  | Ok a => co_ret a
  | Fails e => co_raise e
  end.

(** A body of the session layer, run on the tracker. *)
Definition lift {A} (m : Py A) : Co A :=
  fun c =>
    match m (tracker c) with
    | (r, st, out) => (r, set_tracker st c, map OfTracker out)
    end.

(** What the outside world does during one [connect_obs]. *)
Record ConnectEnv := {
  config_host : Answer string;      (* config.get('OBS', 'host', fallback='localhost') *)
  config_port : Answer Z;           (* int(config.get('OBS', 'port', fallback='4455')) *)
  config_password : Answer string;  (* config.get('OBS', 'password', fallback='') *)
  req_client_exn : option Exn;      (* obs.ReqClient(...) raises *)
  get_version_exn : option Exn;     (* obs_client.get_version() raises *)
  obs_version : Answer string;      (* version_info.obs_version *)
  monitor_alive : bool;             (* obs_monitor_thread.is_alive() *)
  monitor_start_exn : option Exn    (* obs_monitor_thread.start() raises *)
}.

Definition start_obs_monitoring (alive : bool) (start_exn : option Exn) : Co unit :=
  th <~ co_get obs_monitor_thread ;;
  if th && alive then co_ret tt else
  lift (assign (set_should_monitor true)) ;;;
  co_assign (set_obs_monitor_thread true) ;;;
  co_external start_exn MonitorStart.

Definition connect_obs (env : ConnectEnv) : Co bool :=
  co_try
    (host <~ co_ask (config_host env) ;;
     port <~ co_ask (config_port env) ;;
     password <~ co_ask (config_password env) ;;
     co_external (req_client_exn env)
       (ClientOpen host port
          (if (String.length password =? 0)%nat then None else Some password)) ;;;
     lift (assign (set_obs_client true)) ;;;
     match get_version_exn env with
     | Some e => co_raise e
     | None => co_ret tt
     end ;;;
     lift (assign (set_obs_connected true)) ;;;
     version <~ co_ask (obs_version env) ;;
     lift (emit (Print ("Connected to OBS: " +++ version))) ;;;
     start_obs_monitoring (monitor_alive env) (monitor_start_exn env) ;;;
     co_ret true)
    (fun e =>
       lift (emit (Print ("Failed to connect to OBS: " +++ exn_msg e))) ;;;
       lift (assign (set_obs_connected false)) ;;;
       co_ret false).

(** What the outside world does during one [disconnect_obs]. *)
Record DisconnectEnv := {
  monitor_still_alive : bool;           (* obs_monitor_thread.is_alive() *)
  client_disconnect_exn : option Exn    (* obs_client.disconnect() raises *)
}.

Definition disconnect_obs (env : DisconnectEnv) : Co unit :=
  lift (assign (set_should_monitor false)) ;;;
  th <~ co_get obs_monitor_thread ;;
  (if th && monitor_still_alive env then co_emit MonitorJoin else co_ret tt) ;;;
  client <~ lift (get obs_client) ;;
  (if client then
     co_try (co_external (client_disconnect_exn env) ClientClose) (fun _ => co_ret tt) ;;;
     lift (assign (set_obs_client false))
   else co_ret tt) ;;;
  lift (assign (set_obs_connected false)).

(** ** The window: manual_start, manual_stop, on_closing, update_stats *)

Section Window.

Variables PYNPUT_AVAILABLE PYGAME_AVAILABLE : bool.

Definition manual_start (env : StartEnv) : Co unit :=
  _ <~ lift (start_recording_sync PYNPUT_AVAILABLE PYGAME_AVAILABLE env) ;; co_ret tt.

End Window.

Definition manual_stop (env : StopEnv) : Co unit := lift (stop_recording env).

(** What the outside world does during one [on_closing]. *)
Record ClosingEnv := {
  askokcancel : bool;                   (* the answer to the "Quit" dialog *)
  closing_stop : StopEnv;
  closing_disconnect : DisconnectEnv
}.

Definition on_closing (env : ClosingEnv) : Co unit :=
  rec <~ lift (get recording) ;;
  if rec then
    co_emit AskQuit ;;;
    if askokcancel env then
      lift (stop_recording (closing_stop env)) ;;;
      disconnect_obs (closing_disconnect env) ;;;
      co_emit Destroy
    else co_ret tt
  else
    disconnect_obs (closing_disconnect env) ;;;
    co_emit Destroy.

(** [math.fmod(x, y)], the remainder [divmod] starts from: it has the sign of
    [x] and is exact. *)
Definition fmod (x y : Q) : Q := (x - inject_Z (py_int (x / y)) * y)%Q.

(** [divmod(x, y)] of two floats, as float_divmod computes it:
    [mod = fmod(vx, wx); div = (vx - mod) / wx], both moved by one step when
    [mod] and [wx] differ in sign, and [div] then brought to a whole number
    by [floor], or the next one up when it lies more than 0.5 above. *)
Definition py_divmod (x y : Q) : Q * Q :=
  let mod0 := fmod x y in
  let div0 := fdiv (fsub x mod0) y in
  let adjust := negb (Qeq_bool mod0 0)
                && xorb (negb (Qle_bool 0 y)) (negb (Qle_bool 0 mod0)) in
  let md := if adjust then fadd mod0 y else mod0 in
  let div := if adjust then fsub div0 1 else div0 in
  let floordiv := inject_Z (Qfloor div) in
  (if Qle_bool (div - floordiv) (1 # 2) then floordiv else fadd floordiv 1, md).

(** [f"{n:02d}"]. *)
Definition fmt_02d (n : Z) : string :=
  let s := str_of_int n in
  if (String.length s <? 2)%nat then "0" +++ s else s.

(** The texts [update_stats] puts on the labels. *)
Record Stats := {
  duration_label : string;
  events_label : string;
  mouse_label : string;
  keyboard_label : string;
  gamepad_label : string
}.

(** [update_stats]: [now] is the reading of time.perf_counter(); None when
    no label is touched. *)
Definition update_stats (now : Q) (st : Tracker) : option Stats :=
  match recording st, start_time st with
  | true, Some t =>
      if float_truthy t then
        let elapsed := fsub now t in
        let (hours, remainder) := py_divmod elapsed 3600 in
        let (minutes, seconds) := py_divmod remainder 60 in
        let duration_str :=
          fmt_02d (py_int hours) +++ ":" +++ fmt_02d (py_int minutes) +++ ":"
          +++ fmt_02d (py_int seconds) in
        Some {| duration_label := "Duration: " +++ duration_str;
                events_label := "Events: " +++ str_of_int (event_count st);
                mouse_label := "Mouse: " +++ str_of_int (mouse_count st);
                keyboard_label := "Keyboard: " +++ str_of_int (keyboard_count st);
                gamepad_label := "Gamepad: " +++ str_of_int (gamepad_count st) |}
      else None
  | _, _ => None
  end.

(** The tracker [st] with the link fields of [g]. *)
Definition with_link_of (g st : Tracker) : Tracker :=
  set_obs_client (obs_client g)
    (set_obs_connected (obs_connected g) (set_should_monitor (should_monitor g) st)).

(** Only the fields of the OBS link differ. *)
Definition same_but_link (g st : Tracker) : Prop := with_link_of g st = g.

Definition is_OfTracker (e : LinkEffect) : bool :=
  match e with OfTracker _ => true | _ => false end.

Definition is_Destroy (e : LinkEffect) : bool :=
  match e with Destroy => true | _ => false end.

Definition is_AskQuit (e : LinkEffect) : bool :=
  match e with AskQuit => true | _ => false end.

Definition is_MonitorStart (e : LinkEffect) : bool :=
  match e with MonitorStart => true | _ => false end.

Definition is_ClientClose (e : LinkEffect) : bool :=
  match e with ClientClose => true | _ => false end.

(** The effects of the session layer among those of the whole object. *)
Fixpoint tracker_effects (out : list LinkEffect) : list Effect :=
  match out with
  | [] => []
  | OfTracker e :: rest => e :: tracker_effects rest
  | _ :: rest => tracker_effects rest
  end.

Definition is_Print (e : Effect) : bool :=
  match e with Print _ => true | _ => false end.

(** Sample objects and environments. *)
Definition fresh_companion : Companion :=
  {| tracker := idle_tracker; obs_monitor_thread := false |}.

Definition obs_answers : ConnectEnv :=
  {| config_host := Ok "localhost"; config_port := Ok 4455;
     config_password := Ok "";
     req_client_exn := None; get_version_exn := None; obs_version := Ok "30.0.0";
     monitor_alive := false; monitor_start_exn := None |}.

Definition obs_answers_monitor_alive : ConnectEnv :=
  {| config_host := Ok "localhost"; config_port := Ok 4455;
     config_password := Ok "";
     req_client_exn := None; get_version_exn := None; obs_version := Ok "30.0.0";
     monitor_alive := true; monitor_start_exn := None |}.

Definition quiet_disconnect : DisconnectEnv :=
  {| monitor_still_alive := true; client_disconnect_exn := None |}.

(** The object after a first connection, and in the middle of a session. *)
Definition connected_companion : Companion :=
  snd (fst (connect_obs obs_answers fresh_companion)).

Definition recording_companion : Companion :=
  set_tracker (snd (fst (start_recording_sync true true quiet_start
                           (tracker connected_companion)))) connected_companion.

Definition confirm_close : ClosingEnv :=
  {| askokcancel := true; closing_stop := quiet_stop;
     closing_disconnect := quiet_disconnect |}.

Definition cancel_close : ClosingEnv :=
  {| askokcancel := false; closing_stop := quiet_stop;
     closing_disconnect := quiet_disconnect |}.

(** [pat in s]. *)
Fixpoint occurs (pat s : string) : bool :=
  match s with
  | EmptyString => prefix pat EmptyString
  | String _ s' => prefix pat s || occurs pat s'
  end.

(** A log environment whose write raises an AttributeError. *)
Definition attribute_error_log (t : Q) : LogEnv :=
  {| perf_counter := t; time_time := 1700000000 + t;
     write_exn := Some no_attribute; flush_exn := None |}.

(** The joystick count the SessionStart record reports. *)
Definition probed_count (env : StartEnv) (st : Tracker) : Z :=
  if pygame_ready (gamepad_tracker st)
  then match probe_count env with
       | Ok n => n
       | Fails _ => 0
       end
  else 0.

(** The gamepad tracker is left alone. *)
Definition same_gamepad_tracker (g st : Tracker) : Prop :=
  gamepad_tracker st = gamepad_tracker g.

Definition no_sleep (e : Effect) : bool :=
  match e with
  | Sleep _ => false
  | _ => true
  end.

(** The total counter is the sum of the three category counters, none of
    which is negative. *)
Definition balanced (_ : unit) (st : Tracker) : Prop :=
  event_count st = mouse_count st + keyboard_count st + gamepad_count st /\
  0 <= mouse_count st /\ 0 <= keyboard_count st /\ 0 <= gamepad_count st.

(** The event type falls into one of the three categories [log_event]
    counts. *)
Definition categorised (ty : string) : bool :=
  prefix "Mouse" ty || prefix "Key" ty || prefix "gamepad" ty.
(** * Proofs *)

(** ** Rules for [pres] *)

Section Preservation.

Context {G : Type} (I : G -> Tracker -> Prop) (upd : G -> list Effect -> G).
Context `{!Lawful upd}.

Lemma pres_ret {A} (a : A) : pres I upd (ret a).
Proof. intros g st H. cbn. now rewrite upd_nil. Qed.

Lemma pres_raise {A} (e : Exn) : pres I upd (@raise A e).
Proof. intros g st H. cbn. now rewrite upd_nil. Qed.

Lemma pres_get {A} (f : Tracker -> A) : pres I upd (get f).
Proof. intros g st H. cbn. now rewrite upd_nil. Qed.

Lemma pres_bind {A B} (m : Py A) (k : A -> Py B) :
  pres I upd m -> (forall a, pres I upd (k a)) -> pres I upd (bind m k).
Proof.
  intros Hm Hk g st H. unfold bind.
  specialize (Hm g st H).
  destruct (m st) as [[[a | e] st1] out1]; auto.
  specialize (Hk a _ _ Hm).
  destruct (k a st1) as [[r st2] out2].
  now rewrite upd_app.
Qed.

Lemma pres_try_except {A} (m : Py A) (h : Exn -> Py A) :
  pres I upd m -> (forall e, pres I upd (h e)) -> pres I upd (try_except m h).
Proof.
  intros Hm Hh g st H. unfold try_except.
  specialize (Hm g st H).
  destruct (m st) as [[[a | e] st1] out1]; auto.
  specialize (Hh e _ _ Hm).
  destruct (h e st1) as [[r st2] out2].
  now rewrite upd_app.
Qed.

Lemma pres_assign (f : Tracker -> Tracker) :
  (forall g st, I g st -> I g (f st)) -> pres I upd (assign f).
Proof. intros Hf g st H. cbn. rewrite upd_nil. auto. Qed.

Lemma pres_emit (ef : Effect) :
  (forall g st, I g st -> I (upd g [ef]) st) -> pres I upd (emit ef).
Proof. intros Hf g st H. cbn. auto. Qed.

Lemma pres_gamepad_events (evs : list (PygameEvent * LogEnv)) :
  (forall ev env, In (ev, env) evs -> pres I upd (gamepad_event env ev)) ->
  pres I upd (gamepad_events evs).
Proof.
  induction evs as [| [ev env] rest IH]; intros Hev; cbn [gamepad_events].
  - apply pres_ret.
  - assert (Hrest : pres I upd (gamepad_events rest))
      by (apply IH; intros ev' env' Hin; apply Hev; now right).
    assert (Hhd : pres I upd (gamepad_event env ev)) by (apply Hev; now left).
    destruct ev; try (apply pres_bind; [exact Hhd | intros _; exact Hrest]).
    apply pres_ret.
Qed.

Lemma pres_gamepad_loop_turns (batches : list (list (PygameEvent * LogEnv))) :
  (forall evs, In evs batches -> pres I upd (gamepad_loop_turn evs)) ->
  pres I upd (gamepad_loop_turns batches).
Proof.
  induction batches as [| evs rest IH]; intros Hturn; cbn [gamepad_loop_turns].
  - apply pres_ret.
  - apply pres_bind; [apply pres_get | intros tr].
    apply pres_bind; [apply pres_get | intros j].
    destruct tr; [destruct j |]; try apply pres_ret.
    apply pres_bind; [apply Hturn; now left | intros _].
    apply IH. intros evs' Hin. apply Hturn. now right.
Qed.

End Preservation.

Create HintDb pres.

Ltac head_of t :=
  lazymatch t with
  | ?f _ => head_of f
  | _ => t
  end.

(** One step along the structure of a method body.  What is asked of the
    assignments and of the effects is left to the caller. *)
Ltac pres_step :=
  lazymatch goal with
  | |- pres _ _ (bind _ _) => apply pres_bind; [ exact _ | | intro ]
  | |- pres _ _ (try_except _ _) => apply pres_try_except; [ exact _ | | intro ]
  | |- pres _ _ (ret _) => apply pres_ret; exact _
  | |- pres _ _ (raise _) => apply pres_raise; exact _
  | |- pres _ _ (get _) => apply pres_get; exact _
  | |- pres _ _ (get_gt _) => apply pres_get; exact _
  | |- pres _ _ (assign_gt _) => apply pres_assign; [ exact _ | ]
  | |- pres _ _ (assign _) => apply pres_assign; [ exact _ | ]
  | |- pres _ _ (emit _) => apply pres_emit
  | |- pres _ _ (ask ?r) => destruct r; cbn [ask]
  | |- pres _ _ (external ?f _) => destruct f; cbn [external]
  | |- pres _ _ (if ?b then _ else _) => destruct b
  | |- pres _ _ (match ?x with _ => _ end) => destruct x
  | |- pres _ _ (gamepad_events _) => apply pres_gamepad_events; [ exact _ | intros ? ? ? ]
  | |- pres _ _ (gamepad_loop_turns _) => apply pres_gamepad_loop_turns; [ exact _ | intros ? ? ]
  | |- pres _ _ ?m =>
      first [ solve [auto with pres]
            | let h := head_of m in progress unfold h ]
  end.

Ltac pres_body := repeat pres_step.

#[export] Instance Lawful_keep {G : Type} : Lawful (@keep G).
Proof. split; reflexivity. Qed.

#[export] Instance Lawful_app : Lawful (@app Effect).
Proof. split; intros; [apply app_nil_r | apply app_assoc]. Qed.

Ltac frame_side I :=
  intros ? ? ?; unfold I, keep in *; cbn; first [ assumption | reflexivity ].

Ltac only_side :=
  intros ? ? ?; unfold only in *;
  first [ assumption
        | rewrite forallb_app; cbn; rewrite andb_true_r; assumption ].

Lemma callbacks_same_session (pn pg : bool) (c : Call) :
  is_Stop c = false ->
  forall st, recording st = true ->
    match call pn pg c st with
    | (_, st', _) => same_session st st'
    end.
Proof.
  intros Hc st Hrec.
  destruct c; try discriminate.
  - (* Start: refused while recording *)
    cbn [call]. unfold bind at 1. unfold start_recording_sync.
    unfold bind at 1. unfold get at 1. rewrite Hrec. cbn.
    repeat split.
  - assert (P : pres same_session keep (on_mouse_move env x y))
      by (pres_body; frame_side same_session).
    specialize (P st st). cbn [call]. destruct (on_mouse_move env x y st) as [[r st'] out].
    apply P. repeat split.
  - assert (P : pres same_session keep (on_mouse_click env x y button pressed))
      by (pres_body; frame_side same_session).
    specialize (P st st). cbn [call].
    destruct (on_mouse_click env x y button pressed st) as [[r st'] out].
    apply P. repeat split.
  - assert (P : pres same_session keep (on_key_press env env' k))
      by (pres_body; frame_side same_session).
    specialize (P st st). cbn [call].
    destruct (on_key_press env env' k st) as [[r st'] out].
    apply P. repeat split.
  - assert (P : pres same_session keep (on_key_release env env' k))
      by (pres_body; frame_side same_session).
    specialize (P st st). cbn [call].
    destruct (on_key_release env env' k st) as [[r st'] out].
    apply P. repeat split.
  - assert (P : pres same_session keep (gamepad_loop_turns [evs]))
      by (pres_body; frame_side same_session).
    specialize (P st st). cbn [call].
    destruct (gamepad_loop_turns [evs] st) as [[r st'] out].
    apply P. repeat split.
Qed.

(** ** Running a body step by step *)

Lemma bind_Return {A B} (m : Py A) (k : A -> Py B) st b st' out :
  bind m k st = (Return b, st', out) ->
  exists a st1 out1 out2,
    m st = (Return a, st1, out1) /\ k a st1 = (Return b, st', out2) /\
    out = out1 ++ out2.
Proof.
  unfold bind. destruct (m st) as [[[a | e] st1] out1]; [| discriminate].
  destruct (k a st1) as [[r st2] out2] eqn:Hk. intros H. inversion H; subst.
  now exists a, st1, out1, out2.
Qed.

(** Splits a run that returned along the binds of the body. *)
Ltac exec H :=
  lazymatch type of H with
  | bind _ _ _ = (Return _, _, _) =>
      let H1 := fresh "E" in
      let H2 := fresh "E" in
      apply bind_Return in H; destruct H as (? & ? & ? & ? & H1 & H2 & ->);
      exec H1; exec H2
  | get _ _ = _ => cbv [get] in H; inversion H; subst; clear H
  | assign _ _ = _ => cbv [assign] in H; inversion H; subst; clear H
  | emit _ _ = _ => cbv [emit] in H; inversion H; subst; clear H
  | ret _ _ = _ => cbv [ret] in H; inversion H; subst; clear H
  | raise _ _ = _ => discriminate H
  | external ?f _ _ = _ =>
      let F := fresh "F" in
      destruct f eqn:F; cbv [external] in H; [ discriminate H | exec H ]
  | _ => idtac
  end.

(** Uses [pres I keep m] on a run [H : m st = _]. *)
Ltac framed I H P :=
  lazymatch type of H with
  | ?m ?st = (_, ?st', _) =>
      assert (P : pres I keep m) by (pres_body; frame_side I);
      specialize (P st st); rewrite H in P; unfold I, keep in P;
      specialize (P ltac:(repeat split))
  end.

Lemma log_event_cases (env : LogEnv) (ty : string) (d : Dict) (st : Tracker)
      (path : string) (t : Q) :
  log_file st = Some path -> start_time st = Some t ->
  log_event env ty d st =
    if float_truthy t then
      match write_exn env with
      | Some e => (Raise e, st, [])
      | None =>
          match flush_exn env with
          | Some e => (Raise e, st, [FileWrite path (make_entry env t ty d)])
          | None => (Return tt, counted ty st,
                     [FileWrite path (make_entry env t ty d); FileFlush path])
          end
      end
    else (Return tt, st, []).
Proof.
  intros Hf Ht. unfold log_event, counted.
  unfold bind at 1. unfold get at 1. unfold bind at 1. unfold get at 1.
  rewrite Hf, Ht. cbn [app].
  destruct (float_truthy t); [| reflexivity].
  destruct (write_exn env); [reflexivity |].
  destruct (flush_exn env); [reflexivity |].
  destruct (prefix "Mouse" ty); [reflexivity |].
  destruct (prefix "Key" ty); [reflexivity |].
  destruct (prefix "gamepad" ty); reflexivity.
Qed.

Lemma log_event_idle (env : LogEnv) (ty : string) (d : Dict) (st : Tracker) :
  log_file st = None \/ start_time st = None ->
  log_event env ty d st = (Return tt, st, []).
Proof.
  intros H. unfold log_event.
  unfold bind at 1. unfold get at 1. unfold bind at 1. unfold get at 1.
  destruct H as [H | H]; rewrite H; [reflexivity |].
  destruct (log_file st); reflexivity.
Qed.

(** Uses [pres (only ok) app m] on a run [H : m st = _]. *)
Ltac effects_only ok H P :=
  lazymatch type of H with
  | ?m ?st = (_, _, _) =>
      assert (P : pres (only ok) (@app Effect) m) by (pres_body; only_side);
      specialize (P [] st eq_refl); rewrite H in P; unfold only in P;
      cbn [app] in P
  end.

(** ** Session start *)

Lemma start_refused (pn pg : bool) (env : StartEnv) (st : Tracker) :
  recording st = true ->
  start_recording_sync pn pg env st = (Return false, st, []).
Proof.
  intros H. unfold start_recording_sync.
  unfold bind at 1. unfold get at 1. rewrite H. reflexivity.
Qed.

(** What a successful start leaves behind. *)
Lemma start_success (pn pg : bool) (env : StartEnv) (st st' : Tracker) (out : list Effect) :
  start_recording_sync pn pg env st = (Return true, st', out) ->
  recording st = false /\
  recording st' = true /\
  log_file st' = Some (log_path env st) /\
  start_time st' = Some (start_perf_counter env) /\
  last_mouse_pos st' = None /\
  event_count st' = 0 /\ mouse_count st' = 0 /\
  keyboard_count st' = 0 /\ gamepad_count st' = 0 /\
  same_link st st' /\
  include_mouse_position st' = include_mouse_position st /\
  exists hdr rest,
    out = FileOpen (log_path env st) :: hdr ++ rest /\
    forallb no_file_effect rest = true /\
    if float_truthy (start_perf_counter env)
    then exists h, hdr = [FileWrite (log_path env st) h; FileFlush (log_path env st)]
                   /\ event_type h = "SessionStart"
    else hdr = [].
Proof.
  intros H.
  destruct (recording st) eqn:Hrec.
  { rewrite start_refused in H by assumption. discriminate. }
  unfold start_recording_sync in H.
  unfold bind at 1 in H. unfold get at 1 in H. rewrite Hrec in H.
  unfold try_except in H.
  match type of H with
  | context [match ?b ?s with _ => _ end] =>
      destruct (b s) as [[[r | e] s1] o1] eqn:B
  end.
  2:{ cbn in H. discriminate. }
  inversion H; subst; clear H.
  exec B.
  match type of Hrec with recording ?s = false => rename s into st0 end.
  match goal with
  | H : log_event _ _ _ ?s = (_, ?s', ?o) |- _ =>
      rename H into Elog; rename s into s_info; rename s' into s_log; rename o into o_log
  end.
  match goal with
  | H : (if pn then _ else _) _ = (_, ?s', ?o) |- _ =>
      rename H into Earm; rename s' into s_arm; rename o into o_arm
  end.
  match goal with
  | H : (if gamepad_enabled _ then _ else _) _ = (_, ?s', ?o) |- _ =>
      rename H into Egp; rename s' into s_gp; rename o into o_gp
  end.
  match goal with
  | H : _ = (Return _, s_info, ?o) |- _ => rename H into Einfo; rename o into o_info
  end.
  framed unchanged Einfo U. subst s_info.
  effects_only (fun _ : Effect => false) Einfo Q0.
  assert (o_info = []) by (destruct o_info; [reflexivity | discriminate]).
  subst o_info. clear Q0.
  erewrite log_event_cases in Elog by (cbn; reflexivity).
  framed same_but_sources Earm F1.
  effects_only no_file_effect Earm Q1.
  framed same_but_sources Egp F3.
  effects_only no_file_effect Egp Q3.
  clear Einfo Earm Egp.
  destruct F3 as (B1 & B2 & B3 & B4 & B5 & B6 & B7 & B8 & B9 & B10 & B11 & B12 & B13 & B14 & B15).
  destruct F1 as (A1 & A2 & A3 & A4 & A5 & A6 & A7 & A8 & A9 & A10 & A11 & A12 & A13 & A14 & A15).
  cbn in A1, A2, A3, A4, A5, A6, A7, A8, A9, A10, A11, A12, A13, A14, A15.
  assert (K : exists hdr,
             o_log = hdr /\ forallb no_file_effect [] = true /\
             log_file s_log = Some (log_path env st0) /\
             start_time s_log = Some (start_perf_counter env) /\
             same_link st0 s_log /\
             include_mouse_position s_log = include_mouse_position st0 /\
             if float_truthy (start_perf_counter env)
             then exists h, hdr = [FileWrite (log_path env st0) h; FileFlush (log_path env st0)]
                            /\ event_type h = "SessionStart"
             else hdr = []).
  { destruct (float_truthy (start_perf_counter env)).
    - destruct (write_exn (metadata_env env)); [discriminate |].
      destruct (flush_exn (metadata_env env)); [discriminate |].
      inversion Elog; subst; clear Elog.
      eexists; repeat split. eexists; split; reflexivity.
    - inversion Elog; subst; clear Elog.
      eexists; repeat split. }
  destruct K as (hdr & -> & _ & K1 & K2 & (K3 & K4 & K5) & K6 & K7).
  cbn [recording set_recording log_file start_time last_mouse_pos event_count
       mouse_count keyboard_count gamepad_count include_mouse_position].
  unfold same_link.
  cbn [recording set_recording obs_client obs_connected should_monitor].
  rewrite B2, B3, B4, B6, B7, B8, B10, B12, B13, B14, B15.
  rewrite A2, A3, A4, A6, A7, A8, A10, A12, A13, A14, A15.
  repeat (split; [first [reflexivity | assumption] |]).
  split; [repeat split; assumption |].
  split; [assumption |].
  cbn [app].
  match goal with
  | |- context [o_gp ++ ?tl] => exists hdr, (o_arm ++ o_gp ++ tl)
  end.
  split; [reflexivity |].
  split; [| exact K7].
  rewrite !forallb_app. rewrite Q1, Q3. reflexivity.
Qed.

Lemma sample_start_succeeds :
  start_recording_sync true true quiet_start idle_tracker
  = (Return true, recording_tracker, sample_start_effects).
Proof. vm_compute. reflexivity. Qed.

(** ** Sequences of calls *)

Lemma callbacks_keep_session (pn pg : bool) (cs : list Call) :
  existsb is_Stop cs = false ->
  forall st, recording st = true -> same_session st (fst (run pn pg cs st)).
Proof.
  induction cs as [| c cs IH]; intros Hcs st Hrec.
  - cbn. repeat split.
  - cbn [existsb] in Hcs. apply orb_false_iff in Hcs. destruct Hcs as [Hc Hcs].
    cbn [run].
    pose proof (callbacks_same_session pn pg c Hc st Hrec) as Hs.
    destruct (call pn pg c st) as [[r st1] out1].
    destruct Hs as (S1 & S2 & S3).
    assert (Hrec1 : recording st1 = true) by congruence.
    specialize (IH Hcs st1 Hrec1).
    destruct (run pn pg cs st1) as [st2 out2]. cbn [fst] in *.
    destruct IH as (T1 & T2 & T3).
    repeat split; congruence.
Qed.

(** C1.  A start requested while the tracker is recording returns False and
    changes nothing: the tracker is the same object state (log file, start
    time, listeners, counters) and nothing is done to the outside world.
    Hence, once a start has succeeded, whatever calls follow, as long as no
    stop is among them, the tracker is still recording and a further start
    is refused in the same way: Recording is never entered twice without a
    stop in between. *)
Theorem no_double_start (pn pg : bool) :
  (forall (env : StartEnv) (st : Tracker),
      recording st = true ->
      start_recording_sync pn pg env st = (Return false, st, []))
  /\
  (forall (env0 env1 : StartEnv) (st0 st1 : Tracker) (out0 : list Effect)
          (mid : list Call),
      start_recording_sync pn pg env0 st0 = (Return true, st1, out0) ->
      existsb is_Stop mid = false ->
      let st2 := fst (run pn pg mid st1) in
      recording st2 = true /\
      start_recording_sync pn pg env1 st2 = (Return false, st2, [])).
Proof.
  split.
  - intros env st H. now apply start_refused.
  - intros env0 env1 st0 st1 out0 mid Hstart Hmid st2.
    apply start_success in Hstart. destruct Hstart as (_ & Hrec & _).
    pose proof (callbacks_keep_session pn pg mid Hmid st1 Hrec) as (S1 & _).
    fold st2 in S1.
    assert (Hrec2 : recording st2 = true) by congruence.
    split; [exact Hrec2 | now apply start_refused].
Qed.

Lemma no_double_start_witness :
  start_recording_sync true true quiet_start recording_tracker
  = (Return false, recording_tracker, [])
  /\
  (let mid := [MouseMove (quiet_log 11) 3 4;
               Start quiet_start;
               KeyPress (quiet_log 12) (quiet_log 12) (SpecialKey "Key.shift")] in
   let st2 := fst (run true true mid recording_tracker) in
   recording st2 = true /\
   start_recording_sync true true quiet_start st2 = (Return false, st2, [])).
Proof.
  destruct (no_double_start true true) as [A B].
  split.
  - apply A. vm_compute. reflexivity.
  - apply (B quiet_start quiet_start idle_tracker recording_tracker sample_start_effects).
    + exact sample_start_succeeds.
    + reflexivity.
Defined.

(** ** The mouse callback *)

Lemma abs_positive (d : Z) : (Z.abs d >? 0) = negb (d =? 0).
Proof. destruct d; reflexivity. Qed.

Lemma on_mouse_move_unseeded (env : LogEnv) (x y : Z) (st : Tracker) :
  last_mouse_pos st = None ->
  on_mouse_move env x y st
  = (Return tt, (if recording st then set_last_mouse_pos (Some (x, y)) st else st), []).
Proof.
  intros H. unfold on_mouse_move.
  unfold bind at 1. unfold get at 1.
  destruct (recording st); [| reflexivity].
  cbn [negb]. unfold bind at 1. unfold bind at 1. unfold get at 1.
  rewrite H. reflexivity.
Qed.

Lemma on_mouse_move_idle (env : LogEnv) (x y : Z) (st : Tracker) :
  recording st = false ->
  on_mouse_move env x y st = (Return tt, st, []).
Proof.
  intros H. unfold on_mouse_move.
  unfold bind at 1. unfold get at 1. rewrite H. reflexivity.
Qed.

Lemma on_mouse_move_recording (env : LogEnv) (x y : Z) (st : Tracker)
      (path : string) (t : Q) (px py : Z) :
  recording st = true -> log_file st = Some path -> start_time st = Some t ->
  float_truthy t = true -> io_ok env = true ->
  last_mouse_pos st = Some (px, py) ->
  on_mouse_move env x y st =
    if (x - px =? 0) && (y - py =? 0)
    then (Return tt, set_last_mouse_pos (Some (x, y)) st, [])
    else (Return tt,
          set_last_mouse_pos (Some (x, y)) (counted "MouseDelta" st),
          [FileWrite path
             (make_entry env t "MouseDelta"
                (delta_details (getboolean_include_mouse_position st) x y (x - px) (y - py)));
           FileFlush path]).
Proof.
  intros Hrec Hf Ht Htr Hio Hlast. unfold on_mouse_move.
  unfold bind at 1. unfold get at 1. rewrite Hrec. cbn [negb].
  unfold bind at 1. unfold bind at 1. unfold get at 1. rewrite Hlast.
  rewrite !abs_positive.
  destruct (x - px =? 0); destruct (y - py =? 0); cbn [negb orb andb];
    try reflexivity.
  all: unfold bind at 1; unfold get at 1;
    rewrite (log_event_cases _ _ _ _ path t Hf Ht), Htr;
    unfold io_ok in Hio;
    destruct (write_exn env); [discriminate |];
    destruct (flush_exn env); [discriminate |];
    unfold delta_details;
    destruct (getboolean_include_mouse_position st); reflexivity.
Qed.

Lemma Recording_counted (path : string) (ty : string) (st : Tracker) :
  Recording path st -> Recording path (counted ty st).
Proof.
  intros H. unfold counted.
  destruct (prefix "Mouse" ty); [exact H |].
  destruct (prefix "Key" ty); [exact H |].
  destruct (prefix "gamepad" ty); exact H.
Qed.

Lemma delta_of_delta_details (env : LogEnv) (t : Q) (inc : bool) (x y dx dy : Z) :
  delta_of (make_entry env t "MouseDelta" (delta_details inc x y dx dy)) = Some (dx, dy).
Proof. destruct inc; reflexivity. Qed.

Lemma records_app (o1 o2 : list Effect) : records (o1 ++ o2) = records o1 ++ records o2.
Proof.
  induction o1 as [| e o1 IH]; [reflexivity |].
  destruct e; cbn; rewrite ?IH; reflexivity.
Qed.

(** The records written for a sequence of raw positions are the non-zero
    deltas of the specification. *)
Lemma mouse_moves_refine_spec (pn pg : bool) (path : string)
      (moves : list (LogEnv * (Z * Z))) :
  forallb (fun m => io_ok (fst m)) moves = true ->
  forall st, Recording path st ->
    match run pn pg (mouse_moves moves) st with
    | (st', out) =>
        map delta_of (records out)
        = map Some (spec_mouse_deltas (last_mouse_pos st) (map snd moves))
        /\ forallb (is_type "MouseDelta") (records out) = true
        /\ Recording path st'
    end.
Proof.
  induction moves as [| [env [x y]] moves IH]; intros Hio st HR.
  - cbn. split; [reflexivity | split; [reflexivity | exact HR]].
  - cbn [forallb fst] in Hio. apply andb_true_iff in Hio. destruct Hio as [Hio Hios].
    cbn [mouse_moves map run call fst snd spec_mouse_deltas].
    fold (mouse_moves moves).
    pose proof HR as (Hrec & Hf & t & Ht & Htr).
    destruct (last_mouse_pos st) as [[px py] |] eqn:Hlast.
    + rewrite (on_mouse_move_recording env x y st path t px py) by assumption.
      destruct ((x - px =? 0) && (y - py =? 0)).
      * specialize (IH Hios (set_last_mouse_pos (Some (x, y)) st) HR).
        destruct (run pn pg (mouse_moves moves) (set_last_mouse_pos (Some (x, y)) st))
          as [st' out]. cbn [app]. exact IH.
      * specialize (IH Hios (set_last_mouse_pos (Some (x, y)) (counted "MouseDelta" st))
                       (Recording_counted _ _ _ HR)).
        destruct (run pn pg (mouse_moves moves)
                    (set_last_mouse_pos (Some (x, y)) (counted "MouseDelta" st)))
          as [st' out].
        cbn [app records map forallb last_mouse_pos set_last_mouse_pos] in *.
        destruct IH as (I1 & I2 & I3).
        rewrite delta_of_delta_details, I1, I2.
        split; [reflexivity | split; [reflexivity | exact I3]].
    + rewrite on_mouse_move_unseeded by assumption. rewrite Hrec.
      specialize (IH Hios (set_last_mouse_pos (Some (x, y)) st) HR).
      destruct (run pn pg (mouse_moves moves) (set_last_mouse_pos (Some (x, y)) st))
        as [st' out]. cbn [app]. exact IH.
Qed.

Lemma start_success_Recording (pn pg : bool) (env : StartEnv) (st st' : Tracker)
      (out : list Effect) :
  start_recording_sync pn pg env st = (Return true, st', out) ->
  float_truthy (start_perf_counter env) = true ->
  Recording (log_path env st) st'.
Proof.
  intros H Htr. apply start_success in H.
  destruct H as (_ & Hrec & Hf & Ht & _).
  split; [exact Hrec | split; [exact Hf |]].
  exists (start_perf_counter env). split; assumption.
Qed.

(** C5.  While recording, a raw mouse position makes the callback write a
    record if and only if it differs from the previously observed position in
    at least one axis, and that record is a MouseDelta carrying the
    difference; over a whole sequence of raw positions the records written
    are the non-zero deltas between consecutive positions.  After a session
    start the positions (0,0),(0,0),(1,0),(1,0),(1,1) give exactly two
    MouseDelta records, dx=1,dy=0 then dx=0,dy=1.  (The writes are taken to
    succeed and the perf-counter reading of the start to be non-zero.) *)
Theorem mouse_delta_suppression (pn pg : bool) :
  (forall (path : string) (st : Tracker) (env : LogEnv) (x y : Z),
      Recording path st -> io_ok env = true ->
      let out := snd (on_mouse_move env x y st) in
      (records out <> [] <->
       exists px py, last_mouse_pos st = Some (px, py) /\ (x - px <> 0 \/ y - py <> 0))
      /\
      (forall e px py,
          In e (records out) -> last_mouse_pos st = Some (px, py) ->
          event_type e = "MouseDelta" /\ delta_of e = Some (x - px, y - py)))
  /\
  (forall (path : string) (st : Tracker) (moves : list (LogEnv * (Z * Z))),
      Recording path st ->
      forallb (fun m => io_ok (fst m)) moves = true ->
      let out := snd (run pn pg (mouse_moves moves) st) in
      map delta_of (records out)
      = map Some (spec_mouse_deltas (last_mouse_pos st) (map snd moves))
      /\ forallb (is_type "MouseDelta") (records out) = true)
  /\
  (forall (env0 : StartEnv) (st0 st1 : Tracker) (out0 : list Effect)
          (e1 e2 e3 e4 e5 : LogEnv),
      start_recording_sync pn pg env0 st0 = (Return true, st1, out0) ->
      float_truthy (start_perf_counter env0) = true ->
      forallb io_ok [e1; e2; e3; e4; e5] = true ->
      let out := snd (run pn pg
                        (mouse_moves [(e1, (0, 0)); (e2, (0, 0)); (e3, (1, 0));
                                      (e4, (1, 0)); (e5, (1, 1))]) st1) in
      exists r1 r2,
        records out = [r1; r2] /\
        event_type r1 = "MouseDelta" /\ delta_of r1 = Some (1, 0) /\
        event_type r2 = "MouseDelta" /\ delta_of r2 = Some (0, 1)).
Proof.
  split; [| split].
  - intros path st env x y HR Hio out.
    pose proof HR as (Hrec & Hf & t & Ht & Htr).
    subst out.
    destruct (last_mouse_pos st) as [[px py] |] eqn:Hlast.
    + rewrite (on_mouse_move_recording env x y st path t px py) by assumption.
      destruct (x - px =? 0) eqn:Hx; destruct (y - py =? 0) eqn:Hy; cbn [andb snd records].
      * apply Z.eqb_eq in Hx, Hy. split.
        -- split; [intros H; now elim H |].
           intros (px' & py' & Heq & Hne). inversion Heq; subst. lia.
        -- intros e px' py' [].
      * apply Z.eqb_neq in Hy. split.
        -- split; [intros _; exists px, py; split; [reflexivity | now right] | discriminate].
        -- intros e px' py' [<- | []] Heq. inversion Heq; subst.
           split; [reflexivity | apply delta_of_delta_details].
      * apply Z.eqb_neq in Hx. split.
        -- split; [intros _; exists px, py; split; [reflexivity | now left] | discriminate].
        -- intros e px' py' [<- | []] Heq. inversion Heq; subst.
           split; [reflexivity | apply delta_of_delta_details].
      * apply Z.eqb_neq in Hx. split.
        -- split; [intros _; exists px, py; split; [reflexivity | now left] | discriminate].
        -- intros e px' py' [<- | []] Heq. inversion Heq; subst.
           split; [reflexivity | apply delta_of_delta_details].
    + rewrite on_mouse_move_unseeded by assumption. cbn [snd records]. split.
      * split; [intros H; now elim H |]. intros (px & py & Heq & _). discriminate.
      * intros e px py [].
  - intros path st moves HR Hio out. subst out.
    pose proof (mouse_moves_refine_spec pn pg path moves Hio st HR) as H.
    destruct (run pn pg (mouse_moves moves) st) as [st' o]. cbn [snd].
    destruct H as (H1 & H2 & _). split; assumption.
  - intros env0 st0 st1 out0 e1 e2 e3 e4 e5 Hstart Htr Hio out. subst out.
    pose proof (start_success_Recording _ _ _ _ _ _ Hstart Htr) as HR.
    apply start_success in Hstart. destruct Hstart as (_ & _ & _ & _ & Hlast & _).
    set (moves := [(e1, (0, 0)); (e2, (0, 0)); (e3, (1, 0)); (e4, (1, 0)); (e5, (1, 1))]).
    assert (Hio' : forallb (fun m : LogEnv * (Z * Z) => io_ok (fst m)) moves = true)
      by exact Hio.
    pose proof (mouse_moves_refine_spec pn pg _ moves Hio' st1 HR) as H.
    destruct (run pn pg (mouse_moves moves) st1) as [st' o]. cbn [snd].
    destruct H as (H1 & H2 & _). rewrite Hlast in H1. cbn in H1.
    destruct (records o) as [| r1 [| r2 [| r3 l]]]; try discriminate.
    cbn in H1, H2. inversion H1.
    apply andb_true_iff in H2. destruct H2 as [T1 H2].
    apply andb_true_iff in H2. destruct H2 as [T2 _].
    apply String.eqb_eq in T1, T2.
    exists r1, r2. repeat split; assumption.
Qed.

Lemma mouse_delta_suppression_witness :
  (let out := snd (run true true
                     (mouse_moves [(quiet_log 11, (0, 0)); (quiet_log 12, (0, 0));
                                   (quiet_log 13, (1, 0)); (quiet_log 14, (1, 0));
                                   (quiet_log 15, (1, 1))]) recording_tracker) in
   exists r1 r2,
     records out = [r1; r2] /\
     event_type r1 = "MouseDelta" /\ delta_of r1 = Some (1, 0) /\
     event_type r2 = "MouseDelta" /\ delta_of r2 = Some (0, 1))
  /\
  (let out := snd (on_mouse_move (quiet_log 12) 5 7
                     (set_last_mouse_pos (Some (5, 6)) recording_tracker)) in
   records out <> [] <->
   exists px py, Some (5, 6) = Some (px, py) /\ (5 - px <> 0 \/ 7 - py <> 0)).
Proof.
  destruct (mouse_delta_suppression true true) as (A & B & C).
  split.
  - apply (C quiet_start idle_tracker recording_tracker sample_start_effects).
    + exact sample_start_succeeds.
    + reflexivity.
    + reflexivity.
  - apply (A sample_path (set_last_mouse_pos (Some (5, 6)) recording_tracker)
             (quiet_log 12) 5 7).
    + split; [reflexivity | split; [reflexivity |]].
      exists 10%Q. split; reflexivity.
    + reflexivity.
Defined.

(** Every call but the mouse-move callback leaves an unseeded tracker
    unseeded. *)
Lemma other_calls_keep_unseeded (pn pg : bool) (c : Call) :
  is_MouseMove c = false -> pres unseeded keep (call pn pg c).
Proof.
  intros Hc. destruct c; try discriminate; cbn [call];
    pres_body; frame_side unseeded.
Qed.

Lemma run_keeps_unseeded (pn pg : bool) (cs : list Call) :
  existsb is_MouseMove cs = false ->
  forall st, last_mouse_pos st = None ->
    last_mouse_pos (fst (run pn pg cs st)) = None.
Proof.
  induction cs as [| c cs IH]; intros Hcs st Hst; [exact Hst |].
  cbn [existsb] in Hcs. apply orb_false_iff in Hcs. destruct Hcs as [Hc Hcs].
  cbn [run].
  pose proof (other_calls_keep_unseeded pn pg c Hc tt st Hst) as H1.
  destruct (call pn pg c st) as [[r st1] out1].
  specialize (IH Hcs st1 H1).
  destruct (run pn pg cs st1) as [st2 out2]. exact IH.
Qed.

(** C10.  Whatever position the tracker remembers from before, a successful
    start forgets it, and the first raw mouse position delivered afterwards
    (other calls may come in between) writes no record and has no other
    effect, whatever its coordinates: it only becomes the position the next
    delta is taken from. *)
Theorem first_move_only_seeds (pn pg : bool) :
  forall (env0 : StartEnv) (st0 st1 : Tracker) (out0 : list Effect)
         (mid : list Call) (env : LogEnv) (x y : Z),
    start_recording_sync pn pg env0 st0 = (Return true, st1, out0) ->
    existsb is_MouseMove mid = false ->
    let st2 := fst (run pn pg mid st1) in
    last_mouse_pos st1 = None /\
    on_mouse_move env x y st2
    = (Return tt, (if recording st2 then set_last_mouse_pos (Some (x, y)) st2 else st2), [])
    /\ records (snd (on_mouse_move env x y st2)) = [].
Proof.
  intros env0 st0 st1 out0 mid env x y Hstart Hmid st2.
  apply start_success in Hstart. destruct Hstart as (_ & _ & _ & _ & Hlast & _).
  pose proof (run_keeps_unseeded pn pg mid Hmid st1 Hlast) as H2. fold st2 in H2.
  split; [exact Hlast |].
  rewrite on_mouse_move_unseeded by exact H2.
  split; reflexivity.
Qed.

Lemma first_move_only_seeds_witness :
  let st0 := set_last_mouse_pos (Some (640, 480)) idle_tracker in
  let st1 := snd (fst (start_recording_sync true true quiet_start st0)) in
  let mid := [KeyPress (quiet_log 11) (quiet_log 11) (KeyCode (Some "a") "'a'");
              MouseClick (quiet_log 12) 700 500 "Button.left" true] in
  let st2 := fst (run true true mid st1) in
  last_mouse_pos st1 = None /\
  on_mouse_move (quiet_log 13) 700 500 st2
  = (Return tt,
     (if recording st2 then set_last_mouse_pos (Some (700, 500)) st2 else st2), [])
  /\ records (snd (on_mouse_move (quiet_log 13) 700 500 st2)) = [].
Proof.
  intros st0 st1 mid st2.
  apply (first_move_only_seeds true true quiet_start st0 st1
           (snd (start_recording_sync true true quiet_start st0))).
  - vm_compute. reflexivity.
  - reflexivity.
Defined.

(** ** The session invariant *)

Lemma lines_from_app (path : string) (o1 o2 : list Effect) (acc : list LogEntry) :
  lines_from path acc (o1 ++ o2) = lines_from path (lines_from path acc o1) o2.
Proof.
  revert acc. induction o1 as [| e o1 IH]; intros acc; [reflexivity |].
  destruct e; cbn [app lines_from]; apply IH.
Qed.

#[export] Instance Lawful_lines_from (path : string) : Lawful (lines_from path).
Proof. split; [reflexivity | intros; apply lines_from_app]. Qed.

Lemma count_of_app (f : LogEntry -> bool) (l : list LogEntry) (e : LogEntry) :
  count_of f (l ++ [e]) = count_of f l + (if f e then 1 else 0).
Proof.
  unfold count_of. rewrite filter_app, length_app. cbn [filter].
  destruct (f e); cbn [List.length]; lia.
Qed.

Lemma counters_match_counted (events : list LogEntry) (st : Tracker)
      (env : LogEnv) (t : Q) (ty : string) (d : Dict) :
  input_type ty = true ->
  counters_match events st ->
  counters_match (events ++ [make_entry env t ty d]) (counted ty st).
Proof.
  intros Hty (Hin & Hc & Hm & Hk & Hg).
  unfold input_type in Hty. cbn [existsb] in Hty.
  repeat (apply orb_true_iff in Hty; destruct Hty as [Hty | Hty]);
    try discriminate; apply String.eqb_eq in Hty; subst ty;
    (split; [rewrite forallb_app, Hin; reflexivity |]);
    rewrite !count_of_app, length_app, Nat2Z.inj_add;
    cbn; rewrite Hc, Hm, Hk, Hg; repeat split; lia.
Qed.

Lemma log_event_in_session (path : string) (env : LogEnv) (ty : string) (d : Dict) :
  flush_ok env = true -> input_type ty = true ->
  pres (in_session path) (lines_from path) (log_event env ty d).
Proof.
  intros Hfl Hty content st (HR & hdr & events & -> & Hh & Hc).
  pose proof HR as (Hrec & Hf & t & Ht & Htr).
  rewrite (log_event_cases env ty d st path t Hf Ht), Htr.
  unfold flush_ok in Hfl.
  destruct (write_exn env).
  - cbn [lines_from]. split; [exact HR |]. now exists hdr, events.
  - destruct (flush_exn env); [discriminate |].
    cbn [lines_from]. rewrite String.eqb_refl.
    split; [now apply Recording_counted |].
    exists hdr, (events ++ [make_entry env t ty d]).
    split; [reflexivity | split; [exact Hh |]].
    now apply counters_match_counted.
Qed.

Ltac flush_hyp :=
  first [ assumption
        | match goal with
          | Hall : forallb _ ?evs = true, Hin : In ?p ?evs |- _ =>
              exact (proj1 (forallb_forall _ evs) Hall p Hin)
          end ].

#[export] Hint Extern 1 (pres (in_session _) _ (log_event _ _ _)) =>
  apply log_event_in_session; [ flush_hyp | reflexivity ] : pres.

Ltac session_side :=
  intros ? ? ?; unfold in_session, Recording, counters_match in *; cbn; assumption.

Lemma calls_keep_in_session (pn pg : bool) (path : string) (c : Call) :
  is_Stop c = false -> call_flush_ok c = true ->
  pres (in_session path) (lines_from path) (call pn pg c).
Proof.
  intros Hc Hfl. destruct c; try discriminate; cbn [call call_flush_ok] in *.
  - (* Start: refused, the tracker is recording *)
    intros content st HI. pose proof HI as ((Hrec & _) & _).
    unfold bind. rewrite start_refused by exact Hrec. cbn. exact HI.
  - pres_body; session_side.
  - pres_body; session_side.
  - apply andb_true_iff in Hfl. destruct Hfl as [Hfl Hfl'].
    pres_body; session_side.
  - apply andb_true_iff in Hfl. destruct Hfl as [Hfl Hfl'].
    pres_body; session_side.
  - apply pres_gamepad_loop_turns; [exact _ |].
    intros evs' [<- | []].
    pres_body; session_side.
Qed.

Lemma run_in_session (pn pg : bool) (path : string) (cs : list Call) :
  existsb is_Stop cs = false -> forallb call_flush_ok cs = true ->
  forall content st, in_session path content st ->
    match run pn pg cs st with
    | (st', out) => in_session path (lines_from path content out) st'
    end.
Proof.
  induction cs as [| c cs IH]; intros Hs Hfl content st HI; [exact HI |].
  cbn [existsb] in Hs. apply orb_false_iff in Hs. destruct Hs as [Hc Hs].
  cbn [forallb] in Hfl. apply andb_true_iff in Hfl. destruct Hfl as [Hflc Hfl].
  cbn [run].
  pose proof (calls_keep_in_session pn pg path c Hc Hflc content st HI) as H1.
  destruct (call pn pg c st) as [[r st1] out1].
  specialize (IH Hs Hfl _ st1 H1).
  destruct (run pn pg cs st1) as [st2 out2].
  rewrite lines_from_app. exact IH.
Qed.

(** ** Rules for [bounded] *)

Section Bounds.

Context (f : list Effect -> nat) `{!Additive f}.

Lemma bounded_ret {A} (a : A) : bounded f 0 (ret a).
Proof. intros st. cbn. rewrite add_nil. lia. Qed.

Lemma bounded_raise {A} (e : Exn) : bounded f 0 (@raise A e).
Proof. intros st. cbn. rewrite add_nil. lia. Qed.

Lemma bounded_get {A} (g : Tracker -> A) : bounded f 0 (get g).
Proof. intros st. cbn. rewrite add_nil. lia. Qed.

Lemma bounded_assign (g : Tracker -> Tracker) : bounded f 0 (assign g).
Proof. intros st. cbn. rewrite add_nil. lia. Qed.

Lemma bounded_emit (ef : Effect) (n : nat) : (f [ef] <= n)%nat -> bounded f n (emit ef).
Proof. intros H st. exact H. Qed.

Lemma bounded_external (x : option Exn) (ef : Effect) (n : nat) :
  (f [ef] <= n)%nat -> bounded f n (external x ef).
Proof. intros H st. destruct x; cbn; [rewrite add_nil; lia | exact H]. Qed.

Lemma bounded_bind {A B} (m : Py A) (k : A -> Py B) (a b : nat) :
  bounded f a m -> (forall x, bounded f b (k x)) -> bounded f (a + b) (bind m k).
Proof.
  intros Hm Hk st. unfold bind. specialize (Hm st).
  destruct (m st) as [[[x | e] st1] o1]; cbn [snd] in *; [| lia].
  specialize (Hk x st1). destruct (k x st1) as [[r st2] o2]. cbn [snd] in *.
  rewrite add_app. lia.
Qed.

Lemma bounded_try_except {A} (m : Py A) (h : Exn -> Py A) (a b : nat) :
  bounded f a m -> (forall e, bounded f b (h e)) -> bounded f (a + b) (try_except m h).
Proof.
  intros Hm Hh st. unfold try_except. specialize (Hm st).
  destruct (m st) as [[[x | e] st1] o1]; cbn [snd] in *; [lia |].
  specialize (Hh e st1). destruct (h e st1) as [[r st2] o2]. cbn [snd] in *.
  rewrite add_app. lia.
Qed.

Lemma bounded_if {A} (c : bool) (m1 m2 : Py A) (a b : nat) :
  bounded f a m1 -> bounded f b m2 -> bounded f (Nat.max a b) (if c then m1 else m2).
Proof. intros H1 H2 st. destruct c; [specialize (H1 st) | specialize (H2 st)]; lia. Qed.

Lemma bounded_option {A T} (x : option T) (m1 : T -> Py A) (m2 : Py A) (a b : nat) :
  (forall p, bounded f a (m1 p)) -> bounded f b m2 ->
  bounded f (Nat.max a b) (match x with Some p => m1 p | None => m2 end).
Proof.
  intros H1 H2 st.
  destruct x as [p |]; [specialize (H1 p st) | specialize (H2 st)]; lia.
Qed.

Lemma bounded_option_const {A T} (x : option T) (m1 m2 : Py A) (a b : nat) :
  bounded f a m1 -> bounded f b m2 ->
  bounded f (Nat.max a b) (match x with Some _ => m1 | None => m2 end).
Proof. intros H1 H2 st. destruct x; [specialize (H1 st) | specialize (H2 st)]; lia. Qed.

Lemma bounded_weaken {A} (m : Py A) (a b : nat) :
  bounded f a m -> (a <= b)%nat -> bounded f b m.
Proof. intros H Hab st. specialize (H st). lia. Qed.

End Bounds.

#[export] Instance Additive_closes : Additive closes.
Proof.
  split; [reflexivity |].
  induction o1 as [| e o1 IH]; intros o2; [reflexivity |].
  destruct e; cbn; rewrite ?IH; reflexivity.
Qed.

#[export] Instance Additive_session_ends : Additive session_ends.
Proof.
  split; [reflexivity |].
  intros o1 o2. unfold session_ends, count_type.
  rewrite records_app, filter_app, length_app. reflexivity.
Qed.

(** One step along the structure of a method body, adding up the bounds. *)
Ltac bounded_step :=
  lazymatch goal with
  | |- bounded _ _ (bind _ _) => eapply bounded_bind; [ exact _ | | intro ]
  | |- bounded _ _ (try_except _ _) => eapply bounded_try_except; [ exact _ | | intro ]
  | |- bounded _ _ (ret _) => apply bounded_ret; exact _
  | |- bounded _ _ (raise _) => apply bounded_raise; exact _
  | |- bounded _ _ (get _) => apply bounded_get; exact _
  | |- bounded _ _ (get_gt _) => apply bounded_get; exact _
  | |- bounded _ _ (assign _) => apply bounded_assign; exact _
  | |- bounded _ _ (assign_gt _) => apply bounded_assign; exact _
  | |- bounded _ _ (emit _) => eapply bounded_emit; cbn; apply le_n
  | |- bounded _ _ (external _ _) => eapply bounded_external; [ exact _ | cbn; apply le_n ]
  | |- bounded _ _ (match _ with _ => _ end) =>
      first [ eapply bounded_if
            | eapply bounded_option_const
            | eapply bounded_option; [ intro | ] ]
  | |- bounded _ _ ?m => let h := head_of m in progress unfold h
  end.

(** ** Session stop *)

(** Whatever happens in it, a stop writes at most one SessionEnd record and
    closes at most one file. *)
Lemma stop_closes_at_most_once (env : StopEnv) : bounded closes 1 (stop_recording env).
Proof.
  eapply bounded_weaken; [repeat bounded_step |].
  cbn. lia.
Qed.

Lemma stop_ends_at_most_once (env : StopEnv) : bounded session_ends 1 (stop_recording env).
Proof.
  eapply bounded_weaken; [repeat bounded_step |].
  cbn. lia.
Qed.

Lemma stop_refused (env : StopEnv) (st : Tracker) :
  recording st = false -> stop_recording env st = (Return tt, st, []).
Proof.
  intros H. unfold stop_recording.
  unfold bind at 1. unfold get at 1. rewrite H. reflexivity.
Qed.

(** A stop of a recording tracker whose SessionEnd write succeeds. *)
Lemma stop_recording_session (env : StopEnv) (st : Tracker) (path : string) (t : Q) :
  recording st = true -> log_file st = Some path -> start_time st = Some t ->
  float_truthy t = true -> io_ok (end_env env) = true ->
  exists st' out,
    stop_recording env st = (Return tt, st', out) /\
    records out = [make_entry (end_env env) t "SessionEnd" (end_details env t st)] /\
    closes out = 1%nat /\
    (forall content,
        lines_from path content out
        = content ++ [make_entry (end_env env) t "SessionEnd" (end_details env t st)]) /\
    recording st' = false /\ log_file st' = None.
Proof.
  intros Hrec Hf Ht Htr Hio.
  destruct st as [rec st_time lf ml kl lmp clp oc ocn sm gt ge imp sd ec mc kc gc].
  destruct gt as [tr th j pr].
  cbn in Hrec, Hf, Ht. subst rec lf st_time.
  destruct env as [spc [pc wt we fe]].
  unfold io_ok in Hio. cbn in Hio.
  destruct we; [discriminate |]. destruct fe; [discriminate |].
  cbv -[float_truthy py_round6 round64 round6 fsub Qminus Z.add String.eqb make_entry end_details
        records closes lines_from app].
  rewrite Htr.
  destruct ml, kl, tr, th, j;
    (eexists; eexists; split; [reflexivity |]);
    cbn [records closes lines_from app]; rewrite ?String.eqb_refl;
    repeat split.
Qed.

Lemma lines_from_no_file_effect (path : string) (out : list Effect) (acc : list LogEntry) :
  forallb no_file_effect out = true -> lines_from path acc out = acc.
Proof.
  revert acc. induction out as [| e out IH]; intros acc H; [reflexivity |].
  cbn [forallb] in H. apply andb_true_iff in H. destruct H as [He H].
  destruct e; try discriminate; cbn [lines_from]; now apply IH.
Qed.

(** The counterexample to C2: four sessions that start successfully and are
    then stopped.  In the first the flush of a mouse record fails after its
    write: the record is in the file between SessionStart and SessionEnd,
    and SessionEnd says total_events 0 and mouse_events 0.  In the second a
    mouse callback has passed the guard of [log_event] when the stop logs
    SessionEnd, and writes afterwards: the last record is a MouseDelta, and
    the SessionEnd before it says total_events 0.  In the third the write of
    SessionEnd fails: the last record of the file is a MouseDelta.  In the
    fourth the perf counter read 0 at the start: the start returns True and
    the file stays empty. *)
Lemma session_log_not_bracketed :
  start_recording_sync true true quiet_start idle_tracker
  = (Return true, recording_tracker, sample_start_effects)
  /\
  (let calls := [MouseMove (quiet_log 11) 0 0; MouseMove (unflushed_log 12) 3 4] in
   let r := run true true calls recording_tracker in
   let content := file_content sample_path
                    (sample_start_effects ++ snd r
                     ++ snd (stop_recording quiet_stop (fst r))) in
   map event_type content = ["SessionStart"; "MouseDelta"; "SessionEnd"] /\
   map (field "total_events") content = [None; None; Some (JInt 0)] /\
   map (field "mouse_events") content = [None; None; Some (JInt 0)])
  /\
  (let r := interleave [0; 0; 1; 1; 1; 1; 1; 1; 1; 0; 0; 0; 0; 0; 0]%nat
              [mouse_caller; end_caller] seeded_tracker in
   map finished (fst (fst r)) = [true; true] /\
   map event_type (records (snd r)) = ["SessionEnd"; "MouseDelta"] /\
   map (field "total_events") (records (snd r)) = [Some (JInt 0); None])
  /\
  (let calls := [MouseMove (quiet_log 11) 0 0; MouseMove (quiet_log 12) 3 4] in
   let r := run true true calls recording_tracker in
   let content := file_content sample_path
                    (sample_start_effects ++ snd r
                     ++ snd (stop_recording failing_stop (fst r))) in
   map event_type content = ["SessionStart"; "MouseDelta"])
  /\
  (let s := start_recording_sync true true zero_clock_start idle_tracker in
   let calls := [MouseMove (quiet_log 11) 0 0; MouseMove (quiet_log 12) 3 4] in
   let r := run true true calls (snd (fst s)) in
   let out2 := snd (stop_recording quiet_stop (fst r)) in
   fst (fst s) = Return true /\
   file_content sample_path (snd s ++ snd r ++ out2) = [] /\
   closes out2 = 1%nat).
Proof. vm_compute. repeat split. Qed.

(** C2, as the code has it.  Take a session that is started successfully and
    then stopped, whose callbacks run one after another and have all returned
    when the stop begins, in which the perf-counter reading of the start is
    non-zero, no flush of an input record fails after its write, and the
    SessionEnd record is written and flushed without error.  Its log file
    holds first the SessionStart record, last a SessionEnd record, and in
    between only records of the input sources; the total_events,
    mouse_events, keyboard_events and gamepad_events fields of the SessionEnd
    record are the number of the records in between, in total and per
    source. *)
Theorem session_log_bracketed (pn pg : bool) :
  forall (env0 : StartEnv) (st0 st1 : Tracker) (out0 : list Effect)
         (calls : list Call) (envx : StopEnv),
    start_recording_sync pn pg env0 st0 = (Return true, st1, out0) ->
    float_truthy (start_perf_counter env0) = true ->
    existsb is_Stop calls = false ->
    forallb call_flush_ok calls = true ->
    io_ok (end_env envx) = true ->
    let st2 := fst (run pn pg calls st1) in
    let out1 := snd (run pn pg calls st1) in
    let out2 := snd (stop_recording envx st2) in
    exists hdr events fin,
      file_content (log_path env0 st0) (out0 ++ out1 ++ out2) = hdr :: events ++ [fin] /\
      event_type hdr = "SessionStart" /\
      event_type fin = "SessionEnd" /\
      forallb input_record events = true /\
      field "total_events" fin = Some (JInt (Z.of_nat (List.length events))) /\
      field "mouse_events" fin = Some (JInt (count_of mouse_record events)) /\
      field "keyboard_events" fin = Some (JInt (count_of keyboard_record events)) /\
      field "gamepad_events" fin = Some (JInt (count_of gamepad_record events)).
Proof.
  intros env0 st0 st1 out0 calls envx Hstart Htr Hs Hfl Hio st2 out1 out2.
  set (path := log_path env0 st0).
  pose proof (start_success_Recording _ _ _ _ _ _ Hstart Htr) as HR. fold path in HR.
  apply start_success in Hstart.
  destruct Hstart as (_ & _ & _ & _ & _ & C0 & C1 & C2 & C3 & _ & _ & hdr & rest & -> & Hrest & Hhdr).
  rewrite Htr in Hhdr. destruct Hhdr as (h & -> & Hh). fold path.
  assert (HI : in_session path [h] st1).
  { split; [exact HR |]. exists h, []. split; [reflexivity | split; [exact Hh |]].
    repeat split; assumption. }
  pose proof (run_in_session pn pg path calls Hs Hfl [h] st1 HI) as H2.
  subst st2 out1 out2.
  destruct (run pn pg calls st1) as [st2 out1]. cbn [fst snd].
  destruct H2 as (HR2 & hdr & events & Hcontent & Hhdr & Hin & Hc & Hm & Hk & Hg).
  pose proof HR2 as (Hrec & Hf & t & Ht & Htr2).
  destruct (stop_recording_session envx st2 path t Hrec Hf Ht Htr2 Hio)
    as (st3 & out2 & Hstop & _ & _ & Hlines & _).
  rewrite Hstop. cbn [snd].
  exists hdr, events, (make_entry (end_env envx) t "SessionEnd" (end_details envx t st2)).
  split.
  - unfold file_content. clearbody path.
    cbn [app lines_from]. rewrite !String.eqb_refl. cbn [app].
    rewrite !lines_from_app, (lines_from_no_file_effect _ rest) by assumption.
    rewrite Hcontent, Hlines. reflexivity.
  - split; [exact Hhdr | split; [reflexivity | split; [exact Hin |]]].
    unfold field. cbn. rewrite Hc, Hm, Hk, Hg. repeat split.
Qed.

Lemma session_log_bracketed_witness :
  let calls := [MouseMove (quiet_log 11) 0 0; MouseMove (quiet_log 12) 3 4;
                KeyPress (quiet_log 13) (quiet_log 13) (SpecialKey "Key.shift");
                GamepadTurn [(JOYBUTTONDOWN 0, quiet_log 14)]] in
  let st2 := fst (run true true calls recording_tracker) in
  let out1 := snd (run true true calls recording_tracker) in
  let out2 := snd (stop_recording quiet_stop st2) in
  exists hdr events fin,
    file_content sample_path (sample_start_effects ++ out1 ++ out2)
    = hdr :: events ++ [fin] /\
    event_type hdr = "SessionStart" /\
    event_type fin = "SessionEnd" /\
    forallb input_record events = true /\
    field "total_events" fin = Some (JInt (Z.of_nat (List.length events))) /\
    field "mouse_events" fin = Some (JInt (count_of mouse_record events)) /\
    field "keyboard_events" fin = Some (JInt (count_of keyboard_record events)) /\
    field "gamepad_events" fin = Some (JInt (count_of gamepad_record events)).
Proof.
  intros calls.
  apply (session_log_bracketed true true quiet_start idle_tracker recording_tracker
           sample_start_effects calls quiet_stop).
  - exact sample_start_succeeds.
  - reflexivity.
  - reflexivity.
  - reflexivity.
  - reflexivity.
Defined.

(** After a stop, whatever happened in it, the tracker is not recording. *)
Lemma stop_leaves_idle (env : StopEnv) (st : Tracker) :
  recording (snd (fst (stop_recording env st))) = false.
Proof.
  destruct (recording st) eqn:Hrec.
  - unfold stop_recording. unfold bind at 1. unfold get at 1. rewrite Hrec.
    cbn [negb]. unfold bind at 1. unfold assign at 1.
    match goal with
    | |- context [try_except ?b ?h ?s] =>
        assert (P : pres idle keep (try_except b h)) by (pres_body; frame_side idle);
        specialize (P tt s eq_refl);
        destruct (try_except b h s) as [[r s'] o]
    end.
    exact P.
  - rewrite stop_refused by exact Hrec. exact Hrec.
Qed.

(** C6.  A second stop right after a stop does nothing: it returns at once,
    leaves the tracker as it is and touches neither the log nor the
    sources, so that two stops in a row never write more than one
    SessionEnd record nor close the log file more than once.  After a
    recording session they write exactly one SessionEnd record and close the
    log file exactly once.  (Exactly one: when the SessionEnd record is
    written without error and the perf-counter reading of the start was
    non-zero.) *)
Theorem stop_twice_stops_once :
  (forall (env1 env2 : StopEnv) (st : Tracker),
      let st1 := snd (fst (stop_recording env1 st)) in
      let out := snd (stop_recording env1 st) ++ snd (stop_recording env2 st1) in
      stop_recording env2 st1 = (Return tt, st1, []) /\
      (session_ends out <= 1)%nat /\ (closes out <= 1)%nat)
  /\
  (forall (env1 env2 : StopEnv) (st : Tracker) (path : string),
      Recording path st -> io_ok (end_env env1) = true ->
      let st1 := snd (fst (stop_recording env1 st)) in
      let out := snd (stop_recording env1 st) ++ snd (stop_recording env2 st1) in
      session_ends out = 1%nat /\
      List.length (records out) = 1%nat /\
      closes out = 1%nat /\
      log_file st1 = None).
Proof.
  split.
  - intros env1 env2 st st1 out.
    assert (H2 : stop_recording env2 st1 = (Return tt, st1, []))
      by (apply stop_refused, stop_leaves_idle).
    split; [exact H2 |].
    subst out. rewrite H2. cbn [snd]. rewrite app_nil_r.
    split; [apply stop_ends_at_most_once | apply stop_closes_at_most_once].
  - intros env1 env2 st path (Hrec & Hf & t & Ht & Htr) Hio st1 out.
    subst out. rewrite (stop_refused env2 st1) by apply stop_leaves_idle.
    subst st1.
    destruct (stop_recording_session env1 st path t Hrec Hf Ht Htr Hio)
      as (st' & out & Hstop & Hrecs & Hcl & _ & _ & Hlf).
    rewrite Hstop. cbn [fst snd]. rewrite app_nil_r. unfold session_ends.
    rewrite Hrecs, Hcl. repeat split. exact Hlf.
Qed.

Lemma stop_twice_stops_once_witness :
  let st1 := snd (fst (stop_recording quiet_stop recording_tracker)) in
  let out := snd (stop_recording quiet_stop recording_tracker)
             ++ snd (stop_recording quiet_stop st1) in
  session_ends out = 1%nat /\
  List.length (records out) = 1%nat /\
  closes out = 1%nat /\
  log_file st1 = None.
Proof.
  destruct stop_twice_stops_once as [_ B].
  apply (B quiet_stop quiet_stop recording_tracker sample_path).
  - split; [reflexivity | split; [reflexivity |]].
    exists 10%Q. split; reflexivity.
  - reflexivity.
Defined.

(** ** The monitor loop *)

Lemma start_returns (pn pg : bool) (env : StartEnv) (st : Tracker) :
  exists b st' out, start_recording_sync pn pg env st = (Return b, st', out).
Proof.
  unfold start_recording_sync. unfold bind at 1. unfold get at 1.
  destruct (recording st); [now exists false, st, [] |].
  unfold try_except.
  match goal with
  | |- context [match ?b ?s with _ => _ end] =>
      destruct (b s) as [[[r | e] s1] o1]
  end.
  - now exists r, s1, o1.
  - cbn. eexists; eexists; eexists; reflexivity.
Qed.

Lemma stop_returns (env : StopEnv) (st : Tracker) :
  exists st' out, stop_recording env st = (Return tt, st', out).
Proof.
  unfold stop_recording. unfold bind at 1. unfold get at 1.
  destruct (recording st); cbn [negb]; [| now exists st, []].
  unfold bind at 1. unfold assign at 1. unfold try_except.
  match goal with
  | |- context [match ?b ?s with _ => _ end] =>
      destruct (b s) as [[[[] | e] s1] o1]
  end.
  - eexists; eexists; reflexivity.
  - cbn. eexists; eexists; reflexivity.
Qed.

Lemma start_same_link (pn pg : bool) (env : StartEnv) :
  pres same_link keep (start_recording_sync pn pg env).
Proof. pres_body; frame_side same_link. Qed.

Lemma stop_same_link (env : StopEnv) : pres same_link keep (stop_recording env).
Proof. pres_body; frame_side same_link. Qed.

Lemma start_no_monitor_effect (pn pg : bool) (env : StartEnv) :
  pres (only no_monitor_effect) (@app Effect) (start_recording_sync pn pg env).
Proof. pres_body; only_side. Qed.

Lemma stop_no_monitor_effect (env : StopEnv) :
  pres (only no_monitor_effect) (@app Effect) (stop_recording env).
Proof. pres_body; only_side. Qed.

Lemma calls_fired_app (o1 o2 : list Effect) :
  calls_fired (o1 ++ o2) = calls_fired o1 ++ calls_fired o2.
Proof.
  induction o1 as [| e o1 IH]; [reflexivity |].
  destruct e; cbn; rewrite ?IH; reflexivity.
Qed.

Lemma sleeps_app (o1 o2 : list Effect) : sleeps (o1 ++ o2) = sleeps o1 ++ sleeps o2.
Proof.
  induction o1 as [| e o1 IH]; [reflexivity |].
  destruct e; cbn; rewrite ?IH; reflexivity.
Qed.

Lemma no_monitor_effect_quiet (out : list Effect) :
  forallb no_monitor_effect out = true -> calls_fired out = [] /\ sleeps out = [].
Proof.
  induction out as [| e out IH]; intros H; [now split |].
  cbn [forallb] in H. apply andb_true_iff in H. destruct H as [He H].
  destruct e; try discriminate; cbn; now apply IH.
Qed.

Lemma same_link_up (st st' : Tracker) : same_link st st' -> link_up st -> link_up st'.
Proof.
  intros (A & B & C) (D & E & F). unfold link_up. repeat split; congruence.
Qed.

(** A turn whose poll fails. *)
Lemma monitor_turn_failed (pn pg : bool) (env : TurnEnv) (last : bool) (st : Tracker)
      (e : Exn) :
  obs_client st = true -> poll env = Fails e ->
  monitor_turn pn pg env last st
  = (Return last, st, [Print ("Error monitoring OBS: " +++ exn_msg e); Sleep 2]).
Proof.
  intros Hc Hp. unfold monitor_turn, try_except.
  unfold bind at 1. unfold get at 1. rewrite Hc.
  unfold bind at 1. unfold bind at 1. rewrite Hp. reflexivity.
Qed.

(** A turn without a client object: nothing is polled. *)
Lemma monitor_turn_no_client (pn pg : bool) (env : TurnEnv) (last : bool) (st : Tracker) :
  obs_client st = false ->
  monitor_turn pn pg env last st = (Return last, st, [Sleep (1 # 2)]).
Proof.
  intros Hc. unfold monitor_turn, try_except.
  unfold bind at 1. unfold get at 1. rewrite Hc. reflexivity.
Qed.

(** A turn whose poll succeeds. *)
Lemma monitor_turn_polled (pn pg : bool) (env : TurnEnv) (last : bool) (st : Tracker)
      (b : bool) :
  obs_client st = true -> poll env = Ok b ->
  exists st' out,
    monitor_turn pn pg env last st = (Return b, st', out) /\
    same_link st st' /\
    calls_fired out = transition (last, b) /\
    sleeps out = [1 # 2].
Proof.
  intros Hc Hp. unfold monitor_turn, try_except.
  unfold bind at 1. unfold get at 1. rewrite Hc.
  unfold bind at 1. unfold bind at 1. rewrite Hp. unfold ask, ret at 1.
  destruct b, last; cbn [Bool.eqb negb].
  - exists st, [Sleep (1 # 2)]. repeat split.
  - (* rising edge *)
    destruct (start_returns pn pg (start_env env) st) as (r & st' & out & Hs).
    pose proof (start_same_link pn pg (start_env env) st st) as L.
    pose proof (start_no_monitor_effect pn pg (start_env env) [] st eq_refl) as Q.
    rewrite Hs in L, Q. unfold keep in L. unfold only in Q. cbn [app] in Q.
    apply no_monitor_effect_quiet in Q. destruct Q as [Q1 Q2].
    unfold bind, emit, ret. rewrite Hs. cbn [app].
    eexists; eexists. split; [reflexivity |].
    split; [apply L; repeat split |].
    cbn [calls_fired sleeps].
    rewrite ?calls_fired_app, ?sleeps_app, Q1, Q2. split; reflexivity.
  - (* falling edge *)
    destruct (stop_returns (stop_env env) st) as (st' & out & Hs).
    pose proof (stop_same_link (stop_env env) st st) as L.
    pose proof (stop_no_monitor_effect (stop_env env) [] st eq_refl) as Q.
    rewrite Hs in L, Q. unfold keep in L. unfold only in Q. cbn [app] in Q.
    apply no_monitor_effect_quiet in Q. destruct Q as [Q1 Q2].
    unfold bind, emit, ret. rewrite Hs. cbn [app].
    eexists; eexists. split; [reflexivity |].
    split; [apply L; repeat split |].
    cbn [calls_fired sleeps].
    rewrite ?calls_fired_app, ?sleeps_app, Q1, Q2. split; reflexivity.
  - exists st, [Sleep (1 # 2)]. repeat split.
Qed.

Lemma monitor_turns_cons (pn pg : bool) (env : TurnEnv) (rest : list TurnEnv)
      (prev : bool) (st : Tracker) :
  link_up st ->
  monitor_turns pn pg (env :: rest) prev st
  = bind (monitor_turn pn pg env prev) (fun l => monitor_turns pn pg rest l) st.
Proof.
  intros (_ & Hs & Hc). cbn [monitor_turns].
  unfold bind at 1. unfold get at 1. unfold bind at 1. unfold get at 1.
  rewrite Hs, Hc. cbn [andb app].
  destruct (bind (monitor_turn pn pg env prev) (fun l => monitor_turns pn pg rest l) st)
    as [[r s] o]. reflexivity.
Qed.








(** Failed polls change neither the tracker nor what the loop does on the
    polls that succeed; they only lengthen the sleeps. *)
Lemma monitor_turns_skip_failures (pn pg : bool) (envs : list TurnEnv) :
  forall (prev : bool) (st : Tracker),
    link_up st ->
    exists r st' out out',
      monitor_turns pn pg envs prev st = (r, st', out) /\
      monitor_turns pn pg (filter poll_ok envs) prev st = (r, st', out') /\
      calls_fired out = calls_fired out' /\
      sleeps out = map interval_after envs.
Proof.
  induction envs as [| env envs IH]; intros prev st Hup.
  - exists (Return prev), st, [], []. repeat split.
  - cbn [filter map]. unfold interval_after at 1.
    destruct (poll env) as [b | e] eqn:Hp.
    + assert (Hok : poll_ok env = true) by (unfold poll_ok; now rewrite Hp).
      rewrite Hok.
      rewrite !monitor_turns_cons by exact Hup.
      destruct (monitor_turn_polled pn pg env prev st b (proj1 Hup) Hp)
        as (st1 & o1 & Ht & Hl & _ & Hs).
      pose proof (same_link_up _ _ Hl Hup) as Hup1.
      destruct (IH b st1 Hup1) as (r & st2 & o2 & o2' & H1 & H2 & Hf & Hsl).
      unfold bind. rewrite Ht, H1, H2.
      exists r, st2, (o1 ++ o2), (o1 ++ o2').
      split; [reflexivity | split; [reflexivity |]].
      rewrite !calls_fired_app, !sleeps_app, Hf, Hs, Hsl. split; reflexivity.
    + assert (Hok : poll_ok env = false) by (unfold poll_ok; now rewrite Hp).
      rewrite Hok.
      rewrite monitor_turns_cons by exact Hup.
      destruct (IH prev st Hup) as (r & st2 & o2 & o2' & H1 & H2 & Hf & Hsl).
      unfold bind.
      rewrite (monitor_turn_failed pn pg env prev st e (proj1 Hup) Hp), H1.
      exists r, st2, ([Print ("Error monitoring OBS: " +++ exn_msg e); Sleep 2] ++ o2), o2'.
      split; [reflexivity | split; [exact H2 |]].
      cbn [app calls_fired sleeps]. rewrite Hf, Hsl. split; reflexivity.
Qed.

(** C8.  A turn whose poll fails leaves last_recording_state and the tracker
    as they are, calls neither start nor stop, prints the error and sleeps 2
    seconds; a turn whose poll succeeds sleeps 0.5 seconds.  Over a whole
    run, the failed polls change nothing of what is fired or of the final
    state, and the sleep after each turn is 2 seconds after a failure and
    0.5 seconds after a success, whatever came before. *)
Theorem poll_failure_backs_off (pn pg : bool) :
  (forall (env : TurnEnv) (prev : bool) (st : Tracker) (e : Exn),
      obs_client st = true -> poll env = Fails e ->
      monitor_turn pn pg env prev st
      = (Return prev, st, [Print ("Error monitoring OBS: " +++ exn_msg e); Sleep 2]))
  /\
  (forall (env : TurnEnv) (prev : bool) (st : Tracker) (b : bool),
      obs_client st = true -> poll env = Ok b ->
      sleeps (snd (monitor_turn pn pg env prev st)) = [1 # 2])
  /\
  (forall (envs : list TurnEnv) (prev : bool) (st : Tracker),
      link_up st ->
      let r := monitor_turns pn pg envs prev st in
      let r' := monitor_turns pn pg (filter poll_ok envs) prev st in
      fst r = fst r' /\
      calls_fired (snd r) = calls_fired (snd r') /\
      sleeps (snd r) = map interval_after envs).
Proof.
  split; [| split].
  - intros env prev st e Hc Hp. now apply monitor_turn_failed.
  - intros env prev st b Hc Hp.
    destruct (monitor_turn_polled pn pg env prev st b Hc Hp) as (st' & out & Ht & _ & _ & Hs).
    rewrite Ht. exact Hs.
  - intros envs prev st Hup r r'. subst r r'.
    destruct (monitor_turns_skip_failures pn pg envs prev st Hup)
      as (r & st' & out & out' & H1 & H2 & Hf & Hs).
    rewrite H1, H2. repeat split; assumption.
Qed.

Lemma poll_failure_backs_off_witness :
  monitor_turn true true (sample_turn (Fails timed_out)) true
    (set_recording true linked_tracker)
  = (Return true, set_recording true linked_tracker,
     [Print "Error monitoring OBS: timed out"; Sleep 2])
  /\
  (let envs := map sample_turn [Ok true; Fails timed_out; Fails timed_out; Ok true; Ok false] in
   let r := monitor_turns true true envs false linked_tracker in
   let r' := monitor_turns true true (filter poll_ok envs) false linked_tracker in
   fst r = fst r' /\
   calls_fired (snd r) = calls_fired (snd r') /\
   sleeps (snd r) = map interval_after envs).
Proof.
  destruct (poll_failure_backs_off true true) as (A & _ & C).
  split.
  - apply (A (sample_turn (Fails timed_out)) true (set_recording true linked_tracker)
             timed_out); reflexivity.
  - apply C. repeat split.
Defined.

(** ** A start that fails *)

Lemma raises_idle_bind {A B} (m : Py A) (k : A -> Py B) :
  pres idle keep m -> (forall a, raises_idle (k a)) -> raises_idle (bind m k).
Proof.
  intros Hm Hk st Hst. unfold bind.
  specialize (Hm tt st Hst).
  destruct (m st) as [[[a | e] st1] o1]; [| exact Hm].
  specialize (Hk a st1 Hm).
  destruct (k a st1) as [[[b | e] st2] o2]; [exact I | exact Hk].
Qed.

Lemma stopped_sources_app (o1 o2 : list Effect) :
  stopped_sources (o1 ++ o2) = stopped_sources o1 ++ stopped_sources o2.
Proof.
  induction o1 as [| e o1 IH]; [reflexivity |].
  destruct e; cbn; rewrite ?IH; reflexivity.
Qed.

Lemma no_disarm_none_stopped (out : list Effect) :
  forallb no_disarm out = true -> stopped_sources out = [].
Proof.
  induction out as [| e out IH]; intros H; [reflexivity |].
  cbn [forallb] in H. apply andb_true_iff in H. destruct H as [He H].
  destruct e; try discriminate; cbn; now apply IH.
Qed.

(** C3, at the input where the code falls short of it.  The mouse listener
    has started when the start of the keyboard listener fails.  The call
    returns False with the recording flag false, as C3 says; but nothing is
    rolled back: the mouse listener is left running, no source is stopped,
    and the log file is left open and is never closed. *)
Lemma failed_start_leaves_mouse_armed :
  let r := start_recording_sync true true keyboard_start_fails idle_tracker in
  fst (fst r) = Return false /\
  recording (snd (fst r)) = false /\
  mouse_listener (snd (fst r)) = Some {| running := true |} /\
  started_sources (snd r) = [MouseSource] /\
  stopped_sources (snd r) = [] /\
  log_file (snd (fst r)) = Some sample_path /\
  closes (snd r) = 0%nat.
Proof. vm_compute. repeat split. Qed.

(** What the except clause of a start does in this version: it prints the
    failure and returns False.  So a start never raises, a start that fails
    leaves the recording flag false, and the clause itself stops nothing
    (the slip shown above).  When the creation of the log file fails nothing
    has been armed yet: the call only sets current_log_path and prints the
    failure. *)
Theorem failed_start_stays_idle (pn pg : bool) :
  (forall (env : StartEnv) (st : Tracker),
      exists b st' out, start_recording_sync pn pg env st = (Return b, st', out))
  /\
  (forall (env : StartEnv) (st st' : Tracker) (out : list Effect),
      recording st = false ->
      start_recording_sync pn pg env st = (Return false, st', out) ->
      recording st' = false /\
      stopped_sources out = [] /\
      exists e, List.last out (Print "") = Print ("Failed to start recording: " +++ exn_msg e))
  /\
  (forall (env : StartEnv) (st : Tracker) (e : Exn),
      recording st = false -> open_exn env = Some e ->
      start_recording_sync pn pg env st
      = (Return false, set_current_log_path (Some (log_path env st)) st,
         [Print ("Failed to start recording: " +++ exn_msg e)])).
Proof.
  split; [| split].
  - intros env st. apply start_returns.
  - intros env st st' out Hrec H.
    unfold start_recording_sync in H.
    unfold bind at 1 in H. unfold get at 1 in H. rewrite Hrec in H.
    unfold try_except in H.
    match type of H with
    | context [match ?b ?s with _ => _ end] =>
        assert (R : raises_idle b)
          by (repeat (apply raises_idle_bind; [pres_body; frame_side idle | intro]);
              intros s0 _; exact I);
        assert (D : pres (only no_disarm) (@app Effect) b) by (pres_body; only_side);
        specialize (R s Hrec); specialize (D [] s eq_refl);
        destruct (b s) as [[[r | e] s1] o1] eqn:B
    end.
    + inversion H; subst. exec B.
    + cbn in H. inversion H; subst; clear H.
      unfold only in D. cbn [app] in D.
      split; [exact R | split].
      * rewrite stopped_sources_app, (no_disarm_none_stopped _ D). reflexivity.
      * exists e. apply last_last.
  - intros env st e Hrec Ho.
    unfold start_recording_sync.
    unfold bind at 1. unfold get at 1. rewrite Hrec.
    unfold try_except.
    unfold bind at 1. unfold get at 1. unfold bind at 1. unfold assign at 1.
    unfold bind at 1. rewrite Ho. reflexivity.
Qed.

Lemma failed_start_stays_idle_witness :
  (let r := start_recording_sync true true keyboard_start_fails idle_tracker in
   recording (snd (fst r)) = false /\
   stopped_sources (snd r) = [] /\
   exists e, List.last (snd r) (Print "")
             = Print ("Failed to start recording: " +++ exn_msg e))
  /\
  start_recording_sync true true open_fails idle_tracker
  = (Return false, set_current_log_path (Some sample_path) idle_tracker,
     [Print "Failed to start recording: Permission denied"]).
Proof.
  destruct (failed_start_stays_idle true true) as (_ & B & C).
  split.
  - apply (B keyboard_start_fails idle_tracker).
    + reflexivity.
    + vm_compute. reflexivity.
  - apply (C open_fails idle_tracker access_denied); reflexivity.
Defined.

(** ** A write that fails *)

(** The counterexample to C7: a mouse move whose record cannot be written.
    The callback raises into the listener thread that called it, prints
    nothing, counts nothing and does not even remember the position. *)
Lemma failed_write_escapes_callback :
  let r := on_mouse_move (failing_log 11) 1 0 seeded_tracker in
  fst (fst r) = Raise disk_full /\
  snd r = [] /\
  event_count (snd (fst r)) = event_count seeded_tracker /\
  mouse_count (snd (fst r)) = mouse_count seeded_tracker /\
  last_mouse_pos (snd (fst r)) = Some (0, 0).
Proof. vm_compute. repeat split. Qed.

(** C7, as the code has it.  When the write of a record fails, [log_event]
    raises the error to its caller and leaves the tracker as it was: the line
    is lost and no counter is incremented for it.  The mouse and keyboard
    callbacks pass the error on to the thread that called them; only the
    gamepad loop catches it, prints it and sleeps 0.1 seconds before its next
    turn, the rest of the polled batch being dropped.  The tracker is still
    recording, so a later event whose write succeeds is logged and counted. *)
Theorem write_failure_propagates :
  forall (path : string) (st : Tracker) (env : LogEnv) (e : Exn),
    Recording path st -> write_exn env = Some e ->
    (forall ty d, log_event env ty d st = (Raise e, st, []))
    /\ (forall x y button pressed,
           on_mouse_click env x y button pressed st = (Raise e, st, []))
    /\ (forall x y px py,
           last_mouse_pos st = Some (px, py) -> x - px <> 0 \/ y - py <> 0 ->
           on_mouse_move env x y st = (Raise e, st, []))
    /\ (forall env' k,
           is_AttributeError e = false ->
           on_key_press env env' k st = (Raise e, st, []) /\
           on_key_release env env' k st = (Raise e, st, []))
    /\ (forall b rest,
           gamepad_loop_turn ((JOYBUTTONDOWN b, env) :: rest) st
           = (Return tt, st, [Print ("Gamepad loop error: " +++ exn_msg e); Sleep (1 # 10)]))
    /\ (forall env2 ty d,
           io_ok env2 = true ->
           exists t,
             log_event env2 ty d st
             = (Return tt, counted ty st,
                [FileWrite path (make_entry env2 t ty d); FileFlush path])).
Proof.
  intros path st env e (Hrec & Hf & t & Ht & Htr) Hw.
  assert (L : forall ty d, log_event env ty d st = (Raise e, st, [])).
  { intros ty d. rewrite (log_event_cases env ty d st path t Hf Ht), Htr, Hw.
    reflexivity. }
  split; [exact L |].
  split.
  { intros x y button pressed. unfold on_mouse_click.
    unfold bind at 1. unfold get at 1. rewrite Hrec. cbn [negb].
    rewrite L. reflexivity. }
  split.
  { intros x y px py Hlast Hne. unfold on_mouse_move.
    unfold bind at 1. unfold get at 1. rewrite Hrec. cbn [negb].
    unfold bind at 1. unfold bind at 1. unfold get at 1. rewrite Hlast.
    rewrite !abs_positive.
    assert (Hb : negb (x - px =? 0) || negb (y - py =? 0) = true).
    { destruct Hne as [Hne | Hne]; apply Z.eqb_neq in Hne; rewrite Hne;
        [reflexivity | apply orb_true_r]. }
    rewrite Hb. unfold bind at 1. unfold get at 1. rewrite L. reflexivity. }
  split.
  { intros env' k Hattr.
    unfold on_key_press, on_key_release, on_key.
    unfold bind at 1. unfold get at 1. rewrite Hrec. cbn [negb].
    unfold bind at 1. unfold get at 1. rewrite Hrec. cbn [negb].
    unfold try_except_AttributeError, try_except. rewrite !L, Hattr.
    split; reflexivity. }
  split.
  { intros b rest. unfold gamepad_loop_turn, try_except.
    unfold bind at 1. cbn [gamepad_events]. unfold bind at 1.
    unfold gamepad_event. unfold bind at 1. unfold log_gamepad_event.
    unfold bind at 1. unfold get at 1. rewrite Hrec. rewrite L. reflexivity. }
  intros env2 ty d Hio. exists t.
  rewrite (log_event_cases env2 ty d st path t Hf Ht), Htr.
  unfold io_ok in Hio.
  destruct (write_exn env2); [discriminate |].
  destruct (flush_exn env2); [discriminate |]. reflexivity.
Qed.

Lemma write_failure_propagates_witness :
  on_mouse_move (failing_log 11) 1 0 seeded_tracker = (Raise disk_full, seeded_tracker, [])
  /\
  gamepad_loop_turn [(JOYBUTTONDOWN 0, failing_log 11); (JOYBUTTONUP 0, quiet_log 12)]
    seeded_tracker
  = (Return tt, seeded_tracker,
     [Print "Gamepad loop error: No space left on device"; Sleep (1 # 10)]).
Proof.
  assert (HR : Recording sample_path seeded_tracker).
  { split; [reflexivity | split; [reflexivity |]].
    exists 10%Q. split; reflexivity. }
  destruct (write_failure_propagates sample_path seeded_tracker (failing_log 11)
              disk_full HR eq_refl) as (_ & _ & M & _ & G & _).
  split.
  - apply (M 1 0 0 0); [reflexivity | left; discriminate].
  - apply (G 0).
Defined.

(** ** Concurrent callers of log_event *)







(** Where a thread switch falls between the read and the write of
    [self.event_count += 1], an increment is lost for good: both callers
    have returned, two records are in the log and event_count is 1. *)
Lemma unlocked_increment_lost :
  let r := interleave [0; 0; 0; 0; 0; 1; 1; 1; 1; 1; 1; 1; 1; 0; 0; 0]%nat
             [mouse_caller; key_caller] recording_tracker in
  map finished (fst (fst r)) = [true; true] /\
  List.length (records (snd r)) = 2%nat /\
  event_count (snd (fst r)) = 1.
Proof. vm_compute. repeat split. Qed.



(** * Further properties of the tracker *)

(** ** Float arithmetic *)

Lemma rne_mono (y1 y2 : Q) : (y1 <= y2)%Q -> rne y1 <= rne y2.
Proof.
  destruct y1 as [n1 d1], y2 as [n2 d2]. unfold Qle, rne. cbn [Qnum Qden].
  intros HN.
  set (D1 := Z.pos d1) in *. set (D2 := Z.pos d2) in *.
  assert (HD1 : 0 < D1) by (subst D1; lia).
  assert (HD2 : 0 < D2) by (subst D2; lia).
  pose proof (Z.div_mod n1 D1 ltac:(lia)) as E1.
  pose proof (Z.div_mod n2 D2 ltac:(lia)) as E2.
  pose proof (Z.mod_pos_bound n1 D1 HD1) as B1.
  pose proof (Z.mod_pos_bound n2 D2 HD2) as B2.
  set (f1 := n1 / D1) in *. set (r1 := n1 mod D1) in *.
  set (f2 := n2 / D2) in *. set (r2 := n2 mod D2) in *.
  clearbody f1 r1 f2 r2 D1 D2.
  rewrite E1, E2 in HN. clear E1 E2.
  assert (F : f1 <= f2).
  { destruct (Z.le_gt_cases f1 f2) as [L | L]; [exact L | exfalso].
    assert (A1 : D1 * D2 * (f2 + 1) <= D1 * D2 * f1)
      by (apply Z.mul_le_mono_nonneg_l; nia).
    assert (A2 : r2 * D1 < D2 * D1) by (apply Z.mul_lt_mono_pos_r; lia).
    assert (A3 : 0 <= r1 * D2) by nia.
    lia. }
  assert (G : f1 = f2 -> r1 * D2 <= r2 * D1) by (intros ->; lia).
  destruct (Z.compare_spec (2 * r1) D1) as [C1 | C1 | C1];
    destruct (Z.compare_spec (2 * r2) D2) as [C2 | C2 | C2];
    try lia;
    try (destruct (Z.odd f1) eqn:O1; destruct (Z.odd f2) eqn:O2; try lia;
         destruct (Z.eq_dec f1 f2) as [-> | Ne]; [congruence | lia]);
    try (destruct (Z.odd f1) eqn:O1; try lia);
    try (destruct (Z.odd f2) eqn:O2; try lia);
    (destruct (Z.eq_dec f1 f2) as [Ef | Ne]; [specialize (G Ef); nia | lia]).
Qed.

Lemma rne_inject_Z (k : Z) : rne (inject_Z k) = k.
Proof.
  unfold rne, inject_Z. cbn [Qnum Qden].
  rewrite Z.div_1_r, Z.mod_1_r. reflexivity.
Qed.

Lemma rne_ge (y : Q) (k : Z) : (inject_Z k <= y)%Q -> k <= rne y.
Proof. intros H. apply rne_mono in H. now rewrite rne_inject_Z in H. Qed.

Lemma rne_le (y : Q) (k : Z) : (y <= inject_Z k)%Q -> rne y <= k.
Proof. intros H. apply rne_mono in H. now rewrite rne_inject_Z in H. Qed.

Lemma two_pow_pos (e : Z) : (0 < 2 ^ e)%Q.
Proof. apply Qpower_0_lt. reflexivity. Qed.

Lemma ilog2_spec (x : Q) :
  (0 < x)%Q -> (2 ^ ilog2 x <= x)%Q /\ (x < 2 ^ (ilog2 x + 1))%Q.
Proof.
  intros Hx. unfold ilog2.
  destruct x as [n d]. cbn [Qnum Qden].
  assert (Hn : 0 < n) by (unfold Qlt in Hx; cbn in Hx; lia).
  set (a := Z.log2 n). set (b := Z.log2 (Z.pos d)).
  pose proof (Z.log2_spec n Hn) as [A1 A2]. fold a in A1, A2.
  pose proof (Z.log2_spec (Z.pos d) ltac:(lia)) as [B1 B2]. fold b in B1, B2.
  assert (Ha : 0 <= a) by apply Z.log2_nonneg.
  assert (Hb : 0 <= b) by apply Z.log2_nonneg.
  (* bounds in Q *)
  assert (QA1 : (2 ^ a * inject_Z (Z.pos d) <= inject_Z n * 2 ^ (b + 1))%Q).
  { rewrite <- (Zpower_Qpower 2 a Ha), <- (Zpower_Qpower 2 (b + 1)) by lia.
    rewrite <- !inject_Z_mult, <- Zle_Qle.
    replace (b + 1) with (Z.succ b) by lia. nia. }
  assert (QA2 : (inject_Z n * 2 ^ b < 2 ^ (a + 1) * inject_Z (Z.pos d))%Q).
  { rewrite <- (Zpower_Qpower 2 b Hb), <- (Zpower_Qpower 2 (a + 1)) by lia.
    rewrite <- !inject_Z_mult, <- Zlt_Qlt.
    replace (a + 1) with (Z.succ a) by lia. nia. }
  assert (X : ((n # d) * inject_Z (Z.pos d) == inject_Z n)%Q).
  { unfold Qeq, Qmult, inject_Z. cbn. lia. }
  set (x := (n # d)%Q) in *.
  assert (Dpos : (0 < inject_Z (Z.pos d))%Q) by (unfold Qlt; cbn; lia).
  set (Dq := inject_Z (Z.pos d)) in *. set (Nq := inject_Z n) in *.
  (* x lies between 2^(a-b-1) and 2^(a-b+1) *)
  pose proof (two_pow_pos a) as Pa. pose proof (two_pow_pos b) as Pb.
  pose proof (two_pow_pos (a - b)) as Pab.
  assert (S1 : (2 ^ (a + 1) == 2 ^ (a - b + 1) * 2 ^ b)%Q).
  { rewrite <- Qpower_plus by discriminate. now replace (a - b + 1 + b) with (a + 1) by lia. }
  assert (S2 : (2 ^ a * 2 ^ 1 == 2 ^ (a - b - 1) * 2 ^ (b + 1) * 2 ^ 1)%Q).
  { rewrite <- !Qpower_plus by discriminate.
    now replace (a - b - 1 + (b + 1) + 1) with (a + 1) by lia. }
  assert (Up : (x < 2 ^ (a - b + 1))%Q).
  { pose proof (two_pow_pos (a - b + 1)) as P.
    rewrite S1 in QA2. clearbody x Dq Nq.
    set (u := (2 ^ (a - b + 1))%Q) in *. set (v := (2 ^ b)%Q) in *.
    clearbody u v. rewrite <- X in QA2.
    destruct (Qlt_le_dec x u) as [L | L]; [exact L | exfalso].
    assert (M : (0 <= Dq * v)%Q) by (apply Qmult_le_0_compat; lra).
    pose proof (Qmult_le_compat_r _ _ _ L M). lra. }
  assert (Lo : (2 ^ (a - b - 1) <= x)%Q).
  { pose proof (two_pow_pos (a - b - 1)) as P.
    pose proof (two_pow_pos (b + 1)) as P'.
    assert (S : (2 ^ a == 2 ^ (a - b - 1) * 2 ^ (b + 1))%Q).
    { rewrite <- Qpower_plus by discriminate.
      now replace (a - b - 1 + (b + 1)) with a by lia. }
    rewrite S in QA1. clearbody x Dq Nq.
    set (u := (2 ^ (a - b - 1))%Q) in *. set (v := (2 ^ (b + 1))%Q) in *.
    clearbody u v. rewrite <- X in QA1.
    destruct (Qlt_le_dec x u) as [L | L]; [exfalso | exact L].
    assert (M : (0 < Dq * v)%Q) by (apply Qmult_lt_0_compat; lra).
    pose proof (Qmult_lt_compat_r _ _ _ M L). lra. }
  destruct (Qle_bool (2 ^ (a - b)) x) eqn:T.
  - apply Qle_bool_iff in T. split; assumption.
  - split.
    + exact Lo.
    + replace (a - b - 1 + 1) with (a - b) by lia.
      apply Qnot_le_lt. intros C. apply Qle_bool_iff in C. congruence.
Qed.

Lemma round64_pos_nonneg (x : Q) : (0 < x)%Q -> (0 <= round64_pos x)%Q.
Proof.
  intros Hx. unfold round64_pos.
  set (e := Z.max (ilog2 x - 52) (-1074)).
  pose proof (two_pow_pos e) as P.
  apply Qmult_le_0_compat; [| lra].
  change 0%Q with (inject_Z 0). rewrite <- Zle_Qle. apply rne_ge.
  change (inject_Z 0) with 0%Q.
  apply Qle_shift_div_l; [exact P | lra].
Qed.

Lemma round64_pos_mono (x1 x2 : Q) :
  (0 < x1)%Q -> (x1 <= x2)%Q -> (round64_pos x1 <= round64_pos x2)%Q.
Proof.
  intros H1 H12.
  assert (H2 : (0 < x2)%Q) by lra.
  destruct (ilog2_spec x1 H1) as [L1 U1].
  destruct (ilog2_spec x2 H2) as [L2 U2].
  assert (HE : ilog2 x1 <= ilog2 x2).
  { assert (X : (2 ^ ilog2 x1 < 2 ^ (ilog2 x2 + 1))%Q) by lra.
    apply Qpower_lt_compat_l_inv in X; [lia | reflexivity]. }
  unfold round64_pos.
  set (E1 := ilog2 x1) in *. set (E2 := ilog2 x2) in *.
  set (e1 := Z.max (E1 - 52) (-1074)). set (e2 := Z.max (E2 - 52) (-1074)).
  pose proof (two_pow_pos e1) as P1. pose proof (two_pow_pos e2) as P2.
  destruct (Z.eq_dec e1 e2) as [Heq | Hne].
  - rewrite <- Heq.
    apply Qmult_le_compat_r; [| lra].
    rewrite <- Zle_Qle. apply rne_mono.
    apply Qmult_le_compat_r; [exact H12 |].
    apply Qlt_le_weak, Qinv_lt_0_compat, P1.
  - assert (Hlt : e1 < e2) by lia.
    assert (He2 : e2 = E2 - 52) by lia.
    assert (He1 : E1 - 52 <= e1) by lia.
    (* the larger one has a full mantissa *)
    assert (M2 : 2 ^ 52 <= rne (x2 / 2 ^ e2)).
    { apply rne_ge. apply Qle_shift_div_l; [exact P2 |].
      rewrite (Zpower_Qpower 2 52) by lia. change (inject_Z 2) with 2%Q.
      rewrite <- Qpower_plus by discriminate.
      replace (52 + e2) with E2 by lia. exact L2. }
    (* the smaller one stays below 2^53 *)
    assert (M1 : rne (x1 / 2 ^ e1) <= 2 ^ 53).
    { apply rne_le. apply Qle_shift_div_r; [exact P1 |].
      rewrite (Zpower_Qpower 2 53) by lia. change (inject_Z 2) with 2%Q.
      rewrite <- Qpower_plus by discriminate.
      apply Qle_trans with (2 ^ (E1 + 1))%Q; [lra |].
      apply Qpower_le_compat_l; [lia | discriminate]. }
    apply Qle_trans with (inject_Z (2 ^ 53) * 2 ^ e1)%Q.
    { apply Qmult_le_compat_r; [| lra]. now rewrite <- Zle_Qle. }
    apply Qle_trans with (inject_Z (2 ^ 52) * 2 ^ e2)%Q.
    2:{ apply Qmult_le_compat_r; [| lra]. now rewrite <- Zle_Qle. }
    rewrite (Zpower_Qpower 2 53), (Zpower_Qpower 2 52) by lia.
    change (inject_Z 2) with 2%Q.
    rewrite <- !Qpower_plus by discriminate.
    apply Qpower_le_compat_l; [lia | discriminate].
Qed.

Lemma Qnum_pos (x : Q) (p : positive) : Qnum x = Z.pos p -> (0 < x)%Q.
Proof. intros H. unfold Qlt. cbn. rewrite H. lia. Qed.

Lemma Qnum_neg (x : Q) (p : positive) : Qnum x = Z.neg p -> (x < 0)%Q.
Proof. intros H. unfold Qlt. cbn. rewrite H. lia. Qed.

Lemma Qnum_zero (x : Q) : Qnum x = 0 -> (x == 0)%Q.
Proof. intros H. unfold Qeq. cbn. rewrite H. lia. Qed.

Lemma round64_mono (x1 x2 : Q) : (x1 <= x2)%Q -> (round64 x1 <= round64 x2)%Q.
Proof.
  intros H. unfold round64.
  destruct (Qnum x1) as [| p1 | p1] eqn:N1; destruct (Qnum x2) as [| p2 | p2] eqn:N2.
  - lra.
  - apply round64_pos_nonneg. eapply Qnum_pos; eassumption.
  - apply Qnum_zero in N1. apply Qnum_neg in N2. lra.
  - apply Qnum_pos in N1. apply Qnum_zero in N2. lra.
  - apply round64_pos_mono; [eapply Qnum_pos; eassumption | exact H].
  - apply Qnum_pos in N1. apply Qnum_neg in N2. lra.
  - apply Qnum_neg in N1.
    assert (X : (0 <= round64_pos (- x1))%Q) by (apply round64_pos_nonneg; lra). lra.
  - apply Qnum_neg in N1. apply Qnum_pos in N2.
    assert (X : (0 <= round64_pos (- x1))%Q) by (apply round64_pos_nonneg; lra).
    assert (Y : (0 <= round64_pos x2)%Q) by (apply round64_pos_nonneg; lra). lra.
  - apply Qnum_neg in N1. apply Qnum_neg in N2.
    assert (X : (round64_pos (- x2) <= round64_pos (- x1))%Q)
      by (apply round64_pos_mono; lra).
    lra.
Qed.

Lemma round64_comp (x1 x2 : Q) : (x1 == x2)%Q -> (round64 x1 == round64 x2)%Q.
Proof.
  intros H. apply Qle_antisym; apply round64_mono; lra.
Qed.

(** A double is its own rounding, so it bounds the rounding of what it
    bounds. *)
Lemma round64_le (x c : Q) : (round64 c == c)%Q -> (x <= c)%Q -> (round64 x <= c)%Q.
Proof. intros Hc H. apply round64_mono in H. now rewrite Hc in H. Qed.

Lemma round64_ge (x c : Q) : (round64 c == c)%Q -> (c <= x)%Q -> (c <= round64 x)%Q.
Proof. intros Hc H. apply round64_mono in H. now rewrite Hc in H. Qed.

Ltac is_double := unfold Qeq; vm_compute; reflexivity.

Lemma round64_0 : (round64 0 == 0)%Q.
Proof. reflexivity. Qed.

Lemma round64_nonneg (x : Q) : (0 <= x)%Q -> (0 <= round64 x)%Q.
Proof. apply round64_ge. exact round64_0. Qed.

(** The float literal 0.1 lies just above one tenth. *)
Lemma float_0_1_value : (float_0_1 == 3602879701896397 # 36028797018963968)%Q.
Proof. is_double. Qed.

Lemma float_0_1_above_tenth : (1 # 10 < float_0_1)%Q.
Proof. rewrite float_0_1_value. reflexivity. Qed.

Lemma small_no_overflow (x : Q) : (Qabs x <= 32767)%Q -> overflows x = false.
Proof.
  intros H. unfold overflows.
  destruct (Qle_bool (2 ^ 1024 - 2 ^ 970) (Qabs x)) eqn:E; [| reflexivity].
  apply Qle_bool_iff in E.
  assert (B : (32767 < 2 ^ 1024 - 2 ^ 970)%Q) by (vm_compute; reflexivity).
  set (T := (2 ^ 1024 - 2 ^ 970)%Q) in *. clearbody T. lra.
Qed.

Lemma rne_comp (y1 y2 : Q) : (y1 == y2)%Q -> rne y1 = rne y2.
Proof.
  intros H.
  assert (A : rne y1 <= rne y2) by (apply rne_mono; lra).
  assert (B : rne y2 <= rne y1) by (apply rne_mono; lra).
  lia.
Qed.

(** A whole number up to 2^53 is a double. *)
Lemma round64_int (n : Z) : 0 <= n <= 2 ^ 53 -> (round64 (inject_Z n) == inject_Z n)%Q.
Proof.
  intros [H0 H1].
  destruct (Z.eq_dec n (2 ^ 53)) as [-> | Hne]; [is_double |].
  destruct n as [| p | p]; [reflexivity | | lia].
  unfold round64. cbn [inject_Z Qnum].
  change (Z.pos p # 1) with (inject_Z (Z.pos p)).
  set (n := Z.pos p) in *.
  assert (Hx : (0 < inject_Z n)%Q) by (unfold Qlt; cbn; lia).
  destruct (ilog2_spec _ Hx) as [L _].
  unfold round64_pos.
  set (l := ilog2 (inject_Z n)) in *.
  assert (Hl : l <= 52).
  { destruct (Z_le_gt_dec l 52) as [? | G]; [assumption | exfalso].
    assert (P : (2 ^ 53 <= 2 ^ l)%Q) by (apply Qpower_le_compat_l; [lia | lra]).
    assert (N : (inject_Z n < 2 ^ 53)%Q).
    { change (2 ^ 53)%Q with (inject_Z (2 ^ 53)). rewrite <- Zlt_Qlt. lia. }
    lra. }
  set (e := Z.max (l - 52) (-1074)).
  assert (He : -1074 <= e <= 0) by lia.
  assert (E : (2 ^ e == / inject_Z (2 ^ (- e)))%Q).
  { rewrite Zpower_Qpower by lia. change (inject_Z 2) with 2%Q.
    rewrite <- Qpower_opp. now rewrite Z.opp_involutive. }
  assert (Pp : 0 < 2 ^ (- e)) by (apply Z.pow_pos_nonneg; lia).
  assert (PpQ : (0 < inject_Z (2 ^ (- e)))%Q).
  { change 0%Q with (inject_Z 0). rewrite <- Zlt_Qlt. exact Pp. }
  assert (R : (inject_Z n / 2 ^ e == inject_Z (n * 2 ^ (- e)))%Q).
  { rewrite E, inject_Z_mult. field. lra. }
  rewrite (rne_comp _ _ R), rne_inject_Z, E, inject_Z_mult. field. lra.
Qed.

(** ** The gamepad loop: axes *)

Lemma py_int_inject_Z (k : Z) : py_int (inject_Z k) = k.
Proof. unfold py_int. cbn. apply Z.quot_1_r. Qed.

(** [int()] is monotone. *)
Lemma py_int_mono (q1 q2 : Q) : (q1 <= q2)%Q -> py_int q1 <= py_int q2.
Proof.
  destruct q1 as [a b], q2 as [c d]. unfold Qle, py_int. cbn [Qnum Qden]. intros H.
  rewrite <- (Z.quot_mul_cancel_r a (Zpos b) (Zpos d)) by lia.
  rewrite <- (Z.quot_mul_cancel_r c (Zpos d) (Zpos b)) by lia.
  rewrite (Z.mul_comm (Zpos d) (Zpos b)).
  apply Z.quot_le_mono; lia.
Qed.

Lemma py_int_le_Z (q : Q) (k : Z) : (q <= inject_Z k)%Q -> py_int q <= k.
Proof.
  intros H. apply py_int_mono in H. now rewrite py_int_inject_Z in H.
Qed.

Lemma py_int_ge_Z (q : Q) (k : Z) : (inject_Z k <= q)%Q -> k <= py_int q.
Proof.
  intros H. apply py_int_mono in H. now rewrite py_int_inject_Z in H.
Qed.

Lemma py_int_lt_Z (q : Q) (k : Z) : 0 < k -> (q < inject_Z k)%Q -> py_int q < k.
Proof.
  destruct q as [a b]. unfold Qlt, py_int. cbn. intros Hk H.
  destruct (Z.le_gt_cases 0 a) as [Ha | Ha].
  - apply Z.quot_lt_upper_bound; lia.
  - assert (a ÷ Zpos b <= 0) by (apply Z.quot_le_upper_bound; lia). lia.
Qed.

Lemma outside_deadzone (v : Q) :
  (float_0_1 < Qabs v)%Q -> (v < - (1 # 10))%Q \/ (1 # 10 < v)%Q.
Proof.
  intros H. pose proof float_0_1_above_tenth as T.
  destruct (Qlt_le_dec v 0) as [Hn | Hp].
  - left. rewrite Qabs_neg in H by lra. lra.
  - right. rewrite Qabs_pos in H by lra. lra.
Qed.

Lemma deadzone_test (v : Q) :
  negb (Qle_bool (Qabs v) float_0_1) = true <-> (float_0_1 < Qabs v)%Q.
Proof.
  rewrite negb_true_iff. split; intros H.
  - apply Qnot_le_lt. intros Hle. apply Qle_bool_iff in Hle. congruence.
  - destruct (Qle_bool (Qabs v) float_0_1) eqn:E; [| reflexivity].
    apply Qle_bool_iff in E. lra.
Qed.

(** Within the range of an axis no product overflows. *)
Lemma stick_product_finite (v : Q) : (Qabs v <= 1)%Q -> overflows (v * 32767) = false.
Proof.
  intros H. apply small_no_overflow.
  apply Qabs_Qle_condition in H. apply Qabs_Qle_condition. lra.
Qed.

Lemma trigger_travel (v : Q) :
  (Qabs v <= 1)%Q -> (0 <= fdiv (fadd v 1) 2)%Q /\ (fdiv (fadd v 1) 2 <= 1)%Q.
Proof.
  intros H. apply Qabs_Qle_condition in H.
  assert (A0 : (0 <= fadd v 1)%Q) by (apply round64_nonneg; lra).
  assert (A2 : (fadd v 1 <= 2)%Q) by (apply round64_le; [is_double | lra]).
  unfold fdiv. split.
  - apply round64_nonneg. unfold Qdiv. change (/ 2)%Q with (1 # 2)%Q. lra.
  - apply round64_le; [is_double |].
    unfold Qdiv. change (/ 2)%Q with (1 # 2)%Q. lra.
Qed.

Lemma trigger_product_finite (v : Q) :
  (Qabs v <= 1)%Q -> overflows (fdiv (fadd v 1) 2 * 1023) = false.
Proof.
  intros H. destruct (trigger_travel v H) as [A B].
  apply small_no_overflow. apply Qabs_Qle_condition. lra.
Qed.

(** What an axis motion outside the deadzone writes. *)
Lemma axis_motion_logged (env : LogEnv) (axis : Z) (v : Q) (st : Tracker)
      (path : string) (t : Q) :
  recording st = true -> log_file st = Some path -> start_time st = Some t ->
  float_truthy t = true -> io_ok env = true ->
  (float_0_1 < Qabs v)%Q -> (Qabs v <= 1)%Q ->
  gamepad_event env (JOYAXISMOTION axis v) st
  = if axis <? 4
    then (Return tt, counted "gamepad_stick" st,
          [FileWrite path
             (make_entry env t "gamepad_stick"
                [("stick", JStr (if axis <? 2 then "left_stick" else "right_stick"));
                 ("axis", JStr (if axis mod 2 =? 0 then "x" else "y"));
                 ("value", JInt (py_int (fmul v 32767)));
                 ("normalized", JFloat v)]);
           FileFlush path])
    else (Return tt, counted "gamepad_trigger" st,
          [FileWrite path
             (make_entry env t "gamepad_trigger"
                [("trigger", JStr (if axis =? 4 then "left_trigger" else "right_trigger"));
                 ("value", JInt (Z.max 0 (py_int (fmul (fdiv (fadd v 1) 2) 1023))))]);
           FileFlush path]).
Proof.
  intros Hrec Hf Ht Htr Hio Hv Hv1.
  apply deadzone_test in Hv.
  unfold gamepad_event. rewrite Hv.
  unfold io_ok in Hio.
  destruct (write_exn env) eqn:Hw; [discriminate |].
  destruct (flush_exn env) eqn:Hfl; [discriminate |].
  unfold int_of_product.
  rewrite (stick_product_finite v Hv1), (trigger_product_finite v Hv1).
  destruct (axis <? 4); unfold bind at 1, ret at 1; unfold log_gamepad_event;
    unfold bind at 1; unfold get at 1; rewrite Hrec;
    cbn [String.append];
    rewrite (log_event_cases _ _ _ _ path t Hf Ht), Htr, Hw, Hfl; reflexivity.
Qed.



(** X2.  A stick record carries the reading itself as "normalized" and, as
    "value", the float product of the reading and 32767 cut towards zero.
    For a reading outside the deadzone and within [-1, 1] the value lies
    within [-32767, 32767], has the sign of the reading and is at least 3276
    in magnitude. *)
Theorem stick_value_range :
  forall (path : string) (st : Tracker) (env : LogEnv) (axis : Z) (v : Q),
    Recording path st -> io_ok env = true ->
    axis < 4 -> (float_0_1 < Qabs v)%Q -> (Qabs v <= 1)%Q ->
    exists e z,
      records (snd (gamepad_event env (JOYAXISMOTION axis v) st)) = [e] /\
      field "normalized" e = Some (JFloat v) /\
      field "value" e = Some (JInt z) /\
      z = py_int (round64 (v * 32767)) /\
      3276 <= Z.abs z <= 32767 /\
      ((0 <= v)%Q -> 0 < z) /\ ((v <= 0)%Q -> z < 0).
Proof.
  intros path st env axis v (Hrec & Hf & t & Ht & Htr) Hio Hax Hv Hv1.
  rewrite (axis_motion_logged env axis v st path t Hrec Hf Ht Htr Hio Hv Hv1).
  apply Z.ltb_lt in Hax. rewrite Hax. cbn [snd records].
  eexists; eexists. split; [reflexivity |].
  split; [reflexivity |]. split; [reflexivity |]. split; [reflexivity |].
  unfold fmul.
  apply Qabs_Qle_condition in Hv1. destruct Hv1 as [Hlo Hhi].
  assert (U : py_int (round64 (v * 32767)) <= 32767).
  { apply py_int_le_Z. change (inject_Z 32767) with 32767%Q.
    apply round64_le; [is_double | lra]. }
  assert (L : -32767 <= py_int (round64 (v * 32767))).
  { apply py_int_ge_Z. change (inject_Z (-32767)) with (-32767)%Q.
    apply round64_ge; [is_double | lra]. }
  destruct (outside_deadzone v Hv) as [Hn | Hp].
  - assert (N : py_int (round64 (v * 32767)) <= -3276).
    { apply py_int_le_Z. change (inject_Z (-3276)) with (-3276)%Q.
      apply round64_le; [is_double | lra]. }
    split; [lia |]. split; [intros; lra | intros; lia].
  - assert (P : 3276 <= py_int (round64 (v * 32767))).
    { apply py_int_ge_Z. change (inject_Z 3276) with 3276%Q.
      apply round64_ge; [is_double | lra]. }
    split; [lia |]. split; [intros; lia | intros; lra].
Qed.

Lemma stick_value_range_witness :
  exists e z,
    records (snd (gamepad_event (quiet_log 11) (JOYAXISMOTION 1 (- (1 # 2)))
                    recording_tracker)) = [e] /\
    field "normalized" e = Some (JFloat (- (1 # 2))) /\
    field "value" e = Some (JInt z) /\
    z = py_int (round64 (- (1 # 2) * 32767)) /\
    3276 <= Z.abs z <= 32767 /\
    ((0 <= - (1 # 2))%Q -> 0 < z) /\ ((- (1 # 2) <= 0)%Q -> z < 0).
Proof.
  apply (stick_value_range sample_path recording_tracker (quiet_log 11) 1 (- (1 # 2))).
  - split; [reflexivity | split; [reflexivity |]].
    exists 10%Q. split; reflexivity.
  - reflexivity.
  - lia.
  - vm_compute. reflexivity.
  - vm_compute. discriminate.
Defined.

(** X3.  A trigger record carries max(0, int((v + 1.0) / 2.0 * 1023)),
    computed in float arithmetic: for a reading outside the deadzone and
    within [-1, 1] the value lies within 0..1023.  Because the deadzone test
    is applied to the raw reading, readings around the middle of the travel
    are dropped: no trigger record carries a value between 461 and 561. *)
Theorem trigger_value_range :
  forall (path : string) (st : Tracker) (env : LogEnv) (axis : Z) (v : Q),
    Recording path st -> io_ok env = true ->
    4 <= axis -> (float_0_1 < Qabs v)%Q -> (Qabs v <= 1)%Q ->
    exists e z,
      records (snd (gamepad_event env (JOYAXISMOTION axis v) st)) = [e] /\
      field "trigger" e
      = Some (JStr (if axis =? 4 then "left_trigger" else "right_trigger")) /\
      field "value" e = Some (JInt z) /\
      z = Z.max 0 (py_int (round64 (round64 (round64 (v + 1) / 2) * 1023))) /\
      0 <= z <= 1023 /\
      (z <= 460 \/ 562 <= z).
Proof.
  intros path st env axis v (Hrec & Hf & t & Ht & Htr) Hio Hax Hv Hv1.
  rewrite (axis_motion_logged env axis v st path t Hrec Hf Ht Htr Hio Hv Hv1).
  assert (Hax' : (axis <? 4) = false) by (apply Z.ltb_ge; lia).
  rewrite Hax'. cbn [snd records].
  eexists; eexists. split; [reflexivity |].
  split; [reflexivity |]. split; [reflexivity |]. split; [reflexivity |].
  destruct (trigger_travel v Hv1) as [T0 T1].
  unfold fmul. fold (fadd v 1). fold (fdiv (fadd v 1) 2).
  set (h := fdiv (fadd v 1) 2) in *.
  assert (U : py_int (round64 (h * 1023)) <= 1023).
  { apply py_int_le_Z. change (inject_Z 1023) with 1023%Q.
    apply round64_le; [is_double | lra]. }
  split; [lia |].
  apply Qabs_Qle_condition in Hv1.
  destruct (outside_deadzone v Hv) as [Hn | Hp].
  - left.
    assert (A : (fadd v 1 <= 461 # 512)%Q) by (apply round64_le; [is_double | lra]).
    assert (B : (h <= 461 # 1024)%Q).
    { subst h. apply round64_le; [is_double |].
      unfold Qdiv. change (/ 2)%Q with (1 # 2)%Q. lra. }
    assert (C : (round64 (h * 1023) <= 1843 # 4)%Q)
      by (apply round64_le; [is_double | lra]).
    assert (D : py_int (round64 (h * 1023)) < 461).
    { apply py_int_lt_Z; [lia |]. change (inject_Z 461) with 461%Q. lra. }
    lia.
  - right.
    assert (A : (563 # 512 <= fadd v 1)%Q) by (apply round64_ge; [is_double | lra]).
    assert (B : (563 # 1024 <= h)%Q).
    { subst h. apply round64_ge; [is_double |].
      unfold Qdiv. change (/ 2)%Q with (1 # 2)%Q. lra. }
    assert (C : 562 <= py_int (round64 (h * 1023))).
    { apply py_int_ge_Z. change (inject_Z 562) with 562%Q.
      apply round64_ge; [is_double | lra]. }
    lia.
Qed.

Lemma trigger_value_range_witness :
  exists e z,
    records (snd (gamepad_event (quiet_log 11) (JOYAXISMOTION 4 1) recording_tracker))
    = [e] /\
    field "trigger" e = Some (JStr "left_trigger") /\
    field "value" e = Some (JInt z) /\
    z = Z.max 0 (py_int (round64 (round64 (round64 (1 + 1) / 2) * 1023))) /\
    0 <= z <= 1023 /\
    (z <= 460 \/ 562 <= z).
Proof.
  apply (trigger_value_range sample_path recording_tracker (quiet_log 11) 4 1).
  - split; [reflexivity | split; [reflexivity |]].
    exists 10%Q. split; reflexivity.
  - reflexivity.
  - lia.
  - vm_compute. reflexivity.
  - vm_compute. discriminate.
Defined.

(** ** The gamepad loop: buttons and the directional pad *)

Lemma str_of_int_inj (a b : Z) : str_of_int a = str_of_int b -> a = b.
Proof.
  unfold str_of_int. intros H. apply DecimalZ.to_int_inj.
  assert (N : forall z, Z.to_int z <> Decimal.Pos Decimal.Nil /\
                        Z.to_int z <> Decimal.Neg Decimal.Nil).
  { intros [| p | p]; cbn; split; try discriminate;
      intros E; inversion E as [E']; now apply Unsigned.to_uint_nonnil in E'. }
  pose proof (NilZero.isi (Z.to_int a) (proj1 (N a)) (proj2 (N a))) as Ha.
  pose proof (NilZero.isi (Z.to_int b) (proj1 (N b)) (proj2 (N b))) as Hb.
  rewrite H in Ha. rewrite Ha in Hb. now inversion Hb.
Qed.

Lemma button_names_range (b : Z) :
  (exists n, button_names b = Some n) <-> 0 <= b <= 9.
Proof.
  split.
  - intros [n H]. destruct b as [| p | p]; try discriminate; [lia |].
    do 4 (destruct p as [p | p |]; try discriminate; try lia).
  - intros H.
    assert (C : b = 0 \/ b = 1 \/ b = 2 \/ b = 3 \/ b = 4 \/ b = 5 \/ b = 6 \/
                b = 7 \/ b = 8 \/ b = 9) by lia.
    repeat (destruct C as [-> | C]; [eexists; reflexivity |]).
    subst b. eexists; reflexivity.
Qed.

(** X4.  Button names: the indices 0..9 have the ten names of the table,
    every other index is named "button_" followed by its decimal code, and
    no two buttons share a name. *)
Theorem button_name_injective :
  (forall b, 0 <= b <= 9 -> button_names b = Some (button_name b)) /\
  (forall b, ~ 0 <= b <= 9 -> button_name b = "button_" +++ str_of_int b) /\
  (forall b1 b2, button_name b1 = button_name b2 -> b1 = b2).
Proof.
  split; [| split].
  - intros b H. apply button_names_range in H. destruct H as [n H].
    unfold button_name. now rewrite H.
  - intros b H. unfold button_name.
    destruct (button_names b) as [n |] eqn:E; [| reflexivity].
    exfalso. apply H. apply button_names_range. now exists n.
  - intros b1 b2 H. unfold button_name in H.
    destruct (button_names b1) as [n1 |] eqn:E1;
      destruct (button_names b2) as [n2 |] eqn:E2.
    + assert (R1 : 0 <= b1 <= 9) by (apply button_names_range; now exists n1).
      assert (R2 : 0 <= b2 <= 9) by (apply button_names_range; now exists n2).
      subst n2.
      assert (C1 : b1 = 0 \/ b1 = 1 \/ b1 = 2 \/ b1 = 3 \/ b1 = 4 \/ b1 = 5 \/ b1 = 6 \/
                   b1 = 7 \/ b1 = 8 \/ b1 = 9) by lia.
      assert (C2 : b2 = 0 \/ b2 = 1 \/ b2 = 2 \/ b2 = 3 \/ b2 = 4 \/ b2 = 5 \/ b2 = 6 \/
                   b2 = 7 \/ b2 = 8 \/ b2 = 9) by lia.
      repeat (destruct C1 as [-> | C1]);
        repeat (destruct C2 as [-> | C2]);
        subst; cbn in E1, E2; congruence.
    + exfalso.
      assert (R1 : 0 <= b1 <= 9) by (apply button_names_range; now exists n1).
      assert (C1 : b1 = 0 \/ b1 = 1 \/ b1 = 2 \/ b1 = 3 \/ b1 = 4 \/ b1 = 5 \/ b1 = 6 \/
                   b1 = 7 \/ b1 = 8 \/ b1 = 9) by lia.
      repeat (destruct C1 as [-> | C1]); subst; cbn in E1;
        inversion E1; subst; discriminate.
    + exfalso.
      assert (R2 : 0 <= b2 <= 9) by (apply button_names_range; now exists n2).
      assert (C2 : b2 = 0 \/ b2 = 1 \/ b2 = 2 \/ b2 = 3 \/ b2 = 4 \/ b2 = 5 \/ b2 = 6 \/
                   b2 = 7 \/ b2 = 8 \/ b2 = 9) by lia.
      repeat (destruct C2 as [-> | C2]); subst; cbn in E2;
        inversion E2; subst; discriminate.
    + cbn in H. inversion H as [H']. now apply str_of_int_inj.
Qed.

Lemma button_name_injective_witness :
  button_names 7 = Some (button_name 7) /\
  button_name 12 = "button_" +++ str_of_int 12.
Proof.
  destruct button_name_injective as (A & B & _).
  split; [apply A; lia | apply B; lia].
Defined.

(** X5.  The directional pad: a hat position with coordinates in -1..1 is
    named by one of nine directions, "neutral" exactly at (0, 0), and
    different positions have different names; a coordinate outside -1..1
    counts as 0. *)
Theorem hat_direction_injective :
  (forall x y x' y',
      -1 <= x <= 1 -> -1 <= y <= 1 -> -1 <= x' <= 1 -> -1 <= y' <= 1 ->
      hat_direction x y = hat_direction x' y' -> x = x' /\ y = y')
  /\
  (forall x y, -1 <= x <= 1 -> -1 <= y <= 1 ->
               (hat_direction x y = "neutral" <-> x = 0 /\ y = 0))
  /\
  (forall x y, ~ -1 <= x <= 1 -> hat_direction x y = hat_direction 0 y)
  /\
  (forall x y, ~ -1 <= y <= 1 -> hat_direction x y = hat_direction x 0).
Proof.
  assert (C : forall z, -1 <= z <= 1 -> z = -1 \/ z = 0 \/ z = 1) by (intros; lia).
  split; [| split; [| split]].
  - intros x y x' y' Hx Hy Hx' Hy' H.
    destruct (C x Hx) as [-> | [-> | ->]]; destruct (C y Hy) as [-> | [-> | ->]];
      destruct (C x' Hx') as [-> | [-> | ->]]; destruct (C y' Hy') as [-> | [-> | ->]];
      cbn in H; try discriminate; split; reflexivity.
  - intros x y Hx Hy.
    destruct (C x Hx) as [-> | [-> | ->]]; destruct (C y Hy) as [-> | [-> | ->]];
      cbn; split; intros H; try discriminate; try lia; reflexivity.
  - intros x y Hx. unfold hat_direction.
    assert (E1 : (x =? 1) = false) by (apply Z.eqb_neq; lia).
    assert (E2 : (x =? -1) = false) by (apply Z.eqb_neq; lia).
    rewrite E1, E2. reflexivity.
  - intros x y Hy. unfold hat_direction.
    assert (E1 : (y =? 1) = false) by (apply Z.eqb_neq; lia).
    assert (E2 : (y =? -1) = false) by (apply Z.eqb_neq; lia).
    rewrite E1, E2. reflexivity.
Qed.

Lemma hat_direction_injective_witness :
  (hat_direction 1 (-1) = hat_direction 1 (-1) -> 1 = 1 /\ -1 = -1) /\
  hat_direction 2 1 = hat_direction 0 1.
Proof.
  destruct hat_direction_injective as (A & _ & B & _).
  split; [apply A; lia | apply B; lia].
Defined.

(** ** Callbacks outside a session *)

Lemma gamepad_event_idle (env : LogEnv) (ev : PygameEvent) (st : Tracker) :
  recording st = false ->
  exists r out, gamepad_event env ev st = (r, st, out) /\
                forallb print_or_sleep out = true.
Proof.
  intros H.
  destruct ev; unfold gamepad_event;
    try (cbv [log_gamepad_event bind get ret emit]; rewrite ?H;
         eexists; eexists; split; reflexivity).
  destruct (negb (Qle_bool (Qabs value) float_0_1));
    [| eexists; eexists; split; reflexivity].
  destruct (axis <? 4); unfold int_of_product;
    match goal with |- context [overflows ?x] => destruct (overflows x) end;
    cbv [log_gamepad_event bind get ret raise emit]; rewrite ?H;
    eexists; eexists; split; reflexivity.
Qed.

Lemma gamepad_events_idle (evs : list (PygameEvent * LogEnv)) (st : Tracker) :
  recording st = false ->
  exists r out, gamepad_events evs st = (r, st, out) /\
                forallb print_or_sleep out = true.
Proof.
  intros H. induction evs as [| [ev env] rest IH].
  - exists (Return tt), []. split; reflexivity.
  - destruct IH as (r2 & o2 & E2 & P2).
    destruct (gamepad_event_idle env ev st H) as (r1 & o1 & E1 & P1).
    destruct ev; cbn [gamepad_events];
      try (unfold bind; rewrite E1; destruct r1 as [[] | e];
           [rewrite E2; exists r2, (o1 ++ o2); split;
            [reflexivity | rewrite forallb_app, P1, P2; reflexivity]
           | exists (Raise e), o1; split; [reflexivity | exact P1]]).
    exists (Return tt), []. split; reflexivity.
Qed.

Lemma call_idle (pn pg : bool) (c : Call) (st : Tracker) :
  recording st = false -> is_Start c = false ->
  exists r out, call pn pg c st = (r, st, out) /\
                forallb print_or_sleep out = true /\
                (is_GamepadTurn c = false -> out = []).
Proof.
  intros H Hc. destruct c; try discriminate; cbn [call].
  - rewrite stop_refused by exact H. now exists (Return tt), [].
  - unfold on_mouse_move, bind at 1, get at 1. rewrite H. now exists (Return tt), [].
  - unfold on_mouse_click, bind at 1, get at 1. rewrite H. now exists (Return tt), [].
  - unfold on_key_press, on_key, bind at 1, get at 1. rewrite H. now exists (Return tt), [].
  - unfold on_key_release, on_key, bind at 1, get at 1. rewrite H. now exists (Return tt), [].
  - destruct (gamepad_events_idle evs st H) as (r & o & E & P).
    cbn [gamepad_loop_turns]. unfold bind at 1, get_gt at 1, get at 1.
    unfold bind at 1, get_gt at 1, get at 1.
    destruct (tracking (gamepad_tracker st)); [| now exists (Return tt), []].
    destruct (joystick (gamepad_tracker st)); [| now exists (Return tt), []].
    unfold bind at 1, gamepad_loop_turn, try_except, bind at 1. rewrite E.
    destruct r as [[] | e]; cbn -[String.append];
      (exists (Return tt); eexists; split; [reflexivity |]);
      (split; [| discriminate]);
      rewrite !forallb_app, P; reflexivity.
Qed.

(** X6.  While the tracker is not recording, the callbacks of the sources
    and a stop do nothing to it: whatever sequence of mouse moves, clicks,
    key events, gamepad turns and stops arrives, the tracker is left exactly
    as it was (not even the mouse position is remembered) and nothing
    touches a file or a source; the only effects are the prints and sleeps
    of the gamepad loop.  This holds also when a log file is still open. *)
Theorem callbacks_inert_when_idle (pn pg : bool) :
  forall (cs : list Call) (st : Tracker),
    recording st = false -> existsb is_Start cs = false ->
    fst (run pn pg cs st) = st /\
    forallb print_or_sleep (snd (run pn pg cs st)) = true /\
    (existsb is_GamepadTurn cs = false -> snd (run pn pg cs st) = []).
Proof.
  induction cs as [| c cs IH]; intros st H Hcs.
  - cbn. repeat split.
  - cbn [existsb] in Hcs. apply orb_false_iff in Hcs. destruct Hcs as [Hc Hcs].
    destruct (call_idle pn pg c st H Hc) as (r & o & E & P & N).
    specialize (IH st H Hcs). cbn [run]. rewrite E.
    destruct (run pn pg cs st) as [st2 o2]. cbn [fst snd] in *.
    destruct IH as (I1 & I2 & I3).
    split; [exact I1 |]. split.
    + rewrite forallb_app, P, I2. reflexivity.
    + cbn [existsb]. intros G. apply orb_false_iff in G. destruct G as [G1 G2].
      rewrite (N G1), (I3 G2). reflexivity.
Qed.

Lemma callbacks_inert_when_idle_witness :
  let cs := [MouseMove (quiet_log 11) 3 4;
             KeyPress (quiet_log 12) (quiet_log 12) (SpecialKey "Key.shift");
             GamepadTurn [(JOYBUTTONDOWN 0, quiet_log 13)];
             Stop quiet_stop] in
  log_file half_started_tracker = Some sample_path /\
  fst (run true true cs half_started_tracker) = half_started_tracker /\
  forallb print_or_sleep (snd (run true true cs half_started_tracker)) = true.
Proof.
  intros cs. split; [reflexivity |].
  destruct (callbacks_inert_when_idle true true cs half_started_tracker) as (A & B & _);
    [reflexivity | reflexivity |].
  split; [exact A | exact B].
Defined.

(** X7.  A QUIT event ends the handling of its batch: the events polled
    together with it and queued after it are never handled (nothing is
    logged or printed for them), and the turn goes on to its sleep as if the
    batch had ended there. *)
Theorem quit_drops_rest_of_batch :
  forall (pre post : list (PygameEvent * LogEnv)) (env : LogEnv) (st : Tracker),
    gamepad_events (pre ++ (QUIT, env) :: post) st = gamepad_events pre st /\
    gamepad_loop_turn (pre ++ (QUIT, env) :: post) st = gamepad_loop_turn pre st.
Proof.
  intros pre post env.
  assert (E : forall st,
             gamepad_events (pre ++ (QUIT, env) :: post) st = gamepad_events pre st).
  { induction pre as [| [ev env'] pre IH]; intros st; [reflexivity |].
    destruct ev; cbn [app gamepad_events]; try reflexivity;
      unfold bind;
      match goal with
      | |- context [gamepad_event ?e ?v ?s] =>
          destruct (gamepad_event e v s) as [[[[] | ?] ?] ?]; [| reflexivity]
      end;
      rewrite IH; reflexivity. }
  intros st. split; [apply E |].
  unfold gamepad_loop_turn, try_except, bind. rewrite E. reflexivity.
Qed.

(** ** The gamepad tracker: start and stop *)

(** X8.  [stop_tracking] never raises and leaves the gamepad tracker
    stopped: tracking is false, the joystick is released when tracking was
    on, the thread is joined at most once, a second call does nothing, and
    the gamepad loop makes no further turn whatever events are queued. *)
Theorem stop_tracking_releases :
  forall (st : Tracker),
    let st' := snd (fst (stop_tracking st)) in
    fst (fst (stop_tracking st)) = Return tt /\
    tracking (gamepad_tracker st') = false /\
    (tracking (gamepad_tracker st) = true -> joystick (gamepad_tracker st') = None) /\
    (List.length (stopped_sources (snd (stop_tracking st))) <= 1)%nat /\
    same_but_sources st st' /\
    stop_tracking st' = (Return tt, st', []) /\
    forall batches, gamepad_loop_turns batches st' = (Return tt, st', []).
Proof.
  intros st.
  destruct st as [rec st_time lf ml kl lmp clp oc ocn sm gt ge imp sd ec mc kc gc].
  destruct gt as [tr th j pr].
  destruct tr, th, j; cbn; repeat split; try discriminate; try lia;
    intros batches; destruct batches; reflexivity.
Qed.

Lemma stop_tracking_releases_witness :
  tracking (gamepad_tracker recording_tracker) = true /\
  joystick (gamepad_tracker (snd (fst (stop_tracking recording_tracker)))) = None.
Proof.
  split; [reflexivity |].
  destruct (stop_tracking_releases recording_tracker) as (_ & _ & J & _).
  apply J. reflexivity.
Defined.

(** X9.  The three ways [start_tracking] ends.  It returns True only with
    tracking on, the joystick opened and the loop thread started; it
    returns False (pygame not ready, no gamepad, or a failure while
    connecting, which is printed) without starting the thread or turning
    tracking on; and it raises only when the start of the thread raises,
    in which case tracking is already on although no thread runs. *)
Theorem start_tracking_outcomes :
  forall (env : GamepadEnv) (st : Tracker),
    match start_tracking env st with
    | (Return true, st', out) =>
        pygame_ready (gamepad_tracker st) = true /\
        tracking (gamepad_tracker st') = true /\
        gamepad_thread (gamepad_tracker st') = true /\
        (exists name, joystick_open env = Ok name /\
                      joystick (gamepad_tracker st') = Some name) /\
        (exists n, joystick_count env = Ok n /\ n <> 0) /\
        started_sources out = [GamepadSource]
    | (Return false, st', out) =>
        tracking (gamepad_tracker st') = tracking (gamepad_tracker st) /\
        gamepad_thread (gamepad_tracker st') = gamepad_thread (gamepad_tracker st) /\
        started_sources out = []
    | (Raise e, st', out) =>
        thread_start_exn env = Some e /\
        tracking (gamepad_tracker st') = true /\
        started_sources out = []
    end.
Proof.
  intros env st.
  destruct st as [rec st_time lf ml kl lmp clp oc ocn sm gt ge imp sd ec mc kc gc].
  destruct gt as [tr th j pr].
  destruct env as [cnt opn ini thr].
  destruct pr; [| cbn; repeat split].
  destruct cnt as [n | e1]; [| cbn; repeat split].
  destruct (n =? 0) eqn:N.
  { cbv -[String.append Z.eqb]. rewrite N. cbn. repeat split. }
  assert (Hn : n <> 0) by (now apply Z.eqb_neq).
  destruct opn as [name | e2]; [| cbv -[String.append Z.eqb]; rewrite N; cbn; repeat split].
  destruct ini as [e3 |]; [cbv -[String.append Z.eqb]; rewrite N; cbn; repeat split |].
  destruct thr as [e4 |]; cbv -[String.append Z.eqb]; rewrite N; cbn; repeat split;
    eauto.
Qed.

(** ** A stop that fails *)

(** X10.  When the SessionEnd record cannot be written or flushed,
    [stop_recording] does not raise: it prints the error and returns with
    only the recording flag cleared.  No listener is stopped, the gamepad
    tracker keeps tracking, the log file is neither closed nor forgotten,
    and since the flag is cleared every later stop is refused, so that
    [stop_recording] never cleans up after such a failure. *)
Theorem failed_stop_cleans_nothing :
  forall (path : string) (st : Tracker) (env : StopEnv),
    Recording path st -> io_ok (end_env env) = false ->
    exists e out,
      (write_exn (end_env env) = Some e \/ flush_exn (end_env env) = Some e) /\
      stop_recording env st
      = (Return tt, set_recording false st,
         out ++ [Print ("Error stopping recording: " +++ exn_msg e)]) /\
      stopped_sources out = [] /\ closes out = 0%nat /\
      log_file (set_recording false st) = Some path /\
      forall env2, stop_recording env2 (set_recording false st)
                   = (Return tt, set_recording false st, []).
Proof.
  intros path st env (Hrec & Hf & t & Ht & Htr) Hio.
  assert (R : forall env2, stop_recording env2 (set_recording false st)
                           = (Return tt, set_recording false st, []))
    by (intros env2; now apply stop_refused).
  revert R.
  destruct st as [rec st_time lf ml kl lmp clp oc ocn sm gt ge imp sd ec mc kc gc].
  cbn in Hrec, Hf, Ht. subst rec lf st_time.
  destruct env as [spc [pc wt we fe]].
  unfold io_ok in Hio. cbn in Hio. intros R.
  destruct we as [e |].
  - exists e, []. split; [now left |].
    split.
    + cbv -[float_truthy py_round6 round64 round6 fsub Qminus Z.add String.append].
      rewrite Htr. reflexivity.
    + repeat split; exact R.
  - destruct fe as [e |]; [| discriminate].
    exists e. eexists. split; [now right |].
    split.
    + cbv -[float_truthy py_round6 round64 round6 fsub Qminus Z.add String.append make_entry end_details app].
      rewrite Htr. cbn [app]. 
      match goal with
      | |- (_, _, ?w :: ?p :: nil) = _ => change (w :: p :: nil) with ([w] ++ [p])
      end.
      reflexivity.
    + repeat split; exact R.
Qed.

Lemma failed_stop_cleans_nothing_witness :
  exists e out,
    stop_recording failing_stop recording_tracker
    = (Return tt, set_recording false recording_tracker,
       out ++ [Print ("Error stopping recording: " +++ exn_msg e)]) /\
    stopped_sources out = [] /\ closes out = 0%nat.
Proof.
  destruct (failed_stop_cleans_nothing sample_path recording_tracker failing_stop)
    as (e & out & _ & A & B & C & _).
  - split; [reflexivity | split; [reflexivity |]].
    exists 10%Q. split; reflexivity.
  - reflexivity.
  - exists e, out. repeat split; assumption.
Defined.

(** ** The log file of a session *)



(** ** A start at clock reading zero *)

Lemma log_event_muted (path : string) (env : LogEnv) (ty : string) (d : Dict) :
  pres (muted path) (@app Effect) (log_event env ty d).
Proof.
  intros g st (Hrec & Hf & (t & Ht & Htr) & Hc & Hg).
  rewrite (log_event_cases env ty d st path t Hf Ht), Htr.
  rewrite app_nil_r. repeat split; try assumption. now exists t.
Qed.

#[export] Hint Extern 1 (pres (muted _) _ (log_event _ _ _)) =>
  apply log_event_muted : pres.

Ltac muted_side :=
  intros ? ? (? & ? & ? & ? & ?); unfold muted; cbn;
  repeat split; try assumption;
  rewrite forallb_app; cbn; rewrite andb_true_r; assumption.

Lemma calls_keep_muted (pn pg : bool) (path : string) (c : Call) :
  is_Stop c = false -> pres (muted path) (@app Effect) (call pn pg c).
Proof.
  intros Hc. destruct c; try discriminate; cbn [call].
  - intros g st HI. pose proof HI as (Hrec & _).
    unfold bind. rewrite start_refused by exact Hrec. cbn. now rewrite app_nil_r.
  - pres_body; muted_side.
  - pres_body; muted_side.
  - pres_body; muted_side.
  - pres_body; muted_side.
  - apply pres_gamepad_loop_turns; [exact _ |].
    intros evs' [<- | []].
    pres_body; muted_side.
Qed.

Lemma run_muted (pn pg : bool) (path : string) (cs : list Call) :
  existsb is_Stop cs = false ->
  forall g st, muted path g st ->
    match run pn pg cs st with
    | (st', out) => muted path (g ++ out) st'
    end.
Proof.
  induction cs as [| c cs IH]; intros Hs g st HI.
  - cbn. now rewrite app_nil_r.
  - cbn [existsb] in Hs. apply orb_false_iff in Hs. destruct Hs as [Hc Hs].
    cbn [run].
    pose proof (calls_keep_muted pn pg path c Hc g st HI) as H1.
    destruct (call pn pg c st) as [[r st1] out1].
    specialize (IH Hs _ st1 H1).
    destruct (run pn pg cs st1) as [st2 out2].
    now rewrite app_assoc.
Qed.

Lemma stop_recording_muted (env : StopEnv) (st : Tracker) (path : string) (t : Q) :
  recording st = true -> log_file st = Some path -> start_time st = Some t ->
  float_truthy t = false ->
  exists st' out,
    stop_recording env st = (Return tt, st', out) /\
    records out = [] /\ closes out = 1%nat /\
    (forall content, lines_from path content out = content) /\
    recording st' = false /\ log_file st' = None.
Proof.
  intros Hrec Hf Ht Htr.
  destruct st as [rec st_time lf ml kl lmp clp oc ocn sm gt ge imp sd ec mc kc gc].
  destruct gt as [tr th j pr].
  cbn in Hrec, Hf, Ht. subst rec lf st_time.
  destruct env as [spc [pc wt we fe]].
  cbv -[float_truthy py_round6 round64 round6 fsub Qminus Z.add String.eqb make_entry end_details
        records closes lines_from app].
  rewrite Htr.
  destruct ml, kl, tr, th, j;
    (eexists; eexists; split; [reflexivity |]);
    cbn [records closes lines_from app]; repeat split.
Qed.

Lemma records_no_file_effect (out : list Effect) :
  forallb no_file_effect out = true -> records out = [] /\ closes out = 0%nat.
Proof.
  induction out as [| e out IH]; intros H; [split; reflexivity |].
  cbn [forallb] in H. apply andb_true_iff in H. destruct H as [He H].
  destruct e; try discriminate; cbn; now apply IH.
Qed.

Lemma closes_app (o1 o2 : list Effect) : closes (o1 ++ o2) = (closes o1 + closes o2)%nat.
Proof. apply add_app. Qed.

(** X12.  The session that starts at a perf-counter reading of exactly
    0.0 logs nothing: [log_event] tests the truth value of start_time, so
    the SessionStart record, every input record and the SessionEnd record
    are skipped and nothing is counted, whatever the callbacks deliver.  The
    start and the stop succeed all the same, and the log file is created,
    left empty and closed once. *)
Theorem zero_clock_session_is_silent (pn pg : bool) :
  forall (env0 : StartEnv) (st0 st1 : Tracker) (out0 : list Effect)
         (calls : list Call) (envx : StopEnv),
    start_recording_sync pn pg env0 st0 = (Return true, st1, out0) ->
    float_truthy (start_perf_counter env0) = false ->
    existsb is_Stop calls = false ->
    let st2 := fst (run pn pg calls st1) in
    let out1 := snd (run pn pg calls st1) in
    let out2 := snd (stop_recording envx st2) in
    records (out0 ++ out1 ++ out2) = [] /\
    file_content (log_path env0 st0) (out0 ++ out1 ++ out2) = [] /\
    closes (out0 ++ out1 ++ out2) = 1%nat /\
    event_count st2 = 0 /\
    fst (fst (stop_recording envx st2)) = Return tt /\
    recording (snd (fst (stop_recording envx st2))) = false.
Proof.
  intros env0 st0 st1 out0 calls envx Hstart Htr Hs st2 out1 out2.
  set (path := log_path env0 st0).
  apply start_success in Hstart.
  destruct Hstart as (_ & Hrec & Hf & Ht & _ & C0 & _ & _ & _ & _ & _ & hdr & rest & -> & Hrest & Hhdr).
  rewrite Htr in Hhdr. subst hdr. fold path in Hf |- *.
  assert (HI : muted path [] st1).
  { repeat split; try assumption. now exists (start_perf_counter env0). }
  pose proof (run_muted pn pg path calls Hs [] st1 HI) as H2.
  subst st2 out1 out2.
  destruct (run pn pg calls st1) as [st2 out1]. cbn [fst snd app] in *.
  destruct H2 as (Hrec2 & Hf2 & (t & Ht2 & Htr2) & Hc2 & Hq).
  destruct (stop_recording_muted envx st2 path t Hrec2 Hf2 Ht2 Htr2)
    as (st3 & out2 & Hstop & Hr & Hcl & Hlines & Hrec3 & _).
  rewrite Hstop. cbn [fst snd].
  destruct (records_no_file_effect _ Hrest) as [R1 K1].
  destruct (records_no_file_effect _ Hq) as [R2 K2].
  clearbody path.
  split; [| split; [| split]].
  - cbn [records]. rewrite !records_app, R1, R2, Hr. reflexivity.
  - unfold file_content. cbn [lines_from]. rewrite String.eqb_refl.
    rewrite !lines_from_app, (lines_from_no_file_effect _ rest) by assumption.
    rewrite (lines_from_no_file_effect _ out1) by assumption.
    apply Hlines.
  - cbn [closes]. rewrite !closes_app, K1, K2, Hcl. reflexivity.
  - repeat split; assumption.
Qed.

Lemma zero_clock_session_is_silent_witness :
  let st1 := snd (fst (start_recording_sync true true zero_clock_start idle_tracker)) in
  let out0 := snd (start_recording_sync true true zero_clock_start idle_tracker) in
  let calls := [MouseMove (quiet_log 1) 0 0; MouseMove (quiet_log 2) 3 4;
                KeyPress (quiet_log 3) (quiet_log 3) (SpecialKey "Key.shift")] in
  let st2 := fst (run true true calls st1) in
  let out1 := snd (run true true calls st1) in
  let out2 := snd (stop_recording quiet_stop st2) in
  records (out0 ++ out1 ++ out2) = [] /\
  closes (out0 ++ out1 ++ out2) = 1%nat.
Proof.
  intros st1 out0 calls st2 out1 out2.
  destruct (zero_clock_session_is_silent true true zero_clock_start idle_tracker st1
              out0 calls quiet_stop) as (A & _ & C & _).
  - vm_compute. reflexivity.
  - reflexivity.
  - reflexivity.
  - split; [exact A | exact C].
Defined.

(** ** Timestamps *)

Lemma py_round6_mono (q1 q2 : Q) : (q1 <= q2)%Q -> (py_round6 q1 <= py_round6 q2)%Q.
Proof.
  destruct q1 as [n1 d1], q2 as [n2 d2]. unfold Qle, py_round6. cbn [Qnum Qden].
  intros H.
  set (N1 := n1 * 1000000). set (N2 := n2 * 1000000).
  set (D1 := Z.pos d1) in *. set (D2 := Z.pos d2) in *.
  assert (HD1 : 0 < D1) by (subst D1; lia).
  assert (HD2 : 0 < D2) by (subst D2; lia).
  assert (HN : N1 * D2 <= N2 * D1) by (subst N1 N2; nia).
  pose proof (Z.div_mod N1 D1 ltac:(lia)) as E1.
  pose proof (Z.div_mod N2 D2 ltac:(lia)) as E2.
  pose proof (Z.mod_pos_bound N1 D1 HD1) as B1.
  pose proof (Z.mod_pos_bound N2 D2 HD2) as B2.
  set (f1 := N1 / D1) in *. set (r1 := N1 mod D1) in *.
  set (f2 := N2 / D2) in *. set (r2 := N2 mod D2) in *.
  clearbody f1 r1 f2 r2 N1 N2 D1 D2.
  rewrite E1, E2 in HN. clear E1 E2 N1 N2 H.
  assert (F : f1 <= f2).
  { destruct (Z.le_gt_cases f1 f2) as [L | L]; [exact L | exfalso].
    assert (A1 : D1 * D2 * (f2 + 1) <= D1 * D2 * f1)
      by (apply Z.mul_le_mono_nonneg_l; nia).
    assert (A2 : r2 * D1 < D2 * D1) by (apply Z.mul_lt_mono_pos_r; lia).
    assert (A3 : 0 <= r1 * D2) by nia.
    lia. }
  assert (G : f1 = f2 -> r1 * D2 <= r2 * D1) by (intros ->; lia).
  apply Z.mul_le_mono_nonneg_r; [lia |].
  destruct (Z.compare_spec (2 * r1) D1) as [C1 | C1 | C1];
    destruct (Z.compare_spec (2 * r2) D2) as [C2 | C2 | C2];
    try lia;
    try (destruct (Z.odd f1) eqn:O1; destruct (Z.odd f2) eqn:O2; try lia;
         destruct (Z.eq_dec f1 f2) as [-> | Ne]; [congruence | lia]);
    try (destruct (Z.odd f1) eqn:O1; try lia);
    try (destruct (Z.odd f2) eqn:O2; try lia);
    (destruct (Z.eq_dec f1 f2) as [Ef | Ne]; [specialize (G Ef); nia | lia]).
Qed.

Lemma py_round6_close (q : Q) : (Qabs (py_round6 q - q) <= 1 # 2000000)%Q.
Proof.
  destruct q as [n d]. apply Qabs_Qle_condition.
  unfold py_round6. cbn [Qnum Qden].
  set (N := n * 1000000). set (D := Z.pos d).
  assert (HD : 0 < D) by (subst D; lia).
  pose proof (Z.div_mod N D ltac:(lia)) as E.
  pose proof (Z.mod_pos_bound N D HD) as B.
  set (f := N / D) in *. set (r := N mod D) in *.
  assert (EN : n * 1000000 = D * f + r) by (subst N; exact E).
  clearbody f r.
  unfold Qle, Qminus, Qplus, Qopp. cbn [Qnum Qden].
  fold D.
  rewrite !Pos2Z.inj_mul. fold D.
  destruct (Z.compare_spec (2 * r) D) as [C | C | C];
    [destruct (Z.odd f) | |]; split; nia.
Qed.

Lemma py_round6_nonneg (q : Q) : (0 <= q)%Q -> (0 <= py_round6 q)%Q.
Proof.
  intros H. apply (py_round6_mono 0 q) in H.
  apply Qle_trans with (py_round6 0); [| exact H].
  unfold Qle. cbn. lia.
Qed.

(** X13.  Timestamps follow the clock.  The elapsed time is the float
    difference of the perf-counter reading and the start reading, and the
    timestamp is [round(elapsed, 6)]: the double nearest to a whole number
    of microseconds that lies within half a microsecond of that float
    difference.  Of two records logged one after the other in a session,
    the one logged at the later reading has the later (or the same)
    timestamp, and no timestamp is negative when the clock has not run
    backwards since the start. *)
Theorem timestamps_follow_the_clock :
  forall (path : string) (st : Tracker) (t : Q) (env1 env2 : LogEnv)
         (ty1 ty2 : string) (d1 d2 : Dict),
    Recording path st -> start_time st = Some t ->
    io_ok env1 = true -> io_ok env2 = true ->
    (perf_counter env1 <= perf_counter env2)%Q ->
    exists e1 e2 st1 st2,
      log_event env1 ty1 d1 st = (Return tt, st1, [FileWrite path e1; FileFlush path]) /\
      log_event env2 ty2 d2 st1 = (Return tt, st2, [FileWrite path e2; FileFlush path]) /\
      (timestamp e1 <= timestamp e2)%Q /\
      (exists k : Z,
          timestamp e1 = round64 (k # 1000000) /\
          (Qabs ((k # 1000000) - round64 (perf_counter env1 - t)) <= 1 # 2000000)%Q) /\
      ((t <= perf_counter env1)%Q -> (0 <= timestamp e1)%Q).
Proof.
  intros path st t env1 env2 ty1 ty2 d1 d2 HR Ht Hio1 Hio2 Hle.
  pose proof HR as (Hrec & Hf & t' & Ht' & Htr).
  assert (t' = t) by congruence. subst t'.
  pose proof (Recording_counted path ty1 st HR) as (Hrec1 & Hf1 & t1 & Ht1 & Htr1).
  assert (Ht1' : start_time (counted ty1 st) = Some t).
  { unfold counted.
    destruct (prefix "Mouse" ty1); [exact Ht |].
    destruct (prefix "Key" ty1); [exact Ht |].
    destruct (prefix "gamepad" ty1); exact Ht. }
  unfold io_ok in Hio1, Hio2.
  exists (make_entry env1 t ty1 d1), (make_entry env2 t ty2 d2),
         (counted ty1 st), (counted ty2 (counted ty1 st)).
  split.
  { rewrite (log_event_cases env1 ty1 d1 st path t Hf Ht), Htr.
    destruct (write_exn env1); [discriminate |].
    destruct (flush_exn env1); [discriminate |]. reflexivity. }
  split.
  { rewrite (log_event_cases env2 ty2 d2 _ path t Hf1 Ht1'), Htr.
    destruct (write_exn env2); [discriminate |].
    destruct (flush_exn env2); [discriminate |]. reflexivity. }
  cbn [make_entry timestamp]. unfold round6, fsub.
  split; [apply round64_mono, py_round6_mono, round64_mono; lra |].
  split.
  { eexists. split; [unfold py_round6; reflexivity |].
    apply (py_round6_close (round64 (perf_counter env1 - t))). }
  intros Hpos. apply round64_nonneg, py_round6_nonneg, round64_nonneg. lra.
Qed.

Lemma timestamps_follow_the_clock_witness :
  exists e1 e2 st1 st2,
    log_event (quiet_log 11) "MouseClick" [] recording_tracker
    = (Return tt, st1, [FileWrite sample_path e1; FileFlush sample_path]) /\
    log_event (quiet_log (25 # 2)) "KeyDown" [] st1
    = (Return tt, st2, [FileWrite sample_path e2; FileFlush sample_path]) /\
    (timestamp e1 <= timestamp e2)%Q.
Proof.
  destruct (timestamps_follow_the_clock sample_path recording_tracker 10
              (quiet_log 11) (quiet_log (25 # 2)) "MouseClick" "KeyDown" [] [])
    as (e1 & e2 & st1 & st2 & A & B & C & _).
  - split; [reflexivity | split; [reflexivity |]].
    exists 10%Q. split; reflexivity.
  - reflexivity.
  - reflexivity.
  - reflexivity.
  - cbn. unfold Qle. cbn. lia.
  - exists e1, e2, st1, st2. repeat split; assumption.
Defined.

(** ** The monitor loop never gives up *)

(** X14.  The monitor loop never raises, whatever the polls answer and
    whatever the starts and stops it calls do, and it leaves the fields of
    the OBS link (client, connected flag, monitor flag) as they are: only a
    change of these flags from outside ends it.  When the loop is entered
    with the monitor flag or the connected flag down it makes no turn. *)
Theorem monitor_loop_never_raises (pn pg : bool) :
  forall (envs : list TurnEnv) (prev : bool) (st : Tracker),
    exists b st' out,
      monitor_turns pn pg envs prev st = (Return b, st', out) /\
      same_link st st' /\
      (should_monitor st && obs_connected st = false ->
       b = prev /\ st' = st /\ out = []) /\
      (should_monitor st && obs_connected st = true ->
       List.length (sleeps out) = List.length envs).
Proof.
  induction envs as [| env envs IH]; intros prev st.
  - exists prev, st, []. repeat split.
  - cbn [monitor_turns]. unfold bind at 1, get at 1. unfold bind at 1, get at 1.
    destruct (should_monitor st && obs_connected st) eqn:Hflags.
    2:{ exists prev, st, []. repeat split. discriminate. }
    assert (T : exists l st1 o1,
               monitor_turn pn pg env prev st = (Return l, st1, o1) /\
               same_link st st1 /\ List.length (sleeps o1) = 1%nat).
    { destruct (obs_client st) eqn:Hc.
      - destruct (poll env) as [b | e] eqn:Hp.
        + destruct (monitor_turn_polled pn pg env prev st b Hc Hp)
            as (st1 & o1 & Ht & Hl & _ & Hs).
          exists b, st1, o1. rewrite Hs. repeat split; [exact Ht | apply Hl ..].
        + rewrite (monitor_turn_failed pn pg env prev st e Hc Hp).
          eexists; eexists; eexists. repeat split.
      - rewrite (monitor_turn_no_client pn pg env prev st Hc).
        eexists; eexists; eexists. repeat split. }
    destruct T as (l & st1 & o1 & Ht & (L1 & L2 & L3) & Hs).
    destruct (IH l st1) as (b & st2 & o2 & Hr & (M1 & M2 & M3) & _ & Hlen).
    cbn [app]. unfold bind. rewrite Ht, Hr.
    exists b, st2, (o1 ++ o2).
    split; [reflexivity |].
    split; [repeat split; congruence |].
    split; [discriminate |].
    intros _. rewrite sleeps_app, length_app, Hs.
    rewrite Hlen by (rewrite L2, L3; exact Hflags). reflexivity.
Qed.

Lemma monitor_loop_never_raises_witness :
  exists b st' out,
    monitor_turns true true
      (map sample_turn [Ok true; Fails timed_out; Ok false]) false linked_tracker
    = (Return b, st', out) /\
    List.length (sleeps out) = 3%nat.
Proof.
  destruct (monitor_loop_never_raises true true
              (map sample_turn [Ok true; Fails timed_out; Ok false]) false linked_tracker)
    as (b & st' & out & A & _ & _ & B).
  exists b, st', out. split; [exact A | apply B; reflexivity].
Defined.

(** ** The mouse track *)

Lemma last_cons_any {A : Type} (l : list A) (a d : A) :
  List.last (a :: l) d = List.last l a.
Proof.
  revert a d. induction l as [| b l IH]; intros a d; [reflexivity |].
  change (List.last (a :: b :: l) d) with (List.last (b :: l) d).
  rewrite (IH b d), (IH b a). reflexivity.
Qed.

Lemma spec_mouse_deltas_telescope (positions : list (Z * Z)) :
  forall px py,
    fold_right add_delta (0, 0) (map Some (spec_mouse_deltas (Some (px, py)) positions))
    = (fst (List.last positions (px, py)) - px, snd (List.last positions (px, py)) - py).
Proof.
  induction positions as [| [x y] rest IH]; intros px py.
  - cbn. f_equal; lia.
  - cbn [spec_mouse_deltas].
    rewrite last_cons_any.
    destruct ((x - px =? 0) && (y - py =? 0)) eqn:Hz.
    + apply andb_true_iff in Hz. destruct Hz as [Hx Hy].
      apply Z.eqb_eq in Hx, Hy. rewrite IH. f_equal; lia.
    + cbn [map fold_right add_delta]. rewrite IH. cbn [fst snd]. f_equal; lia.
Qed.

Lemma mouse_moves_final_position (pn pg : bool) (path : string)
      (moves : list (LogEnv * (Z * Z))) :
  forallb (fun m => io_ok (fst m)) moves = true ->
  forall st, Recording path st ->
    last_mouse_pos (fst (run pn pg (mouse_moves moves) st))
    = final_position (last_mouse_pos st) (map snd moves).
Proof.
  induction moves as [| [env [x y]] moves IH]; intros Hio st HR; [reflexivity |].
  cbn [forallb fst] in Hio. apply andb_true_iff in Hio. destruct Hio as [Hio Hios].
  cbn [mouse_moves map run call fst snd final_position].
  fold (mouse_moves moves).
  pose proof HR as (Hrec & Hf & t & Ht & Htr).
  assert (Step : exists st1 o1,
             on_mouse_move env x y st = (Return tt, st1, o1) /\
             Recording path st1 /\ last_mouse_pos st1 = Some (x, y)).
  { destruct (last_mouse_pos st) as [[px py] |] eqn:Hlast.
    - rewrite (on_mouse_move_recording env x y st path t px py) by assumption.
      destruct ((x - px =? 0) && (y - py =? 0)); eexists; eexists;
        (split; [reflexivity |]); split; try reflexivity.
      + exact HR.
      + exact (Recording_counted _ _ _ HR).
    - rewrite on_mouse_move_unseeded by assumption. rewrite Hrec.
      eexists; eexists. split; [reflexivity |]. split; [exact HR | reflexivity]. }
  destruct Step as (st1 & o1 & E & HR1 & L1). rewrite E.
  specialize (IH Hios st1 HR1).
  destruct (run pn pg (mouse_moves moves) st1) as [st2 o2]. cbn [fst] in *.
  rewrite IH, L1.
  destruct (map snd moves) as [| q rest]; [reflexivity |].
  cbn [final_position]. now rewrite last_cons_any.
Qed.

(** X15.  The mouse track can be rebuilt from the log.  Over any sequence
    of raw positions delivered while recording, the deltas of the records
    written add up to the displacement from the position the deltas start
    from (the one remembered before, or else the first one delivered) to the
    last position delivered, which is the position the tracker remembers
    afterwards.  (The writes are taken to succeed.) *)
Theorem mouse_deltas_sum_to_displacement (pn pg : bool) :
  forall (path : string) (st : Tracker) (moves : list (LogEnv * (Z * Z)))
         (x0 y0 x1 y1 : Z),
    Recording path st ->
    forallb (fun m => io_ok (fst m)) moves = true ->
    origin (last_mouse_pos st) (map snd moves) = Some (x0, y0) ->
    final_position (last_mouse_pos st) (map snd moves) = Some (x1, y1) ->
    let r := run pn pg (mouse_moves moves) st in
    total_delta (records (snd r)) = (x1 - x0, y1 - y0) /\
    last_mouse_pos (fst r) = Some (x1, y1).
Proof.
  intros path st moves x0 y0 x1 y1 HR Hio Ho Hf r. subst r.
  pose proof (mouse_moves_final_position pn pg path moves Hio st HR) as HL.
  pose proof (mouse_moves_refine_spec pn pg path moves Hio st HR) as H.
  destruct (run pn pg (mouse_moves moves) st) as [st' out]. cbn [fst snd] in *.
  destruct H as (H1 & _ & _).
  split; [| now rewrite HL].
  unfold total_delta. rewrite H1. clear H1 HL.
  destruct (last_mouse_pos st) as [[px py] |].
  - cbn [origin] in Ho. inversion Ho; subst px py.
    rewrite spec_mouse_deltas_telescope.
    destruct (map snd moves) as [| q rest].
    + cbn in Hf. inversion Hf; subst. reflexivity.
    + cbn [final_position] in Hf. inversion Hf as [Hl].
      rewrite last_cons_any, Hl. reflexivity.
  - destruct (map snd moves) as [| [qx qy] rest]; [discriminate |].
    cbn [origin hd_error] in Ho. inversion Ho; subst qx qy.
    cbn [final_position] in Hf. inversion Hf as [Hl].
    cbn [spec_mouse_deltas]. rewrite spec_mouse_deltas_telescope, Hl. reflexivity.
Qed.

Lemma mouse_deltas_sum_to_displacement_witness :
  let moves := [(quiet_log 11, (10, 10)); (quiet_log 12, (13, 14));
                (quiet_log 13, (13, 14)); (quiet_log 14, (7, 20))] in
  let r := run true true (mouse_moves moves) recording_tracker in
  total_delta (records (snd r)) = (7 - 10, 20 - 10) /\
  last_mouse_pos (fst r) = Some (7, 20).
Proof.
  intros moves.
  apply (mouse_deltas_sum_to_displacement true true sample_path recording_tracker moves).
  - split; [reflexivity | split; [reflexivity |]].
    exists 10%Q. split; reflexivity.
  - reflexivity.
  - reflexivity.
  - reflexivity.
Defined.

(** ** The OBS link *)

Lemma monitor_turns_link_down (pn pg : bool) (envs : list TurnEnv) (prev : bool)
      (st : Tracker) :
  should_monitor st && obs_connected st = false ->
  monitor_turns pn pg envs prev st = (Return prev, st, []).
Proof.
  intros H. destruct envs as [| env envs]; [reflexivity |].
  cbn [monitor_turns]. unfold bind at 1, get at 1. unfold bind at 1, get at 1.
  rewrite H. reflexivity.
Qed.

(** What [disconnect_obs] does, in one equation. *)
Lemma disconnect_obs_result (env : DisconnectEnv) (c : Companion) :
  disconnect_obs env c
  = (Return tt,
     set_tracker (set_obs_connected false
                    (set_obs_client false (set_should_monitor false (tracker c)))) c,
     (if obs_monitor_thread c && monitor_still_alive env then [MonitorJoin] else [])
     ++ (if obs_client (tracker c)
         then match client_disconnect_exn env with
              | None => [ClientClose]
              | Some _ => []
              end
         else [])).
Proof.
  destruct c as [st th].
  destruct st as [rec st_time lf ml kl lmp clp oc ocn sm gt ge imp sd ec mc kc gc].
  destruct env as [alive [e |]]; destruct th, alive, oc; reflexivity.
Qed.

(** X16.  [connect_obs] never raises, and its result is the connected
    flag it leaves: True with a client object and a monitor thread object in
    place, False after printing the failure.  It touches nothing of the
    tracker but the three fields of the link, and nothing of the outside
    world but the OBS client, the monitor thread and the console.  A monitor
    thread is started only by a call that returns True, and then the monitor
    flag is up. *)
Theorem connect_obs_outcomes :
  forall (env : ConnectEnv) (c : Companion),
    exists b c' out,
      connect_obs env c = (Return b, c', out) /\
      obs_connected (tracker c') = b /\
      same_but_link (tracker c) (tracker c') /\
      forallb is_Print (tracker_effects out) = true /\
      (b = true ->
       obs_client (tracker c') = true /\ obs_monitor_thread c' = true) /\
      (b = false ->
       exists e, List.last out Destroy
                 = OfTracker (Print ("Failed to connect to OBS: " +++ exn_msg e))) /\
      (existsb is_MonitorStart out = true ->
       b = true /\ should_monitor (tracker c') = true).
Proof.
  intros env c.
  destruct c as [st th].
  destruct st as [rec st_time lf ml kl lmp clp oc ocn sm gt ge imp sd ec mc kc gc].
  destruct env as [[host | e0] [port | e1] [password | e6] [e2 |] [e3 |]
                     [version | e4] alive [e5 |]];
    destruct th, alive;
    (eexists; eexists; eexists; split;
     [cbv -[String.append String.length Nat.eqb]; reflexivity |]);
    cbn -[String.append]; repeat split; try discriminate;
    intros _; repeat split; eexists; reflexivity.
Qed.

Lemma connect_obs_outcomes_witness :
  exists c' out,
    connect_obs obs_answers fresh_companion = (Return true, c', out) /\
    obs_client (tracker c') = true /\ obs_monitor_thread c' = true /\
    should_monitor (tracker c') = true.
Proof.
  destruct (connect_obs_outcomes obs_answers fresh_companion)
    as (b & c' & out & E & _ & _ & _ & A & _ & M).
  assert (Hb : b = true).
  { assert (X : fst (fst (connect_obs obs_answers fresh_companion)) = Return true)
      by reflexivity.
    rewrite E in X. cbn in X. now inversion X. }
  subst b. exists c', out.
  destruct (A eq_refl) as [A1 A2].
  assert (Hm : existsb is_MonitorStart out = true).
  { assert (X : existsb is_MonitorStart (snd (connect_obs obs_answers fresh_companion))
                = true) by reflexivity.
    rewrite E in X. exact X. }
  destruct (M Hm) as [_ M2].
  repeat split; assumption.
Defined.

(** X17.  [disconnect_obs] never raises, whatever the client does when it
    is told to disconnect, and brings the link down: the monitor flag, the
    client and the connected flag are all cleared, so that the monitor loop
    makes no further turn.  It touches nothing else: a recording in progress
    goes on, its log and its sources untouched, and from then on nothing
    but a manual stop ends it.  A second disconnect changes nothing and
    does not address the client again. *)
Theorem disconnect_obs_brings_link_down :
  forall (env : DisconnectEnv) (c : Companion),
    exists c' out,
      disconnect_obs env c = (Return tt, c', out) /\
      should_monitor (tracker c') = false /\
      obs_client (tracker c') = false /\
      obs_connected (tracker c') = false /\
      same_but_link (tracker c) (tracker c') /\
      recording (tracker c') = recording (tracker c) /\
      obs_monitor_thread c' = obs_monitor_thread c /\
      tracker_effects out = [] /\
      (existsb is_ClientClose out = true -> obs_client (tracker c) = true) /\
      (forall pn pg envs prev,
          monitor_turns pn pg envs prev (tracker c') = (Return prev, tracker c', [])) /\
      (forall env2, exists out2,
            disconnect_obs env2 c' = (Return tt, c', out2) /\
            existsb is_ClientClose out2 = false).
Proof.
  intros env c. rewrite disconnect_obs_result.
  eexists; eexists. split; [reflexivity |].
  destruct c as [st th].
  destruct st as [rec st_time lf ml kl lmp clp oc ocn sm gt ge imp sd ec mc kc gc].
  cbn [tracker set_tracker obs_monitor_thread set_obs_connected set_obs_client
       set_should_monitor should_monitor obs_client obs_connected recording].
  repeat split.
  - destruct (th && monitor_still_alive env); destruct oc;
      destruct (client_disconnect_exn env); reflexivity.
  - destruct oc; [reflexivity |].
    destruct (th && monitor_still_alive env); discriminate.
  - intros pn pg envs prev. now apply monitor_turns_link_down.
  - intros env2. rewrite disconnect_obs_result. eexists. split; [reflexivity |].
    cbn. destruct (th && monitor_still_alive env2); reflexivity.
Qed.

Lemma disconnect_obs_brings_link_down_witness :
  exists c' out,
    disconnect_obs quiet_disconnect recording_companion = (Return tt, c', out) /\
    recording (tracker c') = true /\
    obs_connected (tracker c') = false /\
    existsb is_ClientClose out = true /\
    obs_client (tracker recording_companion) = true.
Proof.
  destruct (disconnect_obs_brings_link_down quiet_disconnect recording_companion)
    as (c' & out & E & _ & _ & C & _ & R & _ & _ & K & _).
  assert (X : existsb is_ClientClose
                (snd (disconnect_obs quiet_disconnect recording_companion)) = true)
    by reflexivity.
  rewrite E in X. cbn [snd] in X.
  exists c', out. split; [exact E |].
  split; [rewrite R; reflexivity |].
  split; [exact C |]. split; [exact X | exact (K X)].
Defined.

(** X18.  Reconnecting while the old monitor thread is still alive leaves
    the link unmonitored.  After a disconnect, if the monitor thread has not
    ended yet when [connect_obs] is called, [start_obs_monitoring] returns
    at its first test: no thread is started and the monitor flag, which the
    disconnect cleared, is not raised again.  The call returns True with
    the connected flag set, but the old loop ends at its next test and
    nothing polls OBS any more. *)
Theorem reconnect_with_live_monitor :
  forall (denv : DisconnectEnv) (env : ConnectEnv) (c c2 : Companion)
         (out : list LinkEffect),
    obs_monitor_thread c = true -> monitor_alive env = true ->
    connect_obs env (snd (fst (disconnect_obs denv c))) = (Return true, c2, out) ->
    obs_connected (tracker c2) = true /\
    should_monitor (tracker c2) = false /\
    existsb is_MonitorStart out = false /\
    forall pn pg envs prev,
      monitor_turns pn pg envs prev (tracker c2) = (Return prev, tracker c2, []).
Proof.
  intros denv env c c2 out Hth Halive H.
  rewrite disconnect_obs_result in H. cbn [fst snd] in H.
  destruct c as [st th]. cbn in Hth. subst th.
  destruct st as [rec st_time lf ml kl lmp clp oc ocn sm gt ge imp sd ec mc kc gc].
  destruct env as [host port password e2 e3 version alive e5].
  cbn in Halive. subst alive.
  assert (K : obs_connected (tracker c2) = true /\
              should_monitor (tracker c2) = false /\
              existsb is_MonitorStart out = false).
  { destruct host as [host | e0], port as [port | e1], password as [password | e6],
             e2 as [e2 |], e3 as [e3 |], version as [version | e4];
      cbv -[String.append String.length Nat.eqb] in H;
      inversion H; subst; repeat split. }
  destruct K as (K1 & K2 & K3).
  repeat split; try assumption.
  intros pn pg envs prev. apply monitor_turns_link_down. now rewrite K2.
Qed.

Lemma reconnect_with_live_monitor_witness :
  let c1 := snd (fst (disconnect_obs quiet_disconnect connected_companion)) in
  let r := connect_obs obs_answers_monitor_alive c1 in
  fst (fst r) = Return true /\
  obs_connected (tracker (snd (fst r))) = true /\
  should_monitor (tracker (snd (fst r))) = false /\
  existsb is_MonitorStart (snd r) = false.
Proof.
  intros c1 r.
  assert (E : r = (Return true, snd (fst r), snd r)) by reflexivity.
  destruct (reconnect_with_live_monitor quiet_disconnect obs_answers_monitor_alive
              connected_companion (snd (fst r)) (snd r) eq_refl eq_refl E)
    as (A & B & C & _).
  repeat split; assumption.
Defined.

(** ** Closing the window *)

Lemma no_Destroy_of_tracker (o : list Effect) :
  existsb is_Destroy (map OfTracker o) = false.
Proof. induction o as [| e o IH]; [reflexivity | exact IH]. Qed.

Lemma tracker_effects_of_tracker (o : list Effect) :
  tracker_effects (map OfTracker o) = o.
Proof. induction o as [| e o IH]; [reflexivity | cbn; now rewrite IH]. Qed.

(** X19.  [on_closing] never raises and destroys the window only with the
    tracker idle and the link down.  While recording it asks first; when
    the user declines, nothing at all is changed.  Otherwise the recording
    is stopped, then the link is brought down, and the window is destroyed
    last and once.  When no recording is active nothing is asked and the
    session layer is not touched. *)
Theorem on_closing_destroys_only_when_idle :
  forall (env : ClosingEnv) (c : Companion),
    exists c' out,
      on_closing env c = (Return tt, c', out) /\
      (recording (tracker c) = true -> askokcancel env = false ->
       c' = c /\ out = [AskQuit]) /\
      (recording (tracker c) = false \/ askokcancel env = true ->
       recording (tracker c') = false /\
       obs_connected (tracker c') = false /\
       should_monitor (tracker c') = false /\
       obs_client (tracker c') = false /\
       exists before, out = before ++ [Destroy] /\ existsb is_Destroy before = false) /\
      (recording (tracker c) = false ->
       tracker_effects out = [] /\ existsb is_AskQuit out = false).
Proof.
  intros env c. destruct c as [st th].
  unfold on_closing. unfold co_bind at 1. unfold lift at 1, get at 1.
  cbn [tracker set_tracker obs_monitor_thread map].
  destruct (recording st) eqn:Hrec.
  - unfold co_bind at 1, co_emit at 1.
    destruct (askokcancel env) eqn:Hask.
    + destruct (stop_returns (closing_stop env) st) as (st1 & o1 & Hs).
      pose proof (stop_leaves_idle (closing_stop env) st) as Hidle.
      rewrite Hs in Hidle. cbn [fst snd] in Hidle.
      unfold co_bind at 1. unfold lift at 1.
      cbn [tracker set_tracker obs_monitor_thread]. rewrite Hs.
      unfold co_bind at 1. rewrite disconnect_obs_result.
      cbn [tracker set_tracker obs_monitor_thread co_emit app].
      eexists; eexists. split; [reflexivity |].
      split; [discriminate |].
      split; [| discriminate].
      intros _. cbn [recording obs_connected should_monitor obs_client
                     set_obs_connected set_obs_client set_should_monitor].
      repeat split; try assumption.
      match goal with
      | |- exists before, AskQuit :: ?a ++ ?b ++ [Destroy] = _ /\ _ =>
          exists (AskQuit :: a ++ b)
      end.
      split; [cbn [app]; now rewrite app_assoc |].
      cbn [existsb is_Destroy orb]. rewrite !existsb_app, no_Destroy_of_tracker.
      destruct (th && monitor_still_alive (closing_disconnect env));
        destruct (obs_client st1);
        destruct (client_disconnect_exn (closing_disconnect env)); reflexivity.
    + eexists; eexists. split; [reflexivity |].
      split; [intros _ _; split; reflexivity |].
      split; [intros [H | H]; discriminate |]. discriminate.
  - unfold co_bind at 1. rewrite disconnect_obs_result.
    cbn [tracker set_tracker obs_monitor_thread co_emit app].
    eexists; eexists. split; [reflexivity |].
    split; [discriminate |].
    split.
    + intros _. cbn [recording obs_connected should_monitor obs_client
                     set_obs_connected set_obs_client set_should_monitor].
      repeat split; try assumption.
      eexists. split; [reflexivity |].
      rewrite !existsb_app.
      destruct (th && monitor_still_alive (closing_disconnect env));
        destruct (obs_client st);
        destruct (client_disconnect_exn (closing_disconnect env)); reflexivity.
    + intros _.
      destruct (th && monitor_still_alive (closing_disconnect env));
        destruct (obs_client st);
        destruct (client_disconnect_exn (closing_disconnect env)); split; reflexivity.
Qed.

Lemma on_closing_destroys_only_when_idle_witness :
  (exists c' out,
      on_closing cancel_close recording_companion = (Return tt, c', out) /\
      c' = recording_companion /\ out = [AskQuit])
  /\
  (exists c' out,
      on_closing confirm_close recording_companion = (Return tt, c', out) /\
      recording (tracker c') = false /\ obs_connected (tracker c') = false).
Proof.
  split.
  - destruct (on_closing_destroys_only_when_idle cancel_close recording_companion)
      as (c' & out & E & A & _).
    destruct (A eq_refl eq_refl) as [A1 A2].
    exists c', out. repeat split; assumption.
  - destruct (on_closing_destroys_only_when_idle confirm_close recording_companion)
      as (c' & out & E & _ & B & _).
    destruct (B (or_intror eq_refl)) as (B1 & B2 & _).
    exists c', out. repeat split; assumption.
Defined.

(** ** The duration shown in the window *)

Lemma Qfloor_unique (q : Q) (z : Z) :
  (inject_Z z <= q)%Q -> (q < inject_Z z + 1)%Q -> Qfloor q = z.
Proof.
  intros Hlo Hhi.
  assert (A : z <= Qfloor q).
  { apply Qfloor_resp_le in Hlo. now rewrite Qfloor_Z in Hlo. }
  assert (B : Qfloor q < z + 1).
  { rewrite Zlt_Qlt. rewrite inject_Z_plus.
    apply Qle_lt_trans with q; [apply Qfloor_le | exact Hhi]. }
  lia.
Qed.

Lemma py_int_nonneg (q : Q) : (0 <= q)%Q -> py_int q = Qfloor q.
Proof.
  destruct q as [n d]. unfold Qle, py_int, Qfloor. cbn [Qnum Qden]. intros H.
  apply Z.quot_div_nonneg; lia.
Qed.

Lemma length_append (s1 s2 : string) :
  String.length (s1 +++ s2) = (String.length s1 + String.length s2)%nat.
Proof. induction s1 as [| c s1 IH]; [reflexivity | cbn; now rewrite IH]. Qed.

Lemma fmt_02d_length (n : Z) : 0 <= n < 100 -> String.length (fmt_02d n) = 2%nat.
Proof.
  intros H.
  assert (E : n = Z.of_nat (Z.to_nat n)) by lia.
  assert (B : (Z.to_nat n < 100)%nat) by lia.
  rewrite E. generalize dependent (Z.to_nat n). clear. intros k _ B.
  do 100 (destruct k as [| k]; [reflexivity |]). lia.
Qed.

Lemma py_int_whole (q : Q) (z : Z) : 0 <= z -> (q == inject_Z z)%Q -> py_int q = z.
Proof.
  intros Hz H.
  assert (P : (0 <= q)%Q).
  { rewrite H. change 0%Q with (inject_Z 0). now rewrite <- Zle_Qle. }
  rewrite (py_int_nonneg _ P), (Qfloor_comp _ _ H). apply Qfloor_Z.
Qed.

(** Below 2^53 the float [divmod] by a whole number is the exact one. *)
Lemma py_divmod_exact (x : Q) (y : Z) :
  0 < y -> (0 <= x)%Q -> (x <= inject_Z (2 ^ 53))%Q ->
  let q := Qfloor (x / inject_Z y) in
  0 <= q /\
  (fst (py_divmod x (inject_Z y)) == inject_Z q)%Q /\
  (snd (py_divmod x (inject_Z y)) == x - inject_Z q * inject_Z y)%Q /\
  (0 <= snd (py_divmod x (inject_Z y)))%Q /\
  (snd (py_divmod x (inject_Z y)) < inject_Z y)%Q.
Proof.
  intros Hy Hx Hb q.
  assert (HyQ : (0 < inject_Z y)%Q).
  { change 0%Q with (inject_Z 0). rewrite <- Zlt_Qlt. exact Hy. }
  assert (Hxy : (0 <= x / inject_Z y)%Q).
  { unfold Qdiv. apply Qmult_le_0_compat; [exact Hx |].
    apply Qlt_le_weak, Qinv_lt_0_compat. exact HyQ. }
  assert (Hq : 0 <= q).
  { apply Qfloor_resp_le in Hxy. exact Hxy. }
  pose proof (Qfloor_le (x / inject_Z y)) as F1.
  pose proof (Qlt_floor (x / inject_Z y)) as F2.
  fold q in F1, F2. rewrite inject_Z_plus in F2. change (inject_Z 1) with 1%Q in F2.
  assert (G1 : (inject_Z q * inject_Z y <= x)%Q).
  { apply Qmult_le_compat_r with (z := inject_Z y) in F1; [| lra].
    assert (K : (x / inject_Z y * inject_Z y == x)%Q) by (field; lra).
    rewrite K in F1. exact F1. }
  assert (G2 : (x < (inject_Z q + 1) * inject_Z y)%Q).
  { apply Qmult_lt_compat_r with (z := inject_Z y) in F2; [| exact HyQ].
    assert (K : (x / inject_Z y * inject_Z y == x)%Q) by (field; lra).
    rewrite K in F2. exact F2. }
  set (r := (x - inject_Z q * inject_Z y)%Q).
  assert (Hr : (0 <= r)%Q /\ (r < inject_Z y)%Q) by (subst r; split; lra).
  assert (M : fmod x (inject_Z y) = r).
  { unfold fmod. rewrite (py_int_nonneg _ Hxy). reflexivity. }
  assert (Hqy : 0 <= q * y <= 2 ^ 53).
  { split; [apply Z.mul_nonneg_nonneg; lia |].
    rewrite Zle_Qle, inject_Z_mult. lra. }
  assert (Hq53 : 0 <= q <= 2 ^ 53) by nia.
  assert (S1 : (fsub x r == inject_Z (q * y))%Q).
  { unfold fsub.
    assert (K : (x - r == inject_Z (q * y))%Q) by (subst r; rewrite inject_Z_mult; ring).
    rewrite (round64_comp _ _ K). apply round64_int. exact Hqy. }
  assert (D0 : (fdiv (fsub x r) (inject_Z y) == inject_Z q)%Q).
  { unfold fdiv.
    assert (K : (fsub x r / inject_Z y == inject_Z q)%Q).
    { rewrite S1, inject_Z_mult. field. lra. }
    rewrite (round64_comp _ _ K). apply round64_int. exact Hq53. }
  assert (B1 : Qle_bool 0 r = true) by (apply Qle_bool_iff; apply Hr).
  assert (FL : Qfloor (fdiv (fsub x r) (inject_Z y)) = q).
  { rewrite (Qfloor_comp _ _ D0). apply Qfloor_Z. }
  assert (B2 : Qle_bool (fdiv (fsub x r) (inject_Z y) - inject_Z q) (1 # 2) = true).
  { apply Qle_bool_iff. rewrite D0. lra. }
  assert (B3 : Qle_bool 0 (inject_Z y) = true) by (apply Qle_bool_iff; lra).
  unfold py_divmod. rewrite M, B1, B3. cbn [negb xorb].
  rewrite andb_false_r, FL, B2. cbn [fst snd].
  split; [exact Hq |]. split; [reflexivity |]. split; [reflexivity |]. exact Hr.
Qed.

(** X20.  The duration shown while recording is the elapsed time, the
    float difference of the perf-counter reading and the start reading, cut
    to whole seconds and split by two float [divmod]s into hours, minutes
    and seconds.  For an elapsed time of at most 2^53 seconds the divisions
    are exact: minutes and seconds are below 60, the three parts add up to
    the whole seconds of that float difference, and up to 99:59:59 the text
    has the eight characters of HH:MM:SS.  Outside a recording no label is
    touched. *)
Theorem update_stats_duration :
  (forall (now : Q) (st : Tracker),
      recording st = false -> update_stats now st = None)
  /\
  (forall (now : Q) (st : Tracker) (t : Q),
      recording st = true -> start_time st = Some t -> float_truthy t = true ->
      (t <= now)%Q -> (now - t <= 2 ^ 53)%Q ->
      exists h m s : Z,
        option_map duration_label (update_stats now st)
        = Some ("Duration: " +++ fmt_02d h +++ ":" +++ fmt_02d m +++ ":" +++ fmt_02d s) /\
        0 <= h /\ 0 <= m < 60 /\ 0 <= s < 60 /\
        h * 3600 + m * 60 + s = Qfloor (round64 (now - t)) /\
        (h < 100 ->
         String.length (fmt_02d h +++ ":" +++ fmt_02d m +++ ":" +++ fmt_02d s) = 8%nat)).
Proof.
  split.
  - intros now st H. unfold update_stats. now rewrite H.
  - intros now st t Hrec Ht Htr Hle Hb.
    unfold update_stats. rewrite Hrec, Ht, Htr.
    fold (fsub now t).
    set (e := fsub now t).
    assert (He : (0 <= e)%Q) by (subst e; apply round64_nonneg; lra).
    assert (Hb' : (e <= inject_Z (2 ^ 53))%Q).
    { subst e. unfold fsub. apply round64_le; [is_double |].
      exact Hb. }
    change 3600%Q with (inject_Z 3600). change 60%Q with (inject_Z 60).
    destruct (py_divmod_exact e 3600 ltac:(lia) He Hb') as (Hh & F1 & R1 & R1a & R1b).
    destruct (py_divmod e (inject_Z 3600)) as [hours remainder].
    cbn [fst snd] in F1, R1, R1a, R1b.
    assert (Rb : (remainder <= inject_Z (2 ^ 53))%Q).
    { apply Qle_trans with (inject_Z 3600); [lra |]. rewrite <- Zle_Qle. lia. }
    destruct (py_divmod_exact remainder 60 ltac:(lia) R1a Rb) as (Hm & F2 & R2 & R2a & R2b).
    destruct (py_divmod remainder (inject_Z 60)) as [minutes seconds].
    cbn [fst snd] in F2, R2, R2a, R2b.
    set (h := Qfloor (e / inject_Z 3600)) in *.
    set (m := Qfloor (remainder / inject_Z 60)) in *.
    change (inject_Z 3600) with 3600%Q in *. change (inject_Z 60) with 60%Q in *.
    pose proof (Qfloor_le seconds) as S1.
    pose proof (Qlt_floor seconds) as S2. rewrite inject_Z_plus in S2.
    change (inject_Z 1) with 1%Q in S2.
    assert (Hm60 : m < 60).
    { rewrite Zlt_Qlt. change (inject_Z 60) with 60%Q. lra. }
    assert (Hs : 0 <= Qfloor seconds < 60).
    { split.
      - apply Qfloor_resp_le in R2a. exact R2a.
      - rewrite Zlt_Qlt. change (inject_Z 60) with 60%Q. lra. }
    exists h, m, (Qfloor seconds).
    split.
    { cbn [option_map duration_label].
      rewrite (py_int_whole hours h Hh F1), (py_int_whole minutes m Hm F2).
      rewrite (py_int_nonneg seconds R2a). reflexivity. }
    split; [exact Hh |]. split; [lia |]. split; [exact Hs |].
    split.
    { symmetry. apply Qfloor_unique.
      - rewrite !inject_Z_plus, !inject_Z_mult.
        change (inject_Z 3600) with 3600%Q. change (inject_Z 60) with 60%Q. lra.
      - rewrite !inject_Z_plus, !inject_Z_mult.
        change (inject_Z 3600) with 3600%Q. change (inject_Z 60) with 60%Q. lra. }
    intros Hh100.
    rewrite !length_append.
    rewrite !fmt_02d_length by lia. reflexivity.
Qed.

Lemma update_stats_duration_witness :
  exists h m s : Z,
    option_map duration_label (update_stats (7335 # 2) recording_tracker)
    = Some ("Duration: " +++ fmt_02d h +++ ":" +++ fmt_02d m +++ ":" +++ fmt_02d s) /\
    0 <= h /\ 0 <= m < 60 /\ 0 <= s < 60 /\
    h * 3600 + m * 60 + s = Qfloor (round64 ((7335 # 2) - 10)).
Proof.
  destruct update_stats_duration as [_ A].
  destruct (A (7335 # 2)%Q recording_tracker 10%Q) as (h & m & s & B1 & B2 & B3 & B4 & B5 & _).
  - reflexivity.
  - reflexivity.
  - reflexivity.
  - unfold Qle. cbn. lia.
  - vm_compute. discriminate.
  - exists h, m, s. repeat split; try assumption; lia.
Defined.

(** ** Key and click records *)

Lemma remove_all_aux_absent (pat s : string) :
  occurs pat s = false -> remove_all_aux pat 0 s = s.
Proof.
  induction s as [| c s IH]; intros H; [reflexivity |].
  cbn [occurs] in H. apply orb_false_iff in H. destruct H as [H1 H2].
  cbn [remove_all_aux]. rewrite H1, (IH H2). reflexivity.
Qed.

Lemma remove_all_aux_skip (pat p s : string) :
  remove_all_aux pat (String.length p) (p +++ s) = remove_all_aux pat 0 s.
Proof.
  induction p as [| c p IH]; [reflexivity |].
  cbn [String.length String.append remove_all_aux]. exact IH.
Qed.

Lemma prefix_append (p s : string) : prefix p (p +++ s) = true.
Proof.
  induction p as [| c p IH]; [destruct s; reflexivity |].
  cbn [String.append prefix]. destruct (Ascii.ascii_dec c c); [exact IH | congruence].
Qed.

(** [(pat + name).replace(pat, '')] is [name] when [pat] does not occur in
    [name]. *)
Lemma str_remove_prefix (pat name : string) :
  pat <> EmptyString -> occurs pat name = false ->
  str_remove pat (pat +++ name) = name.
Proof.
  intros Hp Hn. unfold str_remove.
  destruct pat as [| c p]; [congruence |].
  change (String c p +++ name) with (String c (p +++ name)).
  cbn [remove_all_aux].
  change (String c (p +++ name)) with (String c p +++ name).
  rewrite prefix_append.
  replace (String.length (String c p) - 1)%nat with (String.length p)
    by (cbn [String.length]; lia).
  rewrite remove_all_aux_skip. now apply remove_all_aux_absent.
Qed.

(** X21.  Key records.  While recording, a key press (release) whose
    write succeeds logs exactly one KeyDown (KeyUp) record, counted as a
    keyboard event, whose "key" is the character of the key when it has a
    non-empty one and otherwise the name of the key with "Key." removed, so
    Key.shift is logged as shift.  When the write raises an AttributeError
    the handler logs the key a second time under its raw name, "Key."
    included. *)
Theorem key_records_name_the_key :
  forall (path : string) (st : Tracker) (env env' : LogEnv) (k : Key),
    Recording path st ->
    (io_ok env = true ->
     (exists e,
         records (snd (on_key_press env env' k st)) = [e] /\
         event_type e = "KeyDown" /\ field "key" e = Some (JStr (key_str k)) /\
         keyboard_count (snd (fst (on_key_press env env' k st))) = keyboard_count st + 1)
     /\
     (exists e,
         records (snd (on_key_release env env' k st)) = [e] /\
         event_type e = "KeyUp" /\ field "key" e = Some (JStr (key_str k)) /\
         keyboard_count (snd (fst (on_key_release env env' k st))) = keyboard_count st + 1))
    /\
    (forall e0, write_exn env = Some e0 -> is_AttributeError e0 = true ->
                io_ok env' = true ->
                exists e,
                  records (snd (on_key_press env env' k st)) = [e] /\
                  event_type e = "KeyDown" /\
                  field "key" e = Some (JStr (key_repr k)))
    /\
    (forall c r, c <> EmptyString -> key_str (KeyCode (Some c) r) = c)
    /\
    (forall name, occurs "Key." name = false ->
                  key_str (SpecialKey ("Key." +++ name)) = name).
Proof.
  intros path st env env' k (Hrec & Hf & t & Ht & Htr).
  split; [| split; [| split]].
  - intros Hio. unfold io_ok in Hio.
    destruct (write_exn env) eqn:Hw; [discriminate |].
    destruct (flush_exn env) eqn:Hfl; [discriminate |].
    assert (K : forall ty,
               on_key ty env env' k st
               = (Return tt, counted ty st,
                  [FileWrite path (make_entry env t ty [("key", JStr (key_str k))]);
                   FileFlush path])).
    { intros ty. unfold on_key.
      unfold bind at 1, get at 1. rewrite Hrec. cbn [negb].
      unfold try_except_AttributeError, try_except.
      rewrite !(log_event_cases _ _ _ _ path t Hf Ht), Htr, Hw, Hfl. reflexivity. }
    unfold on_key_press, on_key_release. rewrite !K.
    split; eexists; repeat split.
  - intros e0 Hw Hattr Hio. unfold io_ok in Hio.
    destruct (write_exn env') eqn:Hw'; [discriminate |].
    destruct (flush_exn env') eqn:Hfl'; [discriminate |].
    unfold on_key_press, on_key.
    unfold bind at 1, get at 1. rewrite Hrec. cbn [negb].
    unfold try_except_AttributeError, try_except.
    rewrite (log_event_cases _ _ _ _ path t Hf Ht), Htr, Hw, Hattr.
    rewrite (log_event_cases _ _ _ _ path t Hf Ht), Htr, Hw', Hfl'.
    eexists; repeat split.
  - intros c r Hc. cbn [key_str].
    destruct c as [| a c]; [congruence | reflexivity].
  - intros name Hn. cbn [key_str]. apply str_remove_prefix; [discriminate | exact Hn].
Qed.

Lemma key_records_name_the_key_witness :
  (exists e,
      records (snd (on_key_press (quiet_log 11) (quiet_log 11)
                      (SpecialKey "Key.shift") recording_tracker)) = [e] /\
      event_type e = "KeyDown" /\
      field "key" e = Some (JStr "shift"))
  /\
  (exists e,
      records (snd (on_key_press (attribute_error_log 11) (quiet_log 11)
                      (SpecialKey "Key.shift") recording_tracker)) = [e] /\
      event_type e = "KeyDown" /\
      field "key" e = Some (JStr "Key.shift")).
Proof.
  assert (HR : Recording sample_path recording_tracker).
  { split; [reflexivity | split; [reflexivity |]].
    exists 10%Q. split; reflexivity. }
  split.
  - destruct (key_records_name_the_key sample_path recording_tracker (quiet_log 11)
                (quiet_log 11) (SpecialKey "Key.shift") HR) as (A & _ & _ & D).
    destruct (A eq_refl) as ((e & E1 & E2 & E3 & _) & _).
    exists e. split; [exact E1 | split; [exact E2 |]].
    rewrite E3. exact (f_equal (fun s => Some (JStr s)) (D "shift" eq_refl)).
  - destruct (key_records_name_the_key sample_path recording_tracker
                (attribute_error_log 11) (quiet_log 11) (SpecialKey "Key.shift") HR)
      as (_ & B & _).
    apply (B no_attribute); reflexivity.
Defined.

(** X22.  Click records.  While recording, a click whose write succeeds
    logs exactly one MouseClick record, counted as a mouse event, with the
    position of the click, the action pressed or released, and the button
    under its name with "Button." removed (Button.left is logged as left).
    A click does not change the position the next mouse delta is taken
    from. *)
Theorem click_records_name_the_button :
  forall (path : string) (st : Tracker) (env : LogEnv) (x y : Z)
         (button : string) (pressed : bool),
    Recording path st -> io_ok env = true ->
    let r := on_mouse_click env x y button pressed st in
    (exists e,
        records (snd r) = [e] /\
        event_type e = "MouseClick" /\
        field "button" e = Some (JStr (str_remove "Button." button)) /\
        field "action" e = Some (JStr (if pressed then "pressed" else "released")) /\
        field "x" e = Some (JInt x) /\ field "y" e = Some (JInt y)) /\
    mouse_count (snd (fst r)) = mouse_count st + 1 /\
    event_count (snd (fst r)) = event_count st + 1 /\
    last_mouse_pos (snd (fst r)) = last_mouse_pos st /\
    (forall name, occurs "Button." name = false -> button = "Button." +++ name ->
                  str_remove "Button." button = name).
Proof.
  intros path st env x y button pressed (Hrec & Hf & t & Ht & Htr) Hio r. subst r.
  unfold io_ok in Hio.
  destruct (write_exn env) eqn:Hw; [discriminate |].
  destruct (flush_exn env) eqn:Hfl; [discriminate |].
  assert (K : on_mouse_click env x y button pressed st
              = (Return tt, counted "MouseClick" st,
                 [FileWrite path
                    (make_entry env t "MouseClick"
                       [("button", JStr (str_remove "Button." button));
                        ("action", JStr (if pressed then "pressed" else "released"));
                        ("x", JInt x); ("y", JInt y)]);
                  FileFlush path])).
  { unfold on_mouse_click.
    unfold bind at 1, get at 1. rewrite Hrec. cbn [negb].
    rewrite (log_event_cases _ _ _ _ path t Hf Ht), Htr, Hw, Hfl. reflexivity. }
  rewrite !K. cbn [fst snd records].
  split; [eexists; repeat split |].
  split; [reflexivity |]. split; [reflexivity |]. split; [reflexivity |].
  intros name Hn ->. apply str_remove_prefix; [discriminate | exact Hn].
Qed.

Lemma click_records_name_the_button_witness :
  let r := on_mouse_click (quiet_log 11) 700 500 "Button.left" true
             (set_last_mouse_pos (Some (3, 4)) recording_tracker) in
  (exists e,
      records (snd r) = [e] /\
      event_type e = "MouseClick" /\
      field "button" e = Some (JStr "left") /\
      field "action" e = Some (JStr "pressed")) /\
  last_mouse_pos (snd (fst r)) = Some (3, 4).
Proof.
  intros r.
  destruct (click_records_name_the_button sample_path
              (set_last_mouse_pos (Some (3, 4)) recording_tracker)
              (quiet_log 11) 700 500 "Button.left" true)
    as ((e & E1 & E2 & E3 & E4 & _) & _ & _ & L & S).
  - split; [reflexivity | split; [reflexivity |]].
    exists 10%Q. split; reflexivity.
  - reflexivity.
  - split; [| exact L].
    exists e. split; [exact E1 | split; [exact E2 |]].
    split; [| exact E4].
    rewrite E3. rewrite (S "left" eq_refl eq_refl). reflexivity.
Defined.

(** ** The SessionStart record *)

Lemma get_gamepad_count_result (count : Answer Z) (s : Tracker) :
  get_gamepad_count count s
  = (Return (if pygame_ready (gamepad_tracker s)
             then match count with Ok n => n | Fails _ => 0 end
             else 0), s, []).
Proof.
  unfold get_gamepad_count, bind, get_gt, get, try_except, ask.
  destruct (pygame_ready (gamepad_tracker s)); [| reflexivity].
  destruct count; reflexivity.
Qed.

(** X23.  The SessionStart record describes the setup the session starts
    in.  A successful start writes exactly one record, the SessionStart
    record, stamped with the time elapsed since the reading it has just
    taken; it reports obs_sync true, the unix time of the start, whether
    OBS was connected, whether pynput and pygame are available and whether
    the gamepad is enabled.  The gamepad_count field is present exactly when
    the gamepad is enabled and pygame is available, and holds the number of
    joysticks, 0 when pygame is not ready or the query fails. *)
Theorem session_header_describes_the_setup (pn pg : bool) :
  forall (env : StartEnv) (st st' : Tracker) (out : list Effect),
    start_recording_sync pn pg env st = (Return true, st', out) ->
    float_truthy (start_perf_counter env) = true ->
    exists hdr,
      records out = [hdr] /\
      event_type hdr = "SessionStart" /\
      timestamp hdr
      = round6 (fsub (perf_counter (metadata_env env)) (start_perf_counter env)) /\
      field "obs_sync" hdr = Some (JBool true) /\
      field "start_time_unix" hdr = Some (JFloat (start_time_unix env)) /\
      field "obs_connected" hdr = Some (JBool (obs_connected st)) /\
      field "pynput_available" hdr = Some (JBool pn) /\
      field "gamepad_enabled" hdr = Some (JBool (gamepad_enabled st)) /\
      field "pygame_available" hdr = Some (JBool pg) /\
      field "gamepad_count" hdr
      = (if gamepad_enabled st && pg then Some (JInt (probed_count env st)) else None).
Proof.
  intros env st st' out H Htr.
  destruct (recording st) eqn:Hrec.
  { rewrite start_refused in H by assumption. discriminate. }
  unfold start_recording_sync in H.
  unfold bind at 1 in H. unfold get at 1 in H. rewrite Hrec in H.
  unfold try_except in H.
  match type of H with
  | context [match ?b ?s with _ => _ end] =>
      destruct (b s) as [[[r | e] s1] o1] eqn:B
  end.
  2:{ cbn in H. discriminate. }
  inversion H; subst; clear H.
  exec B.
  match type of Hrec with recording ?s = false => rename s into st0 end.
  match goal with
  | H : log_event _ _ _ ?s = (_, ?s', ?o) |- _ =>
      rename H into Elog; rename s into s_info; rename s' into s_log; rename o into o_log
  end.
  match goal with
  | H : (if pn then _ else _) _ = (_, ?s', ?o) |- _ =>
      rename H into Earm; rename s' into s_arm; rename o into o_arm
  end.
  match goal with
  | H : (if gamepad_enabled _ then _ else _) _ = (_, ?s', ?o) |- _ =>
      rename H into Egp; rename s' into s_gp; rename o into o_gp
  end.
  match goal with
  | H : _ = (Return ?i, s_info, ?o) |- _ =>
      rename H into Einfo; rename o into o_info; rename i into info
  end.
  effects_only no_file_effect Earm Q1.
  effects_only no_file_effect Egp Q3.
  clear Earm Egp.
  assert (I : o_info = [] /\
              log_file s_info = Some (log_path env st0) /\
              start_time s_info = Some (start_perf_counter env) /\
              info = [("obs_sync", JBool true);
                      ("start_time_unix", JFloat (start_time_unix env));
                      ("start_time_readable", JStr (start_time_readable env));
                      ("obs_connected", JBool (obs_connected st0));
                      ("pynput_available", JBool pn);
                      ("gamepad_enabled", JBool (gamepad_enabled st0));
                      ("pygame_available", JBool pg)]
                     ++ (if gamepad_enabled st0 && pg
                         then [("gamepad_count", JInt (probed_count env st0))]
                         else [])).
  { destruct (gamepad_enabled st0 && pg).
    - unfold bind in Einfo. rewrite get_gamepad_count_result in Einfo.
      unfold ret in Einfo. inversion Einfo; subst; clear Einfo.
      repeat split.
    - unfold ret in Einfo. inversion Einfo; subst; clear Einfo.
      rewrite app_nil_r. repeat split. }
  destruct I as (-> & If & It & ->).
  rewrite (log_event_cases _ _ _ _ _ _ If It), Htr in Elog.
  destruct (write_exn (metadata_env env)); [discriminate |].
  destruct (flush_exn (metadata_env env)); [discriminate |].
  inversion Elog; subst; clear Elog.
  eexists. split.
  { cbn [app records]. rewrite !records_app.
    destruct (records_no_file_effect _ Q1) as [-> _].
    destruct (records_no_file_effect _ Q3) as [-> _].
    reflexivity. }
  unfold field. cbn [make_entry event_type timestamp details].
  destruct (gamepad_enabled st0 && pg); cbn; repeat split.
Qed.

Lemma session_header_describes_the_setup_witness :
  exists hdr,
    records sample_start_effects = [hdr] /\
    event_type hdr = "SessionStart" /\
    field "gamepad_count" hdr = Some (JInt 1).
Proof.
  destruct (session_header_describes_the_setup true true quiet_start idle_tracker
              recording_tracker sample_start_effects sample_start_succeeds eq_refl)
    as (hdr & A & B & _ & _ & _ & _ & _ & _ & _ & C).
  exists hdr. repeat split; assumption.
Defined.

(** ** The gamepad loop never gives up *)

Lemma no_sleep_sleeps (out : list Effect) :
  forallb no_sleep out = true -> sleeps out = [].
Proof.
  induction out as [| e out IH]; intros H; [reflexivity |].
  cbn [forallb] in H. apply andb_true_iff in H. destruct H as [He H].
  destruct e; try discriminate; cbn; now apply IH.
Qed.

Lemma gamepad_loop_turn_returns (evs : list (PygameEvent * LogEnv)) (st : Tracker) :
  exists st' out,
    gamepad_loop_turn evs st = (Return tt, st', out) /\
    gamepad_tracker st' = gamepad_tracker st /\
    (sleeps out = [1 # 100] \/ sleeps out = [1 # 10]).
Proof.
  unfold gamepad_loop_turn, try_except. unfold bind at 1.
  destruct (gamepad_events evs st) as [[[[] | e] s1] o1] eqn:E.
  - framed same_gamepad_tracker E P.
    effects_only no_sleep E NS.
    cbn. eexists; eexists. split; [reflexivity |]. split; [exact P |].
    left. rewrite sleeps_app, (no_sleep_sleeps _ NS). reflexivity.
  - framed same_gamepad_tracker E P.
    effects_only no_sleep E NS.
    cbn. eexists; eexists. split; [reflexivity |]. split; [exact P |].
    right. rewrite sleeps_app, (no_sleep_sleeps _ NS). reflexivity.
Qed.

Lemma gamepad_loop_turns_returns (batches : list (list (PygameEvent * LogEnv))) :
  forall st,
    exists st' out,
      gamepad_loop_turns batches st = (Return tt, st', out) /\
      gamepad_tracker st' = gamepad_tracker st /\
      Forall (fun q => q = (1 # 100)%Q \/ q = (1 # 10)%Q) (sleeps out) /\
      List.length (sleeps out)
      = (match tracking (gamepad_tracker st), joystick (gamepad_tracker st) with
         | true, Some _ => List.length batches
         | _, _ => 0%nat
         end) /\
      (tracking (gamepad_tracker st) = false \/ joystick (gamepad_tracker st) = None ->
       st' = st /\ out = []).
Proof.
  induction batches as [| evs rest IH]; intros st.
  - exists st, []. cbn. repeat split; try constructor.
    destruct (tracking (gamepad_tracker st)); [| reflexivity].
    destruct (joystick (gamepad_tracker st)); reflexivity.
  - cbn [gamepad_loop_turns]. unfold bind at 1, get_gt at 1, get at 1.
    unfold bind at 1, get_gt at 1, get at 1.
    destruct (tracking (gamepad_tracker st)) eqn:Htr.
    2:{ exists st, []. cbn. repeat split; constructor. }
    destruct (joystick (gamepad_tracker st)) as [j |] eqn:Hj.
    2:{ exists st, []. cbn. repeat split; constructor. }
    destruct (gamepad_loop_turn_returns evs st) as (s1 & o1 & E1 & G1 & S1).
    destruct (IH s1) as (s2 & o2 & E2 & G2 & F2 & L2 & _).
    rewrite G1, Htr, Hj in L2.
    cbn [app]. unfold bind. rewrite E1, E2.
    exists s2, (o1 ++ o2).
    split; [reflexivity |]. split; [congruence |].
    rewrite sleeps_app. split; [| split].
    + apply Forall_app. split; [| exact F2].
      destruct S1 as [-> | ->]; (constructor; [auto | constructor]).
    + rewrite length_app, L2. destruct S1 as [-> | ->]; reflexivity.
    + intros [X | X]; discriminate.
Qed.

(** X24.  The gamepad loop never raises, whatever the events and
    whatever the logging of them does: a failure inside a turn is printed
    and the loop goes on.  It never changes the gamepad tracker, so only
    [stop_tracking] ends it; while tracking is on and a joystick is
    connected it handles every batch it is given and sleeps once after each,
    0.01 seconds or, after a failure, 0.1 seconds.  With tracking off or no
    joystick it only prints its two banners. *)
Theorem gamepad_loop_never_raises :
  forall (batches : list (list (PygameEvent * LogEnv))) (st : Tracker),
    exists st' out,
      gamepad_loop batches st
      = (Return tt, st',
         Print "Starting gamepad monitoring loop (using working test method)"
         :: out ++ [Print "Gamepad monitoring loop ended"]) /\
      gamepad_tracker st' = gamepad_tracker st /\
      Forall (fun q => q = (1 # 100)%Q \/ q = (1 # 10)%Q) (sleeps out) /\
      (tracking (gamepad_tracker st) = true -> joystick (gamepad_tracker st) <> None ->
       List.length (sleeps out) = List.length batches) /\
      (tracking (gamepad_tracker st) = false \/ joystick (gamepad_tracker st) = None ->
       st' = st /\ out = []).
Proof.
  intros batches st.
  destruct (gamepad_loop_turns_returns batches st) as (s1 & o1 & E & G & F & L & N).
  unfold gamepad_loop. unfold bind at 1, emit at 1. unfold bind at 1. rewrite E.
  unfold emit. cbn [app].
  exists s1, o1. split; [reflexivity |]. split; [exact G |]. split; [exact F |].
  split; [| exact N].
  intros Htr Hj. rewrite L, Htr.
  destruct (joystick (gamepad_tracker st)); [reflexivity | congruence].
Qed.

Lemma gamepad_loop_never_raises_witness :
  exists st' out,
    gamepad_loop [[(JOYBUTTONDOWN 0, failing_log 11)]; [(JOYBUTTONUP 0, quiet_log 12)]]
      recording_tracker
    = (Return tt, st',
       Print "Starting gamepad monitoring loop (using working test method)"
       :: out ++ [Print "Gamepad monitoring loop ended"]) /\
    List.length (sleeps out) = 2%nat.
Proof.
  destruct (gamepad_loop_never_raises
              [[(JOYBUTTONDOWN 0, failing_log 11)]; [(JOYBUTTONUP 0, quiet_log 12)]]
              recording_tracker) as (st' & out & A & _ & _ & B & _).
  exists st', out. split; [exact A |].
  apply B; [reflexivity | discriminate].
Defined.

(** ** The counters *)

Lemma log_event_balanced (env : LogEnv) (ty : string) (d : Dict) :
  categorised ty = true -> pres balanced keep (log_event env ty d).
Proof.
  intros Hty [] st (B & M & K & G). unfold keep.
  unfold log_event, bind, get, external, raise, emit, assign, ret.
  destruct (log_file st); [| repeat split; assumption].
  destruct (start_time st) as [t |]; [| repeat split; assumption].
  destruct (float_truthy t); [| repeat split; assumption].
  destruct (write_exn env); [repeat split; assumption |].
  destruct (flush_exn env); [repeat split; assumption |].
  unfold categorised in Hty.
  destruct (prefix "Mouse" ty); [cbn; unfold balanced; cbn; lia |].
  destruct (prefix "Key" ty); [cbn; unfold balanced; cbn; lia |].
  destruct (prefix "gamepad" ty); [cbn; unfold balanced; cbn; lia | discriminate].
Qed.

#[export] Hint Extern 1 (pres balanced _ (log_event _ _ _)) =>
  apply log_event_balanced; reflexivity : pres.

Ltac balanced_side :=
  intros ? ? ?; unfold balanced, keep in *; cbn; assumption.

Lemma calls_keep_balanced (pn pg : bool) (c : Call) :
  is_Stop c = false -> forall st, recording st = true ->
    balanced tt st ->
    match call pn pg c st with
    | (_, st', _) => balanced tt st'
    end.
Proof.
  intros Hc st Hrec HB. destruct c; try discriminate; cbn [call].
  - unfold bind. rewrite start_refused by exact Hrec. exact HB.
  - assert (P : pres balanced keep (on_mouse_move env x y)) by (pres_body; balanced_side).
    exact (P tt st HB).
  - assert (P : pres balanced keep (on_mouse_click env x y button pressed))
      by (pres_body; balanced_side).
    exact (P tt st HB).
  - assert (P : pres balanced keep (on_key_press env env' k)) by (pres_body; balanced_side).
    exact (P tt st HB).
  - assert (P : pres balanced keep (on_key_release env env' k))
      by (pres_body; balanced_side).
    exact (P tt st HB).
  - assert (P : pres balanced keep (gamepad_loop_turns [evs]))
      by (pres_body; balanced_side).
    exact (P tt st HB).
Qed.

Lemma run_balanced (pn pg : bool) (cs : list Call) :
  existsb is_Stop cs = false ->
  forall st, recording st = true -> balanced tt st ->
    balanced tt (fst (run pn pg cs st)).
Proof.
  induction cs as [| c cs IH]; intros Hs st Hrec HB; [exact HB |].
  cbn [existsb] in Hs. apply orb_false_iff in Hs. destruct Hs as [Hc Hs].
  cbn [run].
  pose proof (calls_keep_balanced pn pg c Hc st Hrec HB) as H1.
  pose proof (callbacks_same_session pn pg c Hc st Hrec) as H2.
  destruct (call pn pg c st) as [[r st1] out1].
  destruct H2 as (R1 & _).
  assert (Hrec1 : recording st1 = true) by congruence.
  specialize (IH Hs st1 Hrec1 H1).
  destruct (run pn pg cs st1) as [st2 out2]. exact IH.
Qed.

(** Two callbacks that overlap break the identity: where a thread switch
    falls between the read and the write of [self.event_count += 1], both
    callers return with event_count 1, mouse_count 1 and keyboard_count 1. *)
Lemma overlapping_callbacks_unbalance :
  let r := interleave [0; 0; 0; 0; 0; 1; 1; 1; 1; 1; 1; 1; 1; 0; 0; 0]%nat
             [mouse_caller; key_caller] recording_tracker in
  map finished (fst (fst r)) = [true; true] /\
  event_count (snd (fst r)) = 1 /\
  mouse_count (snd (fst r)) = 1 /\
  keyboard_count (snd (fst r)) = 1 /\
  gamepad_count (snd (fst r)) = 0.
Proof. vm_compute. repeat split. Qed.

(** X25.  The counters add up, as long as no two callbacks overlap.  In a
    session whose callbacks run one after another, after each of them,
    whatever they delivered and whichever of their writes or flushes failed,
    event_count is the sum of mouse_count, keyboard_count and gamepad_count,
    and none of them is negative.  Hence the SessionEnd record of a stop
    that begins when the callbacks have returned has
    total_events = mouse_events + keyboard_events + gamepad_events.  (For
    the record to be written: a non-zero start reading and a SessionEnd
    write that succeeds.  The identity is lost when callbacks overlap, as
    shown above.) *)
Theorem session_counters_add_up (pn pg : bool) :
  forall (env0 : StartEnv) (st0 st1 : Tracker) (out0 : list Effect)
         (calls : list Call) (envx : StopEnv),
    start_recording_sync pn pg env0 st0 = (Return true, st1, out0) ->
    existsb is_Stop calls = false ->
    let st2 := fst (run pn pg calls st1) in
    (event_count st2 = mouse_count st2 + keyboard_count st2 + gamepad_count st2 /\
     0 <= mouse_count st2 /\ 0 <= keyboard_count st2 /\ 0 <= gamepad_count st2)
    /\
    (float_truthy (start_perf_counter env0) = true -> io_ok (end_env envx) = true ->
     exists fin total mouse keyboard gamepad,
       records (snd (stop_recording envx st2)) = [fin] /\
       event_type fin = "SessionEnd" /\
       field "total_events" fin = Some (JInt total) /\
       field "mouse_events" fin = Some (JInt mouse) /\
       field "keyboard_events" fin = Some (JInt keyboard) /\
       field "gamepad_events" fin = Some (JInt gamepad) /\
       total = mouse + keyboard + gamepad /\
       0 <= mouse /\ 0 <= keyboard /\ 0 <= gamepad).
Proof.
  intros env0 st0 st1 out0 calls envx Hstart Hs st2.
  pose proof (start_success _ _ _ _ _ _ Hstart)
    as (_ & Hrec & Hf & Ht & _ & C0 & C1 & C2 & C3 & _).
  assert (HB : balanced tt st1) by (unfold balanced; rewrite C0, C1, C2, C3; lia).
  pose proof (run_balanced pn pg calls Hs st1 Hrec HB) as HB2. fold st2 in HB2.
  split; [exact HB2 |].
  intros Htr Hio.
  pose proof (callbacks_keep_session pn pg calls Hs st1 Hrec) as (S1 & S2 & S3).
  fold st2 in S1, S2, S3.
  assert (Hrec2 : recording st2 = true) by congruence.
  assert (Hf2 : log_file st2 = Some (log_path env0 st0)) by congruence.
  assert (Ht2 : start_time st2 = Some (start_perf_counter env0)) by congruence.
  destruct (stop_recording_session envx st2 _ _ Hrec2 Hf2 Ht2 Htr Hio)
    as (st3 & out2 & Hstop & Hr & _).
  rewrite Hstop. cbn [snd]. rewrite Hr.
  destruct HB2 as (B & M & K & G).
  eexists; eexists; eexists; eexists; eexists.
  split; [reflexivity |]. split; [reflexivity |].
  unfold field. cbn [make_entry details end_details dict_get String.eqb Ascii.eqb Bool.eqb].
  repeat (split; [reflexivity |]).
  repeat split; assumption.
Qed.

Lemma session_counters_add_up_witness :
  let calls := [MouseMove (quiet_log 11) 0 0; MouseMove (failing_log 12) 3 4;
                KeyPress (quiet_log 13) (quiet_log 13) (SpecialKey "Key.shift");
                GamepadTurn [(JOYBUTTONDOWN 0, quiet_log 14)]] in
  let st2 := fst (run true true calls recording_tracker) in
  event_count st2 = mouse_count st2 + keyboard_count st2 + gamepad_count st2.
Proof.
  intros calls.
  destruct (session_counters_add_up true true quiet_start idle_tracker recording_tracker
              sample_start_effects calls quiet_stop sample_start_succeeds eq_refl)
    as ((A & _) & _).
  exact A.
Defined.
